(** * Hostel management backend: occupancy, attendance and fee handlers

    A shallow embedding of the Express route handlers of the hostel
    backend (server/routes: rooms, users, attendance, fees).  Every handler
    is a sequence of parameterised SQL statements run one after the other
    against a MySQL store, with early returns; it is embedded as a function
    from the store (and the request) to the JSON response and the new
    store.  SQL tables are lists of rows: a [SELECT ... WHERE] is a
    [filter], an [UPDATE ... WHERE] rewrites every row that satisfies the
    predicate, an [INSERT] appends a row. *)

From Stdlib Require Import ZArith List String Ascii Bool Lia.
From Stdlib Require Import DecimalString DecimalPos.
From Stdlib Require Import PrimFloat Uint63 SpecFloat FloatOps.
Import ListNotations.

Open Scope string_scope.
Open Scope Z_scope.

(** ** Rows of the four tables *)

(** Modelled from the spec: the schema (CREATE TABLE) of the store.  The
    rows follow the data model of the design (User, Room, AttendanceRecord,
    Fee) under the column names the SQL statements of the routes use.
    Integer columns are MySQL INT, taken as unbounded signed integers; a
    date is a day number; a nullable column is an [option]. *)

Inductive role := admin | student.

Inductive att_status := present | late | absent.

Inductive fee_status := pending | paid | overdue.

Record user := mkUser {
  u_id : Z;
  u_name : string;
  u_email : string;
  u_password : string;
  u_role : role;
  u_room_no : option string;
  u_batch : option string;
  u_phone : option string;
  u_photo : option string;
  u_is_active : bool
}.

Record room := mkRoom {
  r_id : Z;
  r_room_no : string;
  r_capacity : Z;
  r_type : string;
  r_floor : Z;
  r_occupied : Z;
  r_is_active : bool
}.

Record attendance_row := mkAtt {
  a_id : Z;
  a_user_id : Z;
  a_date : Z;
  a_status : att_status;
  a_check_in_time : option string;
  a_check_out_time : option string
}.

Record fee := mkFee {
  f_id : Z;
  f_user_id : Z;
  f_amount : Z;
  f_fee_type : string;
  f_due_date : Z;
  f_description : option string;
  f_status : fee_status;
  f_paid_date : option Z;
  f_receipt_no : option string
}.

(** The store: the four tables, and the AUTO_INCREMENT counters behind
    [insertId] for the two tables the handlers insert into. *)
Record db := mkDb {
  users : list user;
  rooms : list room;
  attendance : list attendance_row;
  fees : list fee;
  next_user_id : Z;
  next_attendance_id : Z
}.

Definition with_users (us : list user) (d : db) : db :=
  mkDb us (rooms d) (attendance d) (fees d) (next_user_id d) (next_attendance_id d).

Definition with_rooms (rs : list room) (d : db) : db :=
  mkDb (users d) rs (attendance d) (fees d) (next_user_id d) (next_attendance_id d).

Definition with_fees (fs : list fee) (d : db) : db :=
  mkDb (users d) (rooms d) (attendance d) fs (next_user_id d) (next_attendance_id d).

Definition set_room_no (v : option string) (u : user) : user :=
  mkUser (u_id u) (u_name u) (u_email u) (u_password u) (u_role u) v
         (u_batch u) (u_phone u) (u_photo u) (u_is_active u).

Definition set_occupied (n : Z) (r : room) : room :=
  mkRoom (r_id r) (r_room_no r) (r_capacity r) (r_type r) (r_floor r) n
         (r_is_active r).

(** ** SQL statements over a table *)

Definition select_where {A} (p : A -> bool) (t : list A) : list A := filter p t.

Definition update_where {A} (p : A -> bool) (f : A -> A) (t : list A) : list A :=
  map (fun row => if p row then f row else row) t.

Definition insert_row {A} (row : A) (t : list A) : list A := t ++ [row].

(** ** Values of request fields

    A body field is absent ([undefined]), [null] or a string.  JavaScript
    truthiness of such a value: only a non-empty string is truthy. *)

Inductive field := undefined | null | str (s : string).

Definition truthy_string (s : string) : bool :=
  match s with EmptyString => false | String _ _ => true end.

Definition truthy (v : field) : bool :=
  match v with str s => truthy_string s | _ => false end.

(** A nullable VARCHAR column read back into JavaScript. *)
Definition truthy_col (c : option string) : bool :=
  match c with Some s => truthy_string s | None => false end.

(** The value a bound parameter stores in a nullable VARCHAR column; an
    [undefined] never gets that far, see [bindable] below. *)
Definition to_col (v : field) : option string :=
  match v with str s => Some s | _ => None end.

(** [db.promise().execute(sql, values)] refuses a value that is
    [undefined] ("Bind parameters must not contain undefined") before it
    sends anything: the promise is rejected, the [catch] of the route
    answers 500 and the statement is not run.  [null] is bound as NULL. *)
Definition bindable (v : field) : bool :=
  match v with undefined => false | _ => true end.

(** SQL equality on a nullable column: NULL equals nothing. *)
Definition col_eqb (c : option string) (s : string) : bool :=
  match c with Some x => String.eqb x s | None => false end.

(** ** Responses *)

Record response := mkResp { status_code : Z; message : string }.

Definition is_student (u : user) : bool :=
  match u_role u with student => true | admin => false end.

(** ** rooms.js: POST /:roomId/assign and POST /:roomId/unassign

    [studentId] is [None] when the body field fails the [isInt] validator. *)

(** SELECT room_no, capacity, occupied FROM rooms
    WHERE id = ? AND is_active = TRUE *)
Definition active_rooms_by_id (d : db) (roomId : Z) : list room :=
  select_where (fun r => (r_id r =? roomId) && r_is_active r) (rooms d).

(** SELECT id, room_no FROM users
    WHERE id = ? AND role = "student" AND is_active = TRUE *)
Definition active_students_by_id (d : db) (sid : Z) : list user :=
  select_where (fun u => (u_id u =? sid) && is_student u && u_is_active u)
               (users d).

(** SELECT room_no FROM rooms WHERE id = ? *)
Definition rooms_by_id (d : db) (roomId : Z) : list room :=
  select_where (fun r => r_id r =? roomId) (rooms d).

(** SELECT id FROM users WHERE id = ? AND room_no = ? *)
Definition users_in_room (d : db) (sid : Z) (room_no : string) : list user :=
  select_where (fun u => (u_id u =? sid) && col_eqb (u_room_no u) room_no)
               (users d).

Definition assign (d : db) (roomId : Z) (studentId : option Z) : response * db :=
  match studentId with
  | None => (mkResp 400 "Validation failed", d)
  | Some sid =>
    match active_rooms_by_id d roomId with
    | [] => (mkResp 404 "Room not found", d)
    | room :: _ =>
      if r_occupied room >=? r_capacity room then (mkResp 400 "Room is full", d)
      else
        match active_students_by_id d sid with
        | [] => (mkResp 404 "Student not found", d)
        | st :: _ =>
          if truthy_col (u_room_no st)
          then (mkResp 400 "Student is already assigned to a room", d)
          else
            let d1 := with_users
                        (update_where (fun u => u_id u =? sid)
                                      (set_room_no (Some (r_room_no room)))
                                      (users d)) d in
            let d2 := with_rooms
                        (update_where (fun r => r_id r =? roomId)
                                      (fun r => set_occupied (r_occupied r + 1) r)
                                      (rooms d1)) d1 in
            (mkResp 200 "Room assigned successfully", d2)
        end
    end
  end.

Definition unassign (d : db) (roomId : Z) (studentId : option Z) : response * db :=
  match studentId with
  | None => (mkResp 400 "Validation failed", d)
  | Some sid =>
    match rooms_by_id d roomId with
    | [] => (mkResp 404 "Room not found", d)
    | room :: _ =>
      match users_in_room d sid (r_room_no room) with
      | [] => (mkResp 400 "Student is not assigned to this room", d)
      | _ :: _ =>
        let d1 := with_users
                    (update_where (fun u => u_id u =? sid) (set_room_no None)
                                  (users d)) d in
        let d2 := with_rooms
                    (update_where (fun r => r_id r =? roomId)
                                  (fun r => set_occupied (r_occupied r - 1) r)
                                  (rooms d1)) d1 in
        (mkResp 200 "Student removed from room successfully", d2)
      end
    end
  end.

(** ** users.js: POST / (create user) and PUT /:id (update user) *)

Definition set_name (v : string) (u : user) : user :=
  mkUser (u_id u) v (u_email u) (u_password u) (u_role u) (u_room_no u)
         (u_batch u) (u_phone u) (u_photo u) (u_is_active u).

Definition set_email (v : string) (u : user) : user :=
  mkUser (u_id u) (u_name u) v (u_password u) (u_role u) (u_room_no u)
         (u_batch u) (u_phone u) (u_photo u) (u_is_active u).

Definition set_batch (v : option string) (u : user) : user :=
  mkUser (u_id u) (u_name u) (u_email u) (u_password u) (u_role u) (u_room_no u)
         v (u_phone u) (u_photo u) (u_is_active u).

Definition set_phone (v : option string) (u : user) : user :=
  mkUser (u_id u) (u_name u) (u_email u) (u_password u) (u_role u) (u_room_no u)
         (u_batch u) v (u_photo u) (u_is_active u).

Definition set_photo (v : option string) (u : user) : user :=
  mkUser (u_id u) (u_name u) (u_email u) (u_password u) (u_role u) (u_room_no u)
         (u_batch u) (u_phone u) v (u_is_active u).

Definition set_is_active (v : bool) (u : user) : user :=
  mkUser (u_id u) (u_name u) (u_email u) (u_password u) (u_role u) (u_room_no u)
         (u_batch u) (u_phone u) (u_photo u) v.

(** The authenticated requester, [req.user]. *)
Record identity := mkIdentity { id_of : Z; role_of : role }.

Definition role_eqb (a b : role) : bool :=
  match a, b with
  | admin, admin | student, student => true
  | _, _ => false
  end.

Definition is_admin (who : identity) : bool := role_eqb (role_of who) admin.

Record create_user_req := mkCreateUser {
  cu_name : field;
  cu_email : field;
  cu_password : field;
  cu_role : field;
  cu_room_no : field;
  cu_batch : field;
  cu_phone : field
}.

Record update_user_req := mkUpdateUser {
  uu_id : Z;                    (* req.params.id, as parseInt reads it *)
  uu_name : field;
  uu_email : field;
  uu_room_no : field;
  uu_batch : field;
  uu_phone : field;
  uu_is_active : option bool;   (* None: undefined *)
  uu_file : option string       (* req.file.filename of the uploaded photo *)
}.

Definition parse_role (s : string) : option role :=
  if String.eqb s "admin" then Some admin
  else if String.eqb s "student" then Some student
  else None.

(** UPDATE rooms SET occupied = occupied + k WHERE room_no = ? *)
Definition bump_room_no (k : Z) (room_no : string) (d : db) : db :=
  with_rooms
    (update_where (fun r => String.eqb (r_room_no r) room_no)
                  (fun r => set_occupied (r_occupied r + k) r)
                  (rooms d)) d.

Section Users.

(** Collaborators of the route: express-validator's [isEmail] and
    [bcrypt.hash(password, 10)]. *)
Variable isEmail : string -> bool.
Variable bcrypt_hash : string -> string.

(** The four express-validator checks of the create route. *)
Definition create_user_valid (q : create_user_req) : bool :=
  truthy (cu_name q)
  && match cu_email q with str s => isEmail s | _ => false end
  && match cu_password q with
     | str s => (6 <=? Z.of_nat (String.length s))
     | _ => false
     end
  && match cu_role q with
     | str s => match parse_role s with Some _ => true | None => false end
     | _ => false
     end.

Definition create_user (d : db) (q : create_user_req) : response * db :=
  if negb (create_user_valid q) then (mkResp 400 "Validation failed", d)
  else
    match cu_name q, cu_email q, cu_password q, cu_role q with
    | str name, str email, str password, str role_s =>
      match parse_role role_s with
      | None => (mkResp 400 "Validation failed", d)
      | Some rl =>
        match select_where (fun u => String.eqb (u_email u) email) (users d) with
        | _ :: _ => (mkResp 400 "User already exists with this email", d)
        | [] =>
          let hashedPassword := bcrypt_hash password in
          (* the INSERT binds room_no, batch and phone as the body has them *)
          if negb (bindable (cu_room_no q) && bindable (cu_batch q)
                   && bindable (cu_phone q))
          then (mkResp 500 "Failed to create user", d)
          else
          let userId := next_user_id d in
          (* photo and is_active are not in the INSERT: column defaults,
             no photo and an active account *)
          let row := mkUser userId name email hashedPassword rl
                            (to_col (cu_room_no q)) (to_col (cu_batch q))
                            (to_col (cu_phone q)) None true in
          let d1 := mkDb (insert_row row (users d)) (rooms d) (attendance d)
                         (fees d) (userId + 1) (next_attendance_id d) in
          let d2 := match cu_room_no q with
                    | str rn => if truthy_string rn then bump_room_no 1 rn d1
                                else d1
                    | _ => d1
                    end in
          (mkResp 201 "User created successfully", d2)
        end
      end
    | _, _, _, _ => (mkResp 400 "Validation failed", d)
    end.

End Users.

(** The SET clauses the update route collects in [updateFields]/[values],
    one definition per [if], in the order it pushes them. *)
Definition name_clause (q : update_user_req) : list (user -> user) :=
  match uu_name q with
  | str s => if truthy_string s then [set_name s] else []
  | _ => []
  end.

Definition email_clause (q : update_user_req) : list (user -> user) :=
  match uu_email q with
  | str s => if truthy_string s then [set_email s] else []
  | _ => []
  end.

Definition room_no_clause (q : update_user_req) : list (user -> user) :=
  match uu_room_no q with
  | undefined => []
  | v => [set_room_no (to_col v)]
  end.

Definition batch_clause (q : update_user_req) : list (user -> user) :=
  match uu_batch q with
  | str s => if truthy_string s then [set_batch (Some s)] else []
  | _ => []
  end.

Definition phone_clause (q : update_user_req) : list (user -> user) :=
  match uu_phone q with
  | str s => if truthy_string s then [set_phone (Some s)] else []
  | _ => []
  end.

Definition is_active_clause (who : identity) (q : update_user_req)
  : list (user -> user) :=
  match uu_is_active q with
  | Some b => if is_admin who then [set_is_active b] else []
  | None => []
  end.

Definition photo_clause (q : update_user_req) : list (user -> user) :=
  match uu_file q with
  | Some filename => [set_photo (Some filename)]
  | None => []
  end.

Definition update_fields (who : identity) (q : update_user_req)
  : list (user -> user) :=
  name_clause q ++ email_clause q ++ room_no_clause q ++ batch_clause q
  ++ phone_clause q ++ is_active_clause who q ++ photo_clause q.

Definition apply_fields (fs : list (user -> user)) (u : user) : user :=
  fold_left (fun acc f => f acc) fs u.

(** The email-uniqueness check of the update route: [true] when the new
    email is already taken by another user. *)
Definition email_taken (d : db) (q : update_user_req) (currentUser : user) : bool :=
  match uu_email q with
  | str e =>
    if truthy_string e && negb (String.eqb e (u_email currentUser)) then
      match select_where
              (fun u => String.eqb (u_email u) e && negb (u_id u =? uu_id q))
              (users d) with
      | [] => false
      | _ :: _ => true
      end
    else false
  | _ => false
  end.

(** The occupancy adjustment at the end of the update route. *)
Definition adjust_occupancy (who : identity) (q : update_user_req)
           (currentUser : user) (d : db) : db :=
  if is_admin who then
    match uu_room_no q with
    | undefined => d
    | v =>
      let oldRoom := u_room_no currentUser in
      let d1 := match oldRoom with
                | Some o => if truthy_string o then bump_room_no (-1) o d else d
                | None => d
                end in
      match v with
      | str rn => if truthy_string rn then bump_room_no 1 rn d1 else d1
      | _ => d1
      end
    end
  else d.

(** SELECT * FROM users WHERE id = ? *)
Definition users_by_id (d : db) (id : Z) : list user :=
  select_where (fun u => u_id u =? id) (users d).

(** The route at an id given as a decimal numeral, which the guard
    ([parseInt]) and the statements read as the same integer [uu_id]. *)
Definition update_user (d : db) (who : identity) (q : update_user_req)
  : response * db :=
  if role_eqb (role_of who) student && negb (uu_id q =? id_of who)
  then (mkResp 403 "Access denied", d)
  else
    match users_by_id d (uu_id q) with
    | [] => (mkResp 404 "User not found", d)
    | currentUser :: _ =>
      if email_taken d q currentUser then (mkResp 400 "Email already exists", d)
      else
        match update_fields who q with
        | [] => (mkResp 400 "No fields to update", d)
        | fs =>
          let d1 := with_users
                      (update_where (fun u => u_id u =? uu_id q)
                                    (apply_fields fs) (users d)) d in
          (mkResp 200 "User updated successfully",
           adjust_occupancy who q currentUser d1)
        end
    end.

(** The update route reads [req.params.id] twice.  The ownership guard
    reads it through [parseInt]; the statements bind the text itself, and
    MySQL compares it with the integer column after its own conversion of
    the text to a number.  On a decimal numeral the two readings are one
    integer, and that request is [update_user] above.  On other texts they
    can differ: [parseInt] stops at the first character that is no digit,
    MySQL reads an exponent too, so that 1e1 is 1 to the guard and 10 to
    the statements.  [update_user_raw] keeps the two apart: [uu_id] is the
    reading of the guard (NaN, which equals no id, being any integer other
    than the requester's), and [sql_id] the id the statements match, [None]
    when the text stands for no integer. *)
Definition email_taken_raw (d : db) (id : Z) (q : update_user_req)
           (currentUser : user) : bool :=
  match uu_email q with
  | str e =>
    if truthy_string e && negb (String.eqb e (u_email currentUser)) then
      match select_where
              (fun u => String.eqb (u_email u) e && negb (u_id u =? id))
              (users d) with
      | [] => false
      | _ :: _ => true
      end
    else false
  | _ => false
  end.

Definition update_user_raw (d : db) (who : identity) (sql_id : option Z)
           (q : update_user_req) : response * db :=
  if role_eqb (role_of who) student && negb (uu_id q =? id_of who)
  then (mkResp 403 "Access denied", d)
  else
    match sql_id with
    | None => (mkResp 404 "User not found", d)
    | Some id =>
      match users_by_id d id with
      | [] => (mkResp 404 "User not found", d)
      | currentUser :: _ =>
        if email_taken_raw d id q currentUser
        then (mkResp 400 "Email already exists", d)
        else
          match update_fields who q with
          | [] => (mkResp 400 "No fields to update", d)
          | fs =>
            let d1 := with_users
                        (update_where (fun u => u_id u =? id)
                                      (apply_fields fs) (users d)) d in
            (mkResp 200 "User updated successfully",
             adjust_occupancy who q currentUser d1)
          end
      end
    end.

(** ** attendance: POST /mark and POST /manual *)

(** The two readings of the clock the mark route takes: the UTC calendar
    day of [toISOString] and the local wall-clock time of [toTimeString]. *)
Record clock := mkClock {
  utc_date : Z;
  local_hh : nat;
  local_mm : nat;
  local_ss : nat
}.

Definition digit (n : nat) : ascii := ascii_of_nat (48 + n).

Definition pad2 (n : nat) : string :=
  String (digit (n / 10)) (String (digit (n mod 10)) EmptyString).

(** [new Date().toTimeString().split(' ')[0]]: the text HH:MM:SS. *)
Definition time_string (now : clock) : string :=
  pad2 (local_hh now) ++ ":" ++ pad2 (local_mm now) ++ ":" ++ pad2 (local_ss now).

(** JavaScript's [<] on two strings: lexicographic on code units, a proper
    prefix being smaller. *)
Fixpoint js_lt (a b : string) : bool :=
  match a, b with
  | _, EmptyString => false
  | EmptyString, String _ _ => true
  | String x a', String y b' =>
    if (nat_of_ascii x <? nat_of_ascii y)%nat then true
    else if (nat_of_ascii y <? nat_of_ascii x)%nat then false
    else js_lt a' b'
  end.

Definition js_gt (a b : string) : bool := js_lt b a.

(** What [JSON.parse(qrData)] gives: a SyntaxError, [null], or a value
    whose [userId] (a number, when present), [name] and [email] are read. *)
Inductive json_parse_result :=
| parse_error
| parsed_null
| parsed_object (userId : option Z) (name email : field).

Record mark_req := mkMark {
  mk_qrData : field;
  mk_parsed : json_parse_result
}.

Record manual_req := mkManual {
  mn_userId : Z;
  mn_date : Z;
  mn_status : att_status;
  mn_checkInTime : field;
  mn_checkOutTime : field
}.

(** SELECT id FROM attendance WHERE user_id = ? AND date = ? *)
Definition existing_attendance (d : db) (userId date : Z) : list attendance_row :=
  select_where (fun a => (a_user_id a =? userId) && (a_date a =? date))
               (attendance d).

Definition insert_attendance (d : db) (userId date : Z) (st : att_status)
           (t_in t_out : option string) : db :=
  mkDb (users d) (rooms d)
       (insert_row (mkAtt (next_attendance_id d) userId date st t_in t_out)
                   (attendance d))
       (fees d) (next_user_id d) (next_attendance_id d + 1).

Definition mark (d : db) (who : identity) (q : mark_req) (now : clock)
  : response * db :=
  if negb (truthy (mk_qrData q)) then (mkResp 400 "Validation failed", d)
  else
    match mk_parsed q with
    | parse_error => (mkResp 400 "Invalid QR code data", d)
    | parsed_null => (mkResp 500 "Failed to mark attendance", d)
    | parsed_object uid name email =>
      match uid with
      | None => (mkResp 400 "Invalid QR code format", d)
      | Some userId =>
        if (userId =? 0) || negb (truthy name) || negb (truthy email)
        then (mkResp 400 "Invalid QR code format", d)
        else if role_eqb (role_of who) student && negb (userId =? id_of who)
        then (mkResp 403 "QR code does not belong to you", d)
        else
          let today := utc_date now in
          let currentTime := time_string now in
          match existing_attendance d userId today with
          | _ :: _ => (mkResp 400 "Attendance already marked for today", d)
          | [] =>
            let isLate := js_gt currentTime "08:00:00" in
            let status := if isLate then late else present in
            (mkResp 200 "Attendance marked successfully",
             insert_attendance d userId today status (Some currentTime) None)
          end
      end
    end.

Definition manual (d : db) (who : identity) (q : manual_req) : response * db :=
  if negb (is_admin who) then (mkResp 403 "Access denied", d)
  else
    match existing_attendance d (mn_userId q) (mn_date q) with
    | _ :: _ => (mkResp 400 "Attendance already marked for this date", d)
    | [] =>
      (* the INSERT binds checkInTime and checkOutTime as the body has them *)
      if negb (bindable (mn_checkInTime q) && bindable (mn_checkOutTime q))
      then (mkResp 500 "Failed to mark attendance", d)
      else
      (mkResp 200 "Attendance marked successfully",
       insert_attendance d (mn_userId q) (mn_date q) (mn_status q)
                         (to_col (mn_checkInTime q)) (to_col (mn_checkOutTime q)))
    end.

(** ** attendance: GET /stats/:userId

    JavaScript numbers are IEEE-754 doubles, here the primitive binary64
    floats.  A count read from the store is an integer below 2^53 and is a
    double exactly. *)

Definition js_number (z : Z) : float := PrimFloat.of_uint63 (Uint63.of_Z z).

(** A nullable numeric column in arithmetic: [null] counts as 0. *)
Definition js_number_col (c : option Z) : float :=
  match c with Some z => js_number z | None => js_number 0 end.

(** [x.toFixed(2)] followed by [parseFloat], as a number of hundredths:
    the integer n for which n / 100 - x is closest to zero, the larger one
    on a tie, taken on the exact value m * 2^e of the double; a negative x
    is treated through its absolute value.  [None] stands for NaN and the
    infinities. *)
Definition to_fixed2 (x : float) : option Z :=
  match Prim2SF x with
  | S754_zero _ => Some 0
  | S754_finite sign m e =>
    let n := match e with
             | Z0 => 100 * Z.pos m
             | Zpos k => 100 * Z.pos m * 2 ^ Zpos k
             | Zneg k => (200 * Z.pos m + 2 ^ Zpos k) / 2 ^ (Zpos k + 1)
             end in
    Some (if sign then - n else n)
  | S754_infinity _ => None
  | S754_nan => None
  end.

Definition att_status_eqb (a b : att_status) : bool :=
  match a, b with
  | present, present | late, late | absent, absent => true
  | _, _ => false
  end.

(** SUM(CASE WHEN status = ? THEN 1 ELSE 0 END): NULL over no rows. *)
Definition sum_case (st : att_status) (rows : list attendance_row) : option Z :=
  match rows with
  | [] => None
  | _ :: _ =>
    Some (Z.of_nat (List.length
                      (filter (fun a => att_status_eqb (a_status a) st) rows)))
  end.

(** The [data] of the response.  The three sums are held by their value,
    whichever way the driver delivers them; the percentage is in hundredths. *)
Record stats_data := mkStats {
  totalDays : Z;
  presentDays : option Z;
  absentDays : option Z;
  lateDays : option Z;
  attendancePercentage : option Z
}.

(** How the driver hands the aggregate columns to JavaScript.  COUNT is a
    BIGINT and arrives as a number.  A SUM over integers is a DECIMAL:
    mysql2 returns it as its decimal text, unless the connection is opened
    with [decimalNumbers], in which case it returns the number.  The
    connection (config/database) is not part of the sources, so the option
    is a parameter of the route; [false] is the driver's default, and
    nothing in the routes sets it. *)
Inductive js_value := js_num (x : float) | js_text (s : string).

(** The text of a DECIMAL of scale 0. *)
Definition decimal_text (z : Z) : string := NilZero.string_of_int (Z.to_int z).

(** A column delivered as text, in a string concatenation: [null] reads
    "null". *)
Definition column_text (c : option Z) : string :=
  match c with Some z => decimal_text z | None => "null" end.

(** [presentDays + lateDays].  On two numbers (or nulls) [+] adds; as soon
    as one operand is a text it concatenates. *)
Definition plus_columns (decimalNumbers : bool) (a b : option Z) : js_value :=
  if decimalNumbers
  then js_num (PrimFloat.add (js_number_col a) (js_number_col b))
  else match a, b with
       | None, None => js_num (js_number 0)
       | _, _ => js_text (column_text a ++ column_text b)
       end.

Definition digit_value (c : ascii) : option Z :=
  let n := Z.of_nat (nat_of_ascii c) in
  if (48 <=? n) && (n <=? 57) then Some (n - 48) else None.

(** The numeral a text of decimal digits stands for, read from the left
    onto [acc]; [None] when another character occurs. *)
Fixpoint digits_value (acc : Z) (s : string) : option Z :=
  match s with
  | EmptyString => Some acc
  | String c rest =>
    match digit_value c with
    | Some v => digits_value (10 * acc + v) rest
    | None => None
    end
  end.

(** ToNumber, which [/] applies to its left operand.  Of the numeric
    literals of JavaScript only the texts of digits are modelled, any other
    text being NaN: the texts that reach the division here are two count
    numerals side by side, or contain "null", and those read as modelled. *)
Definition to_number (v : js_value) : float :=
  match v with
  | js_num x => x
  | js_text s =>
    match digits_value 0 s with
    | Some z => js_number z
    | None => PrimFloat.nan
    end
  end.

(** The conditional expression that computes [attendancePercentage]. *)
Definition percentage_of (decimalNumbers : bool) (totalDays : Z)
           (presentDays lateDays : option Z) : option Z :=
  if totalDays >? 0
  then to_fixed2
         (PrimFloat.mul
            (PrimFloat.div
               (to_number (plus_columns decimalNumbers presentDays lateDays))
               (js_number totalDays))
            (js_number 100))
  else Some 0.

(** The rows the statistics query aggregates; a date bound is [None] when
    the query string gives none. *)
Definition stats_rows (d : db) (targetUserId : Z) (startDate endDate : option Z)
  : list attendance_row :=
  select_where
    (fun a => (a_user_id a =? targetUserId)
              && match startDate with Some s => a_date a >=? s | None => true end
              && match endDate with Some e => a_date a <=? e | None => true end)
    (attendance d).

Definition attendance_stats (decimalNumbers : bool) (d : db) (who : identity)
           (userId : Z) (startDate endDate : option Z) : stats_data :=
  let targetUserId := if is_admin who then userId else id_of who in
  let rows := stats_rows d targetUserId startDate endDate in
  let total_days := Z.of_nat (List.length rows) in
  let present_days := sum_case present rows in
  let absent_days := sum_case absent rows in
  let late_days := sum_case late rows in
  mkStats total_days present_days absent_days late_days
          (percentage_of decimalNumbers total_days present_days late_days).

(** ** fees: PUT /:id/pay and PUT /update-overdue *)

Definition fee_status_eqb (a b : fee_status) : bool :=
  match a, b with
  | pending, pending | paid, paid | overdue, overdue => true
  | _, _ => false
  end.

Definition set_fee_status (s : fee_status) (f : fee) : fee :=
  mkFee (f_id f) (f_user_id f) (f_amount f) (f_fee_type f) (f_due_date f)
        (f_description f) s (f_paid_date f) (f_receipt_no f).

Definition pay_fee (paid_on : Z) (receipt : option string) (f : fee) : fee :=
  mkFee (f_id f) (f_user_id f) (f_amount f) (f_fee_type f) (f_due_date f)
        (f_description f) paid (Some paid_on) receipt.

(** SELECT * FROM fees WHERE id = ? *)
Definition fees_by_id (d : db) (id : Z) : list fee :=
  select_where (fun f => f_id f =? id) (fees d).

(** [paidDate] is [None] when the body gives none (a falsy value); [today]
    is the current UTC day the route falls back to.  [receiptNo] is bound
    as the body has it. *)
Definition mark_paid (d : db) (id : Z) (paidDate : option Z) (receiptNo : field)
           (today : Z) : response * db :=
  match fees_by_id d id with
  | [] => (mkResp 404 "Fee not found", d)
  | fee0 :: _ =>
    if fee_status_eqb (f_status fee0) paid
    then (mkResp 400 "Fee is already paid", d)
    else if negb (bindable receiptNo)
    then (mkResp 500 "Failed to mark fee as paid", d)
    else
      let paid_on := match paidDate with Some p => p | None => today end in
      (mkResp 200 "Fee marked as paid successfully",
       with_fees (update_where (fun f => f_id f =? id)
                               (pay_fee paid_on (to_col receiptNo))
                               (fees d)) d)
  end.

(** WHERE status = 'pending' AND due_date < CURDATE() *)
Definition is_past_due (curdate : Z) (f : fee) : bool :=
  fee_status_eqb (f_status f) pending && (f_due_date f <? curdate).

Definition update_overdue (d : db) (curdate : Z) : response * db :=
  let affectedRows := List.length (select_where (is_past_due curdate) (fees d)) in
  (mkResp 200 ("Updated " ++ NilEmpty.string_of_uint (Nat.to_uint affectedRows)
                          ++ " fees to overdue status"),
   with_fees (update_where (is_past_due curdate) (set_fee_status overdue)
                           (fees d)) d).

(** ** The routes as one request type, and sequential executions

    Requests are taken after the authentication middleware; the
    [requireAdmin] routes carry no identity. *)

Inductive request :=
| Assign (roomId : Z) (studentId : option Z)
| Unassign (roomId : Z) (studentId : option Z)
| CreateUser (q : create_user_req)
| UpdateUser (who : identity) (q : update_user_req)
| Mark (who : identity) (q : mark_req) (now : clock)
| Manual (who : identity) (q : manual_req)
| MarkPaid (id : Z) (paidDate : option Z) (receiptNo : field) (today : Z)
| UpdateOverdue (curdate : Z).

Section Server.

Variable isEmail : string -> bool.
Variable bcrypt_hash : string -> string.

Definition step (d : db) (rq : request) : response * db :=
  match rq with
  | Assign roomId studentId => assign d roomId studentId
  | Unassign roomId studentId => unassign d roomId studentId
  | CreateUser q => create_user isEmail bcrypt_hash d q
  | UpdateUser who q => update_user d who q
  | Mark who q now => mark d who q now
  | Manual who q => manual d who q
  | MarkPaid id paidDate receiptNo today => mark_paid d id paidDate receiptNo today
  | UpdateOverdue curdate => update_overdue d curdate
  end.

(** The store after a list of requests served one after the other. *)
Definition run (d : db) (rqs : list request) : db :=
  fold_left (fun acc rq => snd (step acc rq)) rqs d.

End Server.

(** ** Error kinds of the responses

    How a JSON response reads as one of the error kinds of the design:
    404 is NotFound, 403 Forbidden, 500 an infrastructure failure, and a 400
    is a Conflict when its message reports a broken business rule and
    InvalidInput otherwise. *)

Inductive outcome := Success | InvalidInput | NotFound | Forbidden | Conflict | Failure.

Definition conflict_messages : list string :=
  [ "Room is full";
    "Student is already assigned to a room";
    "Student is not assigned to this room";
    "Attendance already marked for today";
    "Attendance already marked for this date";
    "Fee is already paid" ].

Definition outcome_of (r : response) : outcome :=
  if (status_code r =? 200) || (status_code r =? 201) then Success
  else if status_code r =? 404 then NotFound
  else if status_code r =? 403 then Forbidden
  else if status_code r =? 400 then
    if existsb (String.eqb (message r)) conflict_messages then Conflict
    else InvalidInput
  else Failure.

(** A handler result that fails with kind [k] and leaves the store as it was. *)
Definition rejects (res : response * db) (k : outcome) (d : db) : Prop :=
  outcome_of (fst res) = k /\ snd res = d.

Definition succeeds (res : response * db) : Prop :=
  outcome_of (fst res) = Success.

(** The occupancy bound of a room row, and of a store. *)
Definition within_capacity (r : room) : Prop :=
  0 <= r_occupied r <= r_capacity r.

(** One attendance record per (user, day). *)
Definition att_key (a : attendance_row) : Z * Z := (a_user_id a, a_date a).

Definition attendance_unique (d : db) : Prop :=
  NoDup (map att_key (attendance d)).

(** Seconds since local midnight. *)
Definition seconds_of_day (now : clock) : Z :=
  3600 * Z.of_nat (local_hh now) + 60 * Z.of_nat (local_mm now)
  + Z.of_nat (local_ss now).

Definition valid_clock (now : clock) : Prop :=
  (local_hh now < 24 /\ local_mm now < 60 /\ local_ss now < 60)%nat.

(** ** Rows that agree outside one column

    What an UPDATE that sets one column leaves of a row, column by
    column. *)

Definition same_but_room_no (u u' : user) : Prop :=
  u_id u' = u_id u /\ u_name u' = u_name u /\ u_email u' = u_email u
  /\ u_password u' = u_password u /\ u_role u' = u_role u
  /\ u_batch u' = u_batch u /\ u_phone u' = u_phone u
  /\ u_photo u' = u_photo u /\ u_is_active u' = u_is_active u.

Definition same_but_occupied (r r' : room) : Prop :=
  r_id r' = r_id r /\ r_room_no r' = r_room_no r
  /\ r_capacity r' = r_capacity r /\ r_type r' = r_type r
  /\ r_floor r' = r_floor r /\ r_is_active r' = r_is_active r.

Definition same_but_status (f f' : fee) : Prop :=
  f_id f' = f_id f /\ f_user_id f' = f_user_id f /\ f_amount f' = f_amount f
  /\ f_fee_type f' = f_fee_type f /\ f_due_date f' = f_due_date f
  /\ f_description f' = f_description f /\ f_paid_date f' = f_paid_date f
  /\ f_receipt_no f' = f_receipt_no f.

(** What a payment leaves of a fee row: the UPDATE sets status, paid_date
    and receipt_no. *)
Definition same_bill (f f' : fee) : Prop :=
  f_id f' = f_id f /\ f_user_id f' = f_user_id f /\ f_amount f' = f_amount f
  /\ f_fee_type f' = f_fee_type f /\ f_due_date f' = f_due_date f
  /\ f_description f' = f_description f.

(** ** Stores and requests of the scenarios *)

Definition student_row (id : Z) (name email : string) (room_no : option string)
  : user :=
  mkUser id name email "$2a$10$hash" student room_no None None None true.

Definition room_row (id : Z) (room_no : string) (capacity occupied : Z) : room :=
  mkRoom id room_no capacity "double" 1 occupied true.

(** Room 101 (one bed) is full with Chitra, room 102 (two beds) holds
    Bilal, and Asha has no room. *)
Definition hostel_db : db :=
  mkDb [ student_row 1 "Asha" "asha@hostel.test" None;
         student_row 2 "Bilal" "bilal@hostel.test" (Some "102");
         student_row 3 "Chitra" "chitra@hostel.test" (Some "101") ]
       [ room_row 1 "101" 1 1; room_row 2 "102" 2 1 ]
       [] [] 4 1.

(** One empty room and one student without a room. *)
Definition fresh_db : db :=
  mkDb [ student_row 1 "Asha" "asha@hostel.test" None ]
       [ room_row 1 "101" 1 0 ]
       [] [] 2 1.

Definition asha : identity := mkIdentity 1 student.
Definition warden : identity := mkIdentity 9 admin.

(** A stand-in for the validator in the scenarios: an address has an at sign. *)
Fixpoint has_at_sign (s : string) : bool :=
  match s with
  | EmptyString => false
  | String c rest => Ascii.eqb c "@" || has_at_sign rest
  end.

(** A stand-in for bcrypt in the scenarios. *)
Definition tagged_hash (password : string) : string := "$2a$10$" ++ password.

(** A new student put straight into a room by the admin; the body gives
    [batch] and [phone] as null. *)
Definition new_student (name email room_no : string) : create_user_req :=
  mkCreateUser (str name) (str email) (str "secret1") (str "student")
               (str room_no) null null.

(** The same request from a form that leaves [batch] and [phone] out of
    the body. *)
Definition new_student_form (name email room_no : string) : create_user_req :=
  mkCreateUser (str name) (str email) (str "secret1") (str "student")
               (str room_no) undefined undefined.

(** Asha's QR code, as the server issues it. *)
Definition asha_qr : mark_req :=
  mkMark (str "{userId:1,name:Asha,email:asha@hostel.test}")
         (parsed_object (Some 1) (str "Asha") (str "asha@hostel.test")).

(** The admin entering an absence for Asha on day 20000. *)
Definition manual_again : manual_req := mkManual 1 20000 absent null null.

(** Day 20000 (UTC) at the given local wall-clock time. *)
Definition at_time (h m s : nat) : clock := mkClock 20000 h m s.

(** A ledger with one fee of each status; fee 1 fell due on day 19999. *)
Definition ledger_db : db :=
  mkDb [ student_row 1 "Asha" "asha@hostel.test" None ]
       []
       []
       [ mkFee 1 1 4500 "monthly" 19999 None pending None None;
         mkFee 2 1 4500 "monthly" 19969 None paid (Some 19960) (Some "R-17");
         mkFee 3 1 500 "late_fee" 19980 None overdue None None;
         mkFee 4 1 4500 "monthly" 20030 None pending None None ]
       2 1.

(** The percentage as the design words it: the exact quotient
    (present + late) / total * 100 rounded to 2 decimals, in hundredths,
    a tie going up. *)
Definition exact_percentage (total present_ late_ : Z) : Z :=
  (2 * 10000 * (present_ + late_) + total) / (2 * total).

(** The same with a tie going to the even hundredth. *)
Definition exact_percentage_half_even (total present_ late_ : Z) : Z :=
  let q := 10000 * (present_ + late_) / total in
  let r := 10000 * (present_ + late_) mod total in
  if 2 * r <? total then q
  else if total <? 2 * r then q + 1
  else if Z.even q then q else q + 1.

(** [n] school days for Asha from day 20001 on: the first [p] present, the
    next [l] late, the others absent. *)
Definition term_db (n p l : nat) : db :=
  mkDb [ student_row 1 "Asha" "asha@hostel.test" None ]
       []
       (map (fun k => mkAtt (Z.of_nat k) 1 (20000 + Z.of_nat k)
                            (if (k <=? p)%nat then present
                             else if (k <=? p + l)%nat then late else absent)
                            None None)
            (seq 1 n))
       [] 2 (Z.of_nat n + 1).

(** Asha and, under id 10, Jaya, neither with a room. *)
Definition wing_db : db :=
  mkDb [ student_row 1 "Asha" "asha@hostel.test" None;
         student_row 10 "Jaya" "jaya@hostel.test" None ]
       [ room_row 1 "101" 1 0 ]
       [] [] 11 1.

(** A profile update that only sets [room_no]. *)
Definition move_to (id : Z) (room_no : string) : update_user_req :=
  mkUpdateUser id undefined undefined (str room_no) undefined undefined None None.

(** ** rooms.js: GET /:id, POST /, PUT /:id, DELETE /:id *)

(** A read route answers with an error response or with its data. *)
Inductive reply (A : Type) :=
| failed (r : response)
| data (x : A).
Arguments failed {A} r.
Arguments data {A} x.

(** DELETE FROM t WHERE p *)
Definition delete_where {A} (p : A -> bool) (t : list A) : list A :=
  filter (fun row => negb (p row)) t.

(** The columns the occupants query selects. *)
Record occupant := mkOccupant {
  o_id : Z;
  o_name : string;
  o_email : string;
  o_phone : option string;
  o_photo : option string
}.

Definition occupant_of (u : user) : occupant :=
  mkOccupant (u_id u) (u_name u) (u_email u) (u_phone u) (u_photo u).

(** SELECT id, name, email, phone, photo FROM users
    WHERE room_no = ? AND role = "student" AND is_active = TRUE *)
Definition occupants (d : db) (room_no : string) : list occupant :=
  map occupant_of
      (select_where (fun u => col_eqb (u_room_no u) room_no
                              && is_student u && u_is_active u)
                    (users d)).

Definition get_room (d : db) (id : Z) : reply (room * list occupant) :=
  match rooms_by_id d id with
  | [] => failed (mkResp 404 "Room not found")
  | rm :: _ => data (rm, occupants d (r_room_no rm))
  end.

(** The store with the AUTO_INCREMENT counters of the rooms and fees
    tables, which the routes below insert into. *)
Record server := mkServer {
  store : db;
  next_room_id : Z;
  next_fee_id : Z
}.

Definition with_store (d : db) (s : server) : server :=
  mkServer d (next_room_id s) (next_fee_id s).

(** A route that inserts into neither table, run on the server. *)
Definition on_store (res : response * db) (s : server) : response * server :=
  (fst res, with_store (snd res) s).

Definition room_types : list string := ["single"; "double"; "triple"; "quad"].

Definition is_room_type (s : string) : bool := existsb (String.eqb s) room_types.

(** [rc_capacity] is [None] when the body field is not an integer;
    [rc_floor], which has no validator, is [None] when the body has no
    floor, and an integer otherwise. *)
Record create_room_req := mkCreateRoom {
  rc_room_no : field;
  rc_capacity : option Z;
  rc_type : field;
  rc_floor : option Z
}.

Definition create_room_valid (q : create_room_req) : bool :=
  truthy (rc_room_no q)
  && match rc_capacity q with
     | Some c => (1 <=? c) && (c <=? 10)
     | None => false
     end
  && match rc_type q with str s => is_room_type s | _ => false end.

(** Modelled from the spec: the column defaults of a new room, which the
    INSERT does not name: no occupant and an active room. *)
Definition new_room (id : Z) (room_no : string) (capacity : Z) (type : string)
           (floor : Z) : room :=
  mkRoom id room_no capacity type floor 0 true.

Definition create_room (s : server) (q : create_room_req) : response * server :=
  if negb (create_room_valid q) then (mkResp 400 "Validation failed", s)
  else
    match rc_room_no q, rc_capacity q, rc_type q with
    | str room_no, Some capacity, str type =>
      match select_where (fun r => String.eqb (r_room_no r) room_no)
                         (rooms (store s)) with
      | _ :: _ => (mkResp 400 "Room already exists", s)
      | [] =>
        (* the INSERT binds floor as the body has it, see [bindable] *)
        match rc_floor q with
        | None => (mkResp 500 "Failed to create room", s)
        | Some floor =>
          let insertId := next_room_id s in
          (mkResp 201 "Room created successfully",
           mkServer (with_rooms
                       (insert_row (new_room insertId room_no capacity type floor)
                                   (rooms (store s)))
                       (store s))
                    (insertId + 1) (next_fee_id s))
        end
      end
    | _, _, _ => (mkResp 400 "Validation failed", s)
    end.

Definition set_capacity (n : Z) (r : room) : room :=
  mkRoom (r_id r) (r_room_no r) n (r_type r) (r_floor r) (r_occupied r)
         (r_is_active r).

Definition set_type (t : string) (r : room) : room :=
  mkRoom (r_id r) (r_room_no r) (r_capacity r) t (r_floor r) (r_occupied r)
         (r_is_active r).

Definition set_floor (n : Z) (r : room) : room :=
  mkRoom (r_id r) (r_room_no r) (r_capacity r) (r_type r) n (r_occupied r)
         (r_is_active r).

Definition set_room_active (b : bool) (r : room) : room :=
  mkRoom (r_id r) (r_room_no r) (r_capacity r) (r_type r) (r_floor r)
         (r_occupied r) b.

(** [ur_capacity] is [no_int] when the body has no capacity, [bad_int] when
    it is not an integer. *)
Inductive int_field := no_int | bad_int | int_value (n : Z).

Record update_room_req := mkUpdateRoom {
  ur_capacity : int_field;
  ur_type : field;
  ur_floor : option Z;          (* None: undefined *)
  ur_is_active : option bool    (* None: undefined *)
}.

(** The two [optional()] validators of the update route. *)
Definition update_room_valid (q : update_room_req) : bool :=
  match ur_capacity q with
  | no_int => true
  | bad_int => false
  | int_value c => (1 <=? c) && (c <=? 10)
  end
  && match ur_type q with
     | undefined => true
     | null => false
     | str s => is_room_type s
     end.

Definition room_update_fields (q : update_room_req) : list (room -> room) :=
  (match ur_capacity q with int_value c => [set_capacity c] | _ => [] end)
  ++ (match ur_type q with
      | str s => if truthy_string s then [set_type s] else []
      | _ => []
      end)
  ++ (match ur_floor q with Some n => [set_floor n] | None => [] end)
  ++ (match ur_is_active q with Some b => [set_room_active b] | None => [] end).

Definition apply_room_fields (fs : list (room -> room)) (r : room) : room :=
  fold_left (fun acc f => f acc) fs r.

Definition update_room (d : db) (id : Z) (q : update_room_req) : response * db :=
  if negb (update_room_valid q) then (mkResp 400 "Validation failed", d)
  else
    match rooms_by_id d id with
    | [] => (mkResp 404 "Room not found", d)
    | currentRoom :: _ =>
      if match ur_capacity q with
         | int_value c => negb (c =? 0) && (c <? r_occupied currentRoom)
         | _ => false
         end
      then (mkResp 400 "New capacity cannot be less than current occupancy", d)
      else
        match room_update_fields q with
        | [] => (mkResp 400 "No fields to update", d)
        | fs =>
          (mkResp 200 "Room updated successfully",
           with_rooms (update_where (fun r => r_id r =? id)
                                    (apply_room_fields fs) (rooms d)) d)
        end
    end.

Definition delete_room (d : db) (id : Z) : response * db :=
  match rooms_by_id d id with
  | [] => (mkResp 404 "Room not found", d)
  | rm :: _ =>
    if r_occupied rm >? 0
    then (mkResp 400 "Cannot delete room with occupants", d)
    else (mkResp 200 "Room deleted successfully",
          with_rooms (delete_where (fun r => r_id r =? id) (rooms d)) d)
  end.

(** The five routes of rooms.js that write the store. *)
Inductive room_request :=
| RoomCreate (q : create_room_req)
| RoomUpdate (id : Z) (q : update_room_req)
| RoomDelete (id : Z)
| RoomAssign (roomId : Z) (studentId : option Z)
| RoomUnassign (roomId : Z) (studentId : option Z).

Definition room_step (s : server) (rq : room_request) : response * server :=
  match rq with
  | RoomCreate q => create_room s q
  | RoomUpdate id q => on_store (update_room (store s) id q) s
  | RoomDelete id => on_store (delete_room (store s) id) s
  | RoomAssign roomId studentId => on_store (assign (store s) roomId studentId) s
  | RoomUnassign roomId studentId =>
    on_store (unassign (store s) roomId studentId) s
  end.

Definition room_run (s : server) (rqs : list room_request) : server :=
  fold_left (fun acc rq => snd (room_step acc rq)) rqs s.

(** ** users.js: DELETE /:id *)

Definition delete_user (d : db) (id : Z) : response * db :=
  match users_by_id d id with
  | [] => (mkResp 404 "User not found", d)
  | user0 :: _ =>
    let d1 := with_users (delete_where (fun u => u_id u =? id) (users d)) d in
    let d2 := match u_room_no user0 with
              | Some rn => if truthy_string rn then bump_room_no (-1) rn d1 else d1
              | None => d1
              end in
    (mkResp 200 "User deleted successfully", d2)
  end.

(** ** fees: POST / and GET /overdue *)

Definition fee_types : list string := ["monthly"; "semester"; "annual"; "late_fee"].

(** A body field is [None] when it fails its validator ([isInt] for the
    user, [isDecimal] for the amount, taken in whole units, [isISO8601] for
    the due date). *)
Record create_fee_req := mkCreateFee {
  cf_userId : option Z;
  cf_amount : option Z;
  cf_feeType : field;
  cf_dueDate : option Z;
  cf_description : field
}.

Definition create_fee_valid (q : create_fee_req) : bool :=
  match cf_userId q with Some _ => true | None => false end
  && match cf_amount q with Some _ => true | None => false end
  && match cf_feeType q with
     | str s => existsb (String.eqb s) fee_types
     | _ => false
     end
  && match cf_dueDate q with Some _ => true | None => false end.

(** Modelled from the spec: the column defaults of a new fee, which the
    INSERT does not name: status pending, no paid date and no receipt. *)
Definition new_fee (id userId amount : Z) (feeType : string) (dueDate : Z)
           (description : option string) : fee :=
  mkFee id userId amount feeType dueDate description pending None None.

Definition create_fee (s : server) (q : create_fee_req) : response * server :=
  if negb (create_fee_valid q) then (mkResp 400 "Validation failed", s)
  else
    match cf_userId q, cf_amount q, cf_feeType q, cf_dueDate q with
    | Some userId, Some amount, str feeType, Some dueDate =>
      match active_students_by_id (store s) userId with
      | [] => (mkResp 404 "Student not found", s)
      | _ :: _ =>
        (* the INSERT binds description as the body has it *)
        if negb (bindable (cf_description q))
        then (mkResp 500 "Failed to create fee", s)
        else
        let insertId := next_fee_id s in
        (mkResp 201 "Fee created successfully",
         mkServer (with_fees
                     (insert_row (new_fee insertId userId amount feeType dueDate
                                          (to_col (cf_description q)))
                                 (fees (store s)))
                     (store s))
                  (next_room_id s) (insertId + 1))
      end
    | _, _, _, _ => (mkResp 400 "Validation failed", s)
    end.

(** The three routes that write the fees table. *)
Inductive fee_request :=
| FeeCreate (q : create_fee_req)
| FeePay (id : Z) (paidDate : option Z) (receiptNo : field) (today : Z)
| FeeSweep (curdate : Z).

Definition fee_step (s : server) (rq : fee_request) : response * server :=
  match rq with
  | FeeCreate q => create_fee s q
  | FeePay id paidDate receiptNo today =>
    on_store (mark_paid (store s) id paidDate receiptNo today) s
  | FeeSweep curdate => on_store (update_overdue (store s) curdate) s
  end.

Definition fee_run (s : server) (rqs : list fee_request) : server :=
  fold_left (fun acc rq => snd (fee_step acc rq)) rqs s.

(** A row of the overdue listing: the fee joined with its student. *)
Record overdue_row := mkOverdue {
  ov_fee : fee;
  ov_name : string;
  ov_email : string;
  ov_batch : option string;
  ov_room_no : option string
}.

(** FROM fees f JOIN users u ON f.user_id = u.id
    WHERE f.status = 'pending' AND f.due_date < CURDATE()
      AND u.role = 'student' AND u.is_active = TRUE *)
Definition overdue_rows (d : db) (curdate : Z) : list overdue_row :=
  flat_map
    (fun f =>
       map (fun u => mkOverdue f (u_name u) (u_email u) (u_batch u) (u_room_no u))
           (select_where (fun u => (u_id u =? f_user_id f)
                                   && is_student u && u_is_active u)
                         (users d)))
    (select_where (is_past_due curdate) (fees d)).

(** ORDER BY key ASC, rows of equal key in table order. *)
Fixpoint insert_by {A} (key : A -> Z) (x : A) (sorted : list A) : list A :=
  match sorted with
  | [] => [x]
  | y :: rest => if key x <=? key y then x :: y :: rest
                 else y :: insert_by key x rest
  end.

Definition order_by {A} (key : A -> Z) (rows : list A) : list A :=
  fold_right (insert_by key) [] rows.

Record pagination := mkPagination {
  pg_current : Z;
  pg_pages : option Z;     (* None: the division by a zero limit *)
  pg_total : Z
}.

(** LIMIT ? OFFSET ? *)
Definition limit_offset {A} (limit offset : Z) (rows : list A) : list A :=
  firstn (Z.to_nat limit) (skipn (Z.to_nat offset) rows).

(** Math.ceil(total / limit) *)
Definition page_count (total limit : Z) : option Z :=
  if limit =? 0 then None else Some ((total + limit - 1) / limit).

(** [page] and [limit] are the numbers of the query string, 1 and 10 by
    default; a negative LIMIT or OFFSET is refused by the store. *)
Definition get_overdue (d : db) (curdate page limit : Z)
  : reply (list overdue_row * pagination) :=
  let offset := (page - 1) * limit in
  if (limit <? 0) || (offset <? 0)
  then failed (mkResp 500 "Failed to fetch overdue fees")
  else
    let overdueFees :=
        limit_offset limit offset
                     (order_by (fun r => f_due_date (ov_fee r))
                               (overdue_rows d curdate)) in
    let total := Z.of_nat (List.length (overdue_rows d curdate)) in
    data (overdueFees, mkPagination page (page_count total limit) total).

(** ** chatbot.js: POST /ask and GET /faq *)

Record faq := mkFaq { faq_question : string; faq_answer : string }.

Definition hostel_rules : faq :=
  mkFaq "What are the hostel rules?"
        "Hostel rules include: 1) Curfew time is 10 PM, 2) No smoking or alcohol, 3) Keep rooms clean, 4) Respect other students, 5) Follow meal timings, 6) No unauthorized visitors after 8 PM.".

Definition meal_timings : faq :=
  mkFaq "What are the meal timings?"
        "Meal timings are: Breakfast: 7:00 AM - 9:00 AM, Lunch: 12:00 PM - 2:00 PM, Dinner: 7:00 PM - 9:00 PM. Please follow these timings strictly.".

Definition visitor_policy : faq :=
  mkFaq "What is the visitor policy?"
        "Visitors are allowed from 9 AM to 8 PM. All visitors must register at the reception with valid ID proof. Students are responsible for their visitors' conduct.".

Definition laundry_service : faq :=
  mkFaq "How does laundry service work?"
        "Laundry service is available Monday to Friday. Submit your clothes at the laundry counter before 10 AM. Clothes will be ready for pickup the next day. Charges apply as per the rate card.".

Definition maintenance_requests : faq :=
  mkFaq "How to request maintenance?"
        "Submit maintenance requests through the hostel portal or contact the maintenance office. For urgent issues, call the emergency number. Include detailed description of the problem.".

Definition fees_payment : faq :=
  mkFaq "How to pay hostel fees?"
        "Fees can be paid online through the portal or at the admin office. Payment methods include cash, card, or bank transfer. Keep the receipt for your records.".

Definition emergency_contacts : faq :=
  mkFaq "What are the emergency contacts?"
        "Emergency contacts: Security: +91-XXXX-XXXX, Admin: +91-XXXX-XXXX, Medical: +91-XXXX-XXXX. For fire emergency, call 101.".

Definition room_allocation : faq :=
  mkFaq "How is room allocation done?"
        "Rooms are allocated based on availability, batch, and preferences. Contact the admin office for room change requests. Room swapping is not allowed without permission.".

Definition internet_wifi : faq :=
  mkFaq "What about internet and WiFi?"
        "Free WiFi is available in common areas and rooms. Internet usage is monitored. No downloading of inappropriate content. Report connectivity issues to the IT support.".

Definition library_facilities : faq :=
  mkFaq "What library facilities are available?"
        "Library is open from 8 AM to 10 PM. Books can be issued for 15 days. Late return charges apply. Maintain silence in the library. No food or drinks allowed.".

(** [Object.values(chatbotData)], in insertion order. *)
Definition chatbotData : list faq :=
  [ hostel_rules; meal_timings; visitor_policy; laundry_service;
    maintenance_requests; fees_payment; emergency_contacts; room_allocation;
    internet_wifi; library_facilities ].

Definition fallback_answer : string :=
  "I'm sorry, I couldn't find a specific answer to your question. Please contact the admin office for assistance.".

(** [toLowerCase] on a question written in ASCII. *)
Definition lower_ascii (c : ascii) : ascii :=
  let n := nat_of_ascii c in
  if (65 <=? n)%nat && (n <=? 90)%nat then ascii_of_nat (n + 32) else c.

Fixpoint toLowerCase (s : string) : string :=
  match s with
  | EmptyString => EmptyString
  | String c rest => String (lower_ascii c) (toLowerCase rest)
  end.

(** [s.includes(k)]: [k] occurs somewhere in [s]. *)
Fixpoint includes (s k : string) : bool :=
  if String.prefix k s then true
  else match s with
       | EmptyString => false
       | String _ rest => includes rest k
       end.

(** The keyword chain of the ask route, on the lower-cased question. *)
Definition keyword_answer (userQuestion : string) : string :=
  if includes userQuestion "rule" || includes userQuestion "regulation"
  then faq_answer hostel_rules
  else if includes userQuestion "meal" || includes userQuestion "food"
          || includes userQuestion "timing"
  then faq_answer meal_timings
  else if includes userQuestion "visitor" || includes userQuestion "guest"
  then faq_answer visitor_policy
  else if includes userQuestion "laundry" || includes userQuestion "wash"
  then faq_answer laundry_service
  else if includes userQuestion "maintenance" || includes userQuestion "repair"
          || includes userQuestion "fix"
  then faq_answer maintenance_requests
  else if includes userQuestion "fee" || includes userQuestion "payment"
          || includes userQuestion "money"
  then faq_answer fees_payment
  else if includes userQuestion "emergency" || includes userQuestion "contact"
          || includes userQuestion "help"
  then faq_answer emergency_contacts
  else if includes userQuestion "room" || includes userQuestion "allocation"
          || includes userQuestion "change"
  then faq_answer room_allocation
  else if includes userQuestion "wifi" || includes userQuestion "internet"
          || includes userQuestion "network"
  then faq_answer internet_wifi
  else if includes userQuestion "library" || includes userQuestion "book"
          || includes userQuestion "study"
  then faq_answer library_facilities
  else fallback_answer.

(** The answer of POST /ask: the question and the answer of the data. *)
Definition ask (question : field) : reply (string * string) :=
  if negb (truthy question) then failed (mkResp 400 "Validation failed")
  else match question with
       | str q => data (q, keyword_answer (toLowerCase q))
       | _ => failed (mkResp 400 "Validation failed")
       end.

Definition get_faq : list (string * string) :=
  map (fun item => (faq_question item, faq_answer item)) chatbotData.

Definition is_ascii (s : string) : bool :=
  forallb (fun c => (nat_of_ascii c <? 128)%nat) (list_ascii_of_string s).

Definition upper_ascii (c : ascii) : ascii :=
  let n := nat_of_ascii c in
  if (97 <=? n)%nat && (n <=? 122)%nat then ascii_of_nat (n - 32) else c.

Fixpoint toUpperCase (s : string) : string :=
  match s with
  | EmptyString => EmptyString
  | String c rest => String (upper_ascii c) (toUpperCase rest)
  end.

(** ** Keys and orders used in the properties *)

(** The primary key of the fees table under its AUTO_INCREMENT counter. *)
Definition fees_keyed (s : server) : Prop :=
  NoDup (map f_id (fees (store s)))
  /\ Forall (fun f => f_id f < next_fee_id s) (fees (store s)).

(** The order of the fee lifecycle. *)
Definition fee_rank (st : fee_status) : Z :=
  match st with pending => 0 | overdue => 1 | paid => 2 end.

(** The ledger of the scenarios as a server. *)
Definition ledger_server : server := mkServer ledger_db 1 5.

Definition monthly_fee (userId dueDate : Z) : create_fee_req :=
  mkCreateFee (Some userId) (Some 4500) (str "monthly") (Some dueDate) null.

(** The same bill from a form that leaves [description] out of the body. *)
Definition monthly_fee_form (userId dueDate : Z) : create_fee_req :=
  mkCreateFee (Some userId) (Some 4500) (str "monthly") (Some dueDate) undefined.




(** The rooms table under its primary key and its unique room numbers,
    with no room counting more occupants than it has beds. *)
Definition rooms_sound (s : server) : Prop :=
  NoDup (map r_id (rooms (store s)))
  /\ Forall (fun r => r_id r < next_room_id s) (rooms (store s))
  /\ NoDup (map r_room_no (rooms (store s)))
  /\ Forall (fun r => r_occupied r <= r_capacity r) (rooms (store s)).

(** The hostel of the scenarios as a server. *)
Definition hostel_server : server := mkServer hostel_db 3 1.

Definition double_room (room_no : string) : create_room_req :=
  mkCreateRoom (str room_no) (Some 2) (str "double") (Some 1).

Definition resize_to (capacity : Z) : update_room_req :=
  mkUpdateRoom (int_value capacity) undefined None None.

Definition deactivate : update_room_req :=
  mkUpdateRoom no_int undefined None (Some false).

(** Every room counts exactly the occupants its listing shows. *)
Definition occupancy_consistent (d : db) : Prop :=
  Forall (fun r => r_occupied r
                   = Z.of_nat (List.length (occupants d (r_room_no r))))
         (rooms d).

(** The keys of the rooms and users tables: unique room ids, unique and
    non-empty room numbers, unique user ids. *)
Definition tables_keyed (d : db) : Prop :=
  NoDup (map r_id (rooms d))
  /\ NoDup (map r_room_no (rooms d))
  /\ Forall (fun r => truthy_string (r_room_no r) = true) (rooms d)
  /\ NoDup (map u_id (users d)).

(** The test of the occupants query. *)
Definition is_occupant (room_no : string) (u : user) : bool :=
  col_eqb (u_room_no u) room_no && is_student u && u_is_active u.

(** ** rooms.js: GET /availability/status, the overall row *)

(** SUM(e) over the selected rows: NULL over no rows. *)
Definition sum_rows {A} (e : A -> Z) (rows : list A) : option Z :=
  match rows with
  | [] => None
  | _ :: _ => Some (fold_right (fun row acc => e row + acc) 0 rows)
  end.

Record availability := mkAvailability {
  total_rooms : Z;
  vacant_rooms : option Z;
  occupied_rooms : option Z;
  total_occupants : option Z;
  total_capacity : option Z
}.

Definition availability_overall (d : db) : availability :=
  let rows := select_where r_is_active (rooms d) in
  mkAvailability
    (Z.of_nat (List.length rows))
    (sum_rows (fun r => if r_occupied r =? 0 then 1 else 0) rows)
    (sum_rows (fun r => if r_occupied r >? 0 then 1 else 0) rows)
    (sum_rows r_occupied rows)
    (sum_rows r_capacity rows).

(** * Properties *)

(** ** Tables *)

Lemma hd_error_cons {A} (l : list A) (x : A) :
  hd_error l = Some x -> exists tl, l = x :: tl.
Proof. destruct l as [|y tl]; simpl; intros H; [discriminate|]. injection H as ->. now exists tl. Qed.

Lemma select_where_hd {A} (p : A -> bool) (t : list A) (x : A) :
  hd_error (select_where p t) = Some x -> In x t /\ p x = true.
Proof.
  intros H. apply hd_error_cons in H as [tl H].
  apply filter_In. unfold select_where in H. rewrite H. now left.
Qed.

Lemma select_where_nil {A} (p : A -> bool) (t : list A) :
  select_where p t = [] <-> forall x, In x t -> p x = false.
Proof.
  unfold select_where. induction t as [|a t IH]; simpl.
  - split; [intros _ x []|reflexivity].
  - destruct (p a) eqn:Ea; split.
    + discriminate.
    + intros H. specialize (H a (or_introl eq_refl)). congruence.
    + intros H x [<-|Hx]; [assumption|]. now apply IH.
    + intros H. apply IH. intros x Hx. apply H. now right.
Qed.

Lemma update_where_Forall2 {A} (p : A -> bool) (f : A -> A) (t : list A) :
  Forall2 (fun row row' => row' = if p row then f row else row)
          t (update_where p f t).
Proof. induction t; simpl; constructor; auto. Qed.

(** A SELECT whose predicate the rewrite does not disturb sees the
    rewritten rows. *)
Lemma select_update_where {A} (p q : A -> bool) (f : A -> A) (t : list A) :
  (forall row, p (f row) = p row) ->
  select_where p (update_where q f t)
  = map (fun row => if q row then f row else row) (select_where p t).
Proof.
  intros Hp. unfold select_where, update_where.
  induction t as [|a t IH]; simpl; [reflexivity|].
  replace (p (if q a then f a else a)) with (p a)
    by (destruct (q a); [symmetry; apply Hp|reflexivity]).
  destruct (p a); simpl; now rewrite IH.
Qed.

(** Rows with another key are not touched by an UPDATE ... WHERE key = ?. *)
Lemma update_where_frame {A} (key : A -> Z) (id : Z) (f : A -> A) (t : list A) :
  Forall2 (fun row row' => key row <> id -> row' = row)
          t (update_where (fun row => key row =? id) f t).
Proof.
  eapply Forall2_impl; [|apply update_where_Forall2].
  intros row row' -> Hneq. apply Z.eqb_neq in Hneq. now rewrite Hneq.
Qed.

(** ** Occupancy: assign *)

(** C2, as the route decides it.  For a room the lookup finds (active,
    with that id) and an active student: [assign] fails with Conflict,
    changing nothing, when the room's occupied count has reached its
    capacity, and when the student's [room_no] is a non-empty string.  A
    student whose [room_no] is NULL or the empty string counts as having no
    room: with a free bed [assign] succeeds, the student's row now carries
    the room's number and is otherwise as before, the room's occupied count
    is one more than before and the room is otherwise as before, and every
    other row of the store is as it was. *)
Theorem assign_spec (d : db) (roomId sid : Z) (rm : room) (st : user) :
  hd_error (active_rooms_by_id d roomId) = Some rm ->
  hd_error (active_students_by_id d sid) = Some st ->
  (r_occupied rm >= r_capacity rm ->
   rejects (assign d roomId (Some sid)) Conflict d)
  /\ (forall current, u_room_no st = Some current -> current <> "" ->
      rejects (assign d roomId (Some sid)) Conflict d)
  /\ (r_occupied rm < r_capacity rm ->
      u_room_no st = None \/ u_room_no st = Some "" ->
      let res := assign d roomId (Some sid) in
      succeeds res
      /\ (exists st', hd_error (active_students_by_id (snd res) sid) = Some st'
                      /\ u_room_no st' = Some (r_room_no rm)
                      /\ same_but_room_no st st')
      /\ (exists rm', hd_error (active_rooms_by_id (snd res) roomId) = Some rm'
                      /\ r_occupied rm' = r_occupied rm + 1
                      /\ same_but_occupied rm rm')
      /\ Forall2 (fun u u' =>
                    (u_id u = sid -> u_room_no u' = Some (r_room_no rm)
                                     /\ same_but_room_no u u')
                    /\ (u_id u <> sid -> u' = u))
                 (users d) (users (snd res))
      /\ Forall2 (fun r r' =>
                    (r_id r = roomId -> r_occupied r' = r_occupied r + 1
                                        /\ same_but_occupied r r')
                    /\ (r_id r <> roomId -> r' = r))
                 (rooms d) (rooms (snd res))
      /\ attendance (snd res) = attendance d
      /\ fees (snd res) = fees d).
Proof.
  intros Hrm Hst.
  pose proof (select_where_hd _ _ _ Hrm) as [_ Hrm_p].
  pose proof (select_where_hd _ _ _ Hst) as [_ Hst_p].
  apply andb_prop in Hrm_p as [Hrm_id _].
  apply andb_prop in Hst_p as [Hst_p _]. apply andb_prop in Hst_p as [Hst_id _].
  destruct (hd_error_cons _ _ Hrm) as [rtl Er].
  destruct (hd_error_cons _ _ Hst) as [stl Es].
  unfold rejects, succeeds, assign. rewrite Er.
  split; [|split].
  - intros Hfull.
    assert (Hge : (r_occupied rm >=? r_capacity rm) = true)
      by (apply Z.geb_le; lia).
    rewrite Hge. split; reflexivity.
  - intros current Hroom Hne.
    assert (Htruthy : truthy_col (u_room_no st) = true).
    { rewrite Hroom. destruct current; [contradiction|reflexivity]. }
    destruct (r_occupied rm >=? r_capacity rm); [split; reflexivity|].
    rewrite Es, Htruthy. split; reflexivity.
  - intros Hfree Hnone.
    assert (Hfalsy : truthy_col (u_room_no st) = false)
      by (destruct Hnone as [-> | ->]; reflexivity).
    assert (Hlt : (r_occupied rm >=? r_capacity rm) = false)
      by (rewrite Z.geb_leb; apply Z.leb_gt; lia).
    rewrite Hlt, Es, Hfalsy. cbn [fst snd].
    split; [reflexivity|].
    split.
    { unfold active_students_by_id at 1. cbn [users with_users with_rooms].
      rewrite select_update_where by reflexivity.
      fold (active_students_by_id d sid). rewrite Es. cbn [map hd_error].
      rewrite Hst_id. eexists. split; [reflexivity|].
      split; [reflexivity|]. repeat split. }
    split.
    { unfold active_rooms_by_id at 1. cbn [rooms with_users with_rooms].
      rewrite select_update_where by reflexivity.
      fold (active_rooms_by_id d roomId). rewrite Er. cbn [map hd_error].
      rewrite Hrm_id. eexists. split; [reflexivity|].
      split; [reflexivity|]. repeat split. }
    split.
    { cbn [users with_users with_rooms].
      eapply Forall2_impl; [|apply update_where_Forall2].
      intros u u' ->. split.
      - intros E. apply Z.eqb_eq in E. rewrite E.
        split; [reflexivity|]. repeat split.
      - intros E. apply Z.eqb_neq in E. now rewrite E. }
    split.
    { cbn [rooms with_users with_rooms].
      eapply Forall2_impl; [|apply update_where_Forall2].
      intros r r' ->. split.
      - intros E. apply Z.eqb_eq in E. rewrite E.
        split; [reflexivity|]. repeat split.
      - intros E. apply Z.eqb_neq in E. now rewrite E. }
    split; reflexivity.
Qed.

Lemma assign_spec_witness :
  rejects (assign hostel_db 1 (Some 1)) Conflict hostel_db
  /\ rejects (assign hostel_db 2 (Some 2)) Conflict hostel_db
  /\ succeeds (assign hostel_db 2 (Some 1))
  /\ exists rm', hd_error (active_rooms_by_id (snd (assign hostel_db 2 (Some 1))) 2)
                 = Some rm'
                 /\ r_occupied rm' = 2.
Proof.
  split; [|split].
  - apply (proj1 (assign_spec hostel_db 1 1 (room_row 1 "101" 1 1)
                              (student_row 1 "Asha" "asha@hostel.test" None)
                              eq_refl eq_refl)).
    simpl. lia.
  - apply (proj1 (proj2 (assign_spec hostel_db 2 2 (room_row 2 "102" 2 1)
                              (student_row 2 "Bilal" "bilal@hostel.test" (Some "102"))
                              eq_refl eq_refl)) "102" eq_refl).
    discriminate.
  - assert (Hfree : r_occupied (room_row 2 "102" 2 1) < r_capacity (room_row 2 "102" 2 1))
      by (simpl; lia).
    destruct (proj2 (proj2 (assign_spec hostel_db 2 1 (room_row 2 "102" 2 1)
                              (student_row 1 "Asha" "asha@hostel.test" None)
                              eq_refl eq_refl)) Hfree (or_introl eq_refl))
      as (Hok & _ & (rm' & Hroom & Hocc & _) & _).
    split; [exact Hok|]. exists rm'. split; [exact Hroom|exact Hocc].
Defined.

(** C2, the claim as worded: a room assignment that is not NULL but empty.
    Asha sets her own [room_no] to the empty string through the profile
    update; her assignment is then non-null, yet [assign] does not fail
    with Conflict: it succeeds and overwrites it with room 101. *)
Lemma assign_blank_room_no_counterexample :
  let d := snd (update_user fresh_db asha (move_to 1 "")) in
  map u_room_no (active_students_by_id d 1) = [Some ""]
  /\ map (fun r => (r_capacity r, r_occupied r)) (active_rooms_by_id d 1)
     = [(1, 0)]
  /\ succeeds (assign d 1 (Some 1))
  /\ ~ rejects (assign d 1 (Some 1)) Conflict d
  /\ map u_room_no (users (snd (assign d 1 (Some 1)))) = [Some "101"]
  /\ map r_occupied (rooms (snd (assign d 1 (Some 1)))) = [1].
Proof.
  cbv zeta. repeat split; try reflexivity.
  intros [H _]. vm_compute in H. discriminate.
Qed.

(** ** Occupancy: unassign *)

Lemma col_eqb_eq (c : option string) (s : string) :
  col_eqb c s = true <-> c = Some s.
Proof.
  destruct c as [x|]; simpl.
  - rewrite String.eqb_eq. split; congruence.
  - split; discriminate.
Qed.

(** C7, as the route implements it.  For a room with that id: [unassign]
    fails with Conflict, changing nothing, when no row of the student names
    this room; when one does, it succeeds, clears the student's room
    (room_no is NULL afterwards, the row otherwise as before), and lowers
    the room's occupied count by exactly 1 -- with no floor, so a count of
    0 becomes -1. *)
Theorem unassign_spec (d : db) (roomId sid : Z) (rm : room) :
  hd_error (rooms_by_id d roomId) = Some rm ->
  ((forall u, In u (users d) -> u_id u = sid ->
              u_room_no u <> Some (r_room_no rm)) ->
   rejects (unassign d roomId (Some sid)) Conflict d)
  /\ ((exists u, In u (users d) /\ u_id u = sid
                 /\ u_room_no u = Some (r_room_no rm)) ->
      let res := unassign d roomId (Some sid) in
      succeeds res
      /\ Forall2 (fun u u' => u' = if u_id u =? sid then set_room_no None u else u)
                 (users d) (users (snd res))
      /\ hd_error (rooms_by_id (snd res) roomId)
         = Some (set_occupied (r_occupied rm - 1) rm)
      /\ Forall2 (fun r r' => r' = if r_id r =? roomId
                                   then set_occupied (r_occupied r - 1) r
                                   else r)
                 (rooms d) (rooms (snd res))
      /\ attendance (snd res) = attendance d
      /\ fees (snd res) = fees d
      /\ Forall2 (fun u u' => u_id u = sid ->
                              u_room_no u' = None /\ same_but_room_no u u')
                 (users d) (users (snd res))
      /\ Forall2 (fun r r' => r_id r = roomId ->
                              r_occupied r' = r_occupied r - 1
                              /\ same_but_occupied r r')
                 (rooms d) (rooms (snd res))).
Proof.
  intros Hrm.
  pose proof (select_where_hd _ _ _ Hrm) as [_ Hrm_id].
  destruct (hd_error_cons _ _ Hrm) as [rtl Er].
  unfold rejects, succeeds, unassign. rewrite Er.
  split.
  - intros Hnot.
    assert (E : users_in_room d sid (r_room_no rm) = []).
    { apply select_where_nil. intros u Hu.
      destruct (u_id u =? sid) eqn:Eid; [|reflexivity].
      apply Z.eqb_eq in Eid. simpl.
      destruct (col_eqb (u_room_no u) (r_room_no rm)) eqn:Ec; [|reflexivity].
      apply col_eqb_eq in Ec. now destruct (Hnot u Hu Eid). }
    rewrite E. split; reflexivity.
  - intros (u & Hu & Hid & Hroom).
    destruct (users_in_room d sid (r_room_no rm)) as [|u0 utl] eqn:E.
    { exfalso. pose proof (proj1 (select_where_nil _ _) E u Hu) as Hf.
      simpl in Hf. apply Z.eqb_eq in Hid. rewrite Hid in Hf.
      apply col_eqb_eq in Hroom. rewrite Hroom in Hf. discriminate. }
    cbn [fst snd].
    split; [reflexivity|].
    split; [apply update_where_Forall2|].
    split.
    { unfold rooms_by_id at 1. cbn [rooms with_users with_rooms].
      rewrite select_update_where by reflexivity.
      fold (rooms_by_id d roomId). rewrite Er. cbn [map hd_error].
      now rewrite Hrm_id. }
    split; [apply update_where_Forall2|].
    split; [reflexivity|]. split; [reflexivity|].
    split.
    { cbn [users with_users with_rooms].
      eapply Forall2_impl; [|apply update_where_Forall2].
      intros u0' u' -> Eid. apply Z.eqb_eq in Eid. rewrite Eid.
      split; [reflexivity|]. repeat split. }
    cbn [rooms with_users with_rooms].
    eapply Forall2_impl; [|apply update_where_Forall2].
    intros r r' -> Eid. apply Z.eqb_eq in Eid. rewrite Eid.
    split; [reflexivity|]. repeat split.
Qed.

Lemma unassign_spec_witness :
  rejects (unassign hostel_db 1 (Some 2)) Conflict hostel_db
  /\ succeeds (unassign hostel_db 2 (Some 2))
  /\ hd_error (rooms_by_id (snd (unassign hostel_db 2 (Some 2))) 2)
     = Some (room_row 2 "102" 2 0).
Proof.
  split.
  - apply (proj1 (unassign_spec hostel_db 1 2 (room_row 1 "101" 1 1) eq_refl)).
    intros u [<-|[<-|[<-|[]]]] Hid; simpl in *; congruence.
  - destruct (proj2 (unassign_spec hostel_db 2 2 (room_row 2 "102" 2 1) eq_refl))
      as (Hok & _ & Hroom & _).
    + exists (student_row 2 "Bilal" "bilal@hostel.test" (Some "102")).
      simpl. auto.
    + split; [exact Hok|exact Hroom].
Defined.

(** C7, the floor: a student who wrote room 101 into their own profile (the
    counters are not touched on that path) is then removed from the room by
    the admin; the room's occupied count goes from 0 to -1, where a
    decrement floored at 0 would leave 0. *)
Lemma unassign_floor_counterexample :
  let d := snd (update_user fresh_db asha (move_to 1 "101")) in
  let res := unassign d 1 (Some 1) in
  map r_occupied (rooms d) = [0]
  /\ succeeds res
  /\ map r_occupied (rooms (snd res)) = [-1]
  /\ ~ Forall (fun r => 0 <= r_occupied r) (rooms (snd res))
  /\ map r_occupied (rooms (snd res)) <> [Z.max 0 (0 - 1)].
Proof.
  cbv zeta. split; [reflexivity|]. split; [reflexivity|]. split; [reflexivity|].
  split.
  - intros H. inversion H as [|r l Hneg _]; subst. simpl in Hneg. lia.
  - simpl. discriminate.
Qed.

(** ** The user-update route *)

Lemma apply_fields_app (fs gs : list (user -> user)) (u : user) :
  apply_fields (fs ++ gs) u = apply_fields gs (apply_fields fs u).
Proof. unfold apply_fields. apply fold_left_app. Qed.

(** SET clauses that touch neither [id] nor [room_no]. *)
Lemma apply_fields_frame (fs : list (user -> user)) :
  Forall (fun f => forall v, u_id (f v) = u_id v /\ u_room_no (f v) = u_room_no v) fs ->
  forall u, u_id (apply_fields fs u) = u_id u
            /\ u_room_no (apply_fields fs u) = u_room_no u.
Proof.
  unfold apply_fields. induction 1 as [|f fs Hf _ IH]; simpl; intros u; [auto|].
  destruct (IH (f u)) as [-> ->]. apply Hf.
Qed.

Lemma name_clause_frame q :
  Forall (fun f => forall v, u_id (f v) = u_id v /\ u_room_no (f v) = u_room_no v)
         (name_clause q).
Proof.
  unfold name_clause. destruct (uu_name q) as [| |[|c s]]; simpl;
    repeat constructor.
Qed.

Lemma email_clause_frame q :
  Forall (fun f => forall v, u_id (f v) = u_id v /\ u_room_no (f v) = u_room_no v)
         (email_clause q).
Proof.
  unfold email_clause. destruct (uu_email q) as [| |[|c s]]; simpl;
    repeat constructor.
Qed.

Lemma tail_clauses_frame who q :
  Forall (fun f => forall v, u_id (f v) = u_id v /\ u_room_no (f v) = u_room_no v)
         (batch_clause q ++ phone_clause q ++ is_active_clause who q
          ++ photo_clause q).
Proof.
  apply Forall_app; split; [|apply Forall_app; split; [|apply Forall_app; split]].
  - unfold batch_clause. destruct (uu_batch q) as [| |[|c s]]; simpl;
      repeat constructor.
  - unfold phone_clause. destruct (uu_phone q) as [| |[|c s]]; simpl;
      repeat constructor.
  - unfold is_active_clause.
    destruct (uu_is_active q); [destruct (is_admin who)|]; repeat constructor.
  - unfold photo_clause. destruct (uu_file q); repeat constructor.
Qed.

Lemma update_fields_id who q u :
  u_id (apply_fields (update_fields who q) u) = u_id u.
Proof.
  unfold update_fields. do 3 rewrite apply_fields_app.
  rewrite (proj1 (apply_fields_frame _ (tail_clauses_frame who q) _)).
  assert (Hr : forall v, u_id (apply_fields (room_no_clause q) v) = u_id v)
    by (intros v; unfold room_no_clause; destruct (uu_room_no q); reflexivity).
  rewrite Hr.
  rewrite (proj1 (apply_fields_frame _ (email_clause_frame q) _)).
  apply (apply_fields_frame _ (name_clause_frame q)).
Qed.

(** When the request carries [room_no], the row ends with that value. *)
Lemma update_fields_room_no who q u :
  uu_room_no q <> undefined ->
  u_room_no (apply_fields (update_fields who q) u) = to_col (uu_room_no q).
Proof.
  intros Hdef. unfold update_fields. do 3 rewrite apply_fields_app.
  rewrite (proj2 (apply_fields_frame _ (tail_clauses_frame who q) _)).
  unfold room_no_clause. destruct (uu_room_no q); [congruence| |]; reflexivity.
Qed.

Lemma update_fields_nonempty who q :
  uu_room_no q <> undefined -> update_fields who q <> [].
Proof.
  intros Hdef E. unfold update_fields in E.
  apply app_eq_nil in E as [_ E]. apply app_eq_nil in E as [_ E].
  apply app_eq_nil in E as [E _]. unfold room_no_clause in E.
  destruct (uu_room_no q); [congruence| |]; discriminate.
Qed.

(** The update route never answers with a Conflict. *)
Lemma update_user_never_conflict (d : db) (who : identity) (q : update_user_req) :
  outcome_of (fst (update_user d who q)) <> Conflict.
Proof.
  unfold update_user.
  destruct (role_eqb (role_of who) student && negb (uu_id q =? id_of who));
    [discriminate|].
  destruct (users_by_id d (uu_id q)); [discriminate|].
  destruct (email_taken d q u); [discriminate|].
  destruct (update_fields who q); discriminate.
Qed.

(** C9. A student who updates their own profile with a [room_no] value
    (the row exists and the email is not taken): the update succeeds, every
    row of that user now carries the given [room_no], the other users and
    all rooms are as they were, and the answer is the same whatever the
    rooms table holds -- no room is looked up, so neither the existence nor
    the capacity of the new room is checked. *)
Theorem student_update_room_no (d : db) (who : identity) (q : update_user_req)
        (cur : user) :
  role_of who = student ->
  uu_id q = id_of who ->
  uu_room_no q <> undefined ->
  hd_error (users_by_id d (uu_id q)) = Some cur ->
  email_taken d q cur = false ->
  let res := update_user d who q in
  succeeds res
  /\ rooms (snd res) = rooms d
  /\ users_by_id (snd res) (uu_id q) <> []
  /\ Forall (fun u => u_room_no u = to_col (uu_room_no q))
            (users_by_id (snd res) (uu_id q))
  /\ Forall2 (fun u u' => u_id u <> uu_id q -> u' = u) (users d) (users (snd res))
  /\ forall rs : list room,
       update_user (with_rooms rs d) who q = (fst res, with_rooms rs (snd res)).
Proof.
  intros Hrole Hown Hdef Hcur Hmail.
  destruct (hd_error_cons _ _ Hcur) as [tl Ecur].
  assert (Hgate : role_eqb (role_of who) student && negb (uu_id q =? id_of who) = false)
    by (rewrite Hown, Z.eqb_refl; apply andb_false_r).
  assert (Hadm : is_admin who = false) by (unfold is_admin; now rewrite Hrole).
  pose proof (update_fields_nonempty who q Hdef) as Hne.
  assert (Hres : forall rs,
             update_user (with_rooms rs d) who q
             = (mkResp 200 "User updated successfully",
                with_rooms rs
                  (with_users (update_where (fun u => u_id u =? uu_id q)
                                            (apply_fields (update_fields who q))
                                            (users d)) d))).
  { intros rs. unfold update_user. rewrite Hgate.
    change (users_by_id (with_rooms rs d) (uu_id q)) with (users_by_id d (uu_id q)).
    rewrite Ecur.
    change (email_taken (with_rooms rs d) q cur) with (email_taken d q cur).
    rewrite Hmail.
    destruct (update_fields who q) as [|f fs] eqn:Efs; [congruence|].
    unfold adjust_occupancy. rewrite Hadm. reflexivity. }
  assert (Hd : update_user d who q
               = (mkResp 200 "User updated successfully",
                  with_users (update_where (fun u => u_id u =? uu_id q)
                                           (apply_fields (update_fields who q))
                                           (users d)) d)).
  { specialize (Hres (rooms d)). destruct d; exact Hres. }
  cbv zeta. unfold succeeds. rewrite Hd. cbn [fst snd].
  split; [reflexivity|]. split; [reflexivity|].
  assert (Hsel : users_by_id
                   (with_users (update_where (fun u => u_id u =? uu_id q)
                                             (apply_fields (update_fields who q))
                                             (users d)) d) (uu_id q)
                 = map (fun u => if u_id u =? uu_id q
                                 then apply_fields (update_fields who q) u else u)
                       (users_by_id d (uu_id q))).
  { unfold users_by_id. cbn [users with_users].
    apply select_update_where. intros u. now rewrite update_fields_id. }
  split; [rewrite Hsel, Ecur; discriminate|].
  split.
  { rewrite Hsel. apply Forall_map. apply Forall_forall. intros u Hu.
    apply filter_In in Hu as [_ Hu]. rewrite Hu.
    now apply update_fields_room_no. }
  split.
  { cbn [users with_users]. apply update_where_frame. }
  intros rs. rewrite Hres. reflexivity.
Qed.

Lemma student_update_room_no_witness :
  succeeds (update_user hostel_db asha (move_to 1 "101"))
  /\ rooms (snd (update_user hostel_db asha (move_to 1 "101"))) = rooms hostel_db
  /\ Forall (fun u => u_room_no u = Some "101")
            (users_by_id (snd (update_user hostel_db asha (move_to 1 "101"))) 1).
Proof.
  assert (Hdef : uu_room_no (move_to 1 "101") <> undefined) by discriminate.
  destruct (student_update_room_no hostel_db asha (move_to 1 "101")
              (student_row 1 "Asha" "asha@hostel.test" None)
              eq_refl eq_refl Hdef eq_refl eq_refl)
    as (Hok & Hrooms & _ & Hrow & _).
  split; [exact Hok|]. split; [exact Hrooms|exact Hrow].
Defined.

(** C1, at the failing input.  Bilal is in room 102 and room 101 is full
    (one bed, one occupant).  The admin's profile update that sets Bilal's
    [room_no] to 101 is not refused: it succeeds, Bilal's row now names room
    101, room 102 has lost an occupant and room 101 counts 2 occupants for a
    capacity of 1. *)
Theorem reassign_into_full_room :
  let res := update_user hostel_db warden (move_to 2 "101") in
  map u_room_no (users_by_id hostel_db 2) = [Some "102"]
  /\ map (fun r => (r_room_no r, r_capacity r, r_occupied r)) (rooms hostel_db)
     = [("101", 1, 1); ("102", 2, 1)]
  /\ outcome_of (fst res) = Success
  /\ outcome_of (fst res) <> Conflict
  /\ map u_room_no (users_by_id (snd res) 2) = [Some "101"]
  /\ map (fun r => (r_room_no r, r_capacity r, r_occupied r)) (rooms (snd res))
     = [("101", 1, 2); ("102", 2, 0)].
Proof.
  cbv zeta. repeat split; try reflexivity. discriminate.
Qed.

(** ** The create-user route *)

Lemma update_where_In {A} (p : A -> bool) (f : A -> A) (t : list A) (x : A) :
  In x t -> In (if p x then f x else x) (update_where p f t).
Proof. intros H. unfold update_where. now apply in_map with (f := fun row => if p row then f row else row). Qed.

(** C10, with the body fields the INSERT binds.  Take a valid create-user
    request with a non-empty [room_no] and an unused email.  When the body
    also carries [batch] and [phone] (each a string or null) the request
    succeeds: the user is inserted with that [room_no] and every room row
    of that number has its occupied count raised by one.  No room is read
    first, so the answer is the same whatever the rooms table holds, and a
    room that was at capacity ends at capacity + 1, outside its bound.
    Such a room is reachable: one assign into an empty one-bed room gives
    it.  When the body leaves [batch] or [phone] out, the INSERT is refused
    by the driver: the answer is 500 and nothing is written, no user and no
    increment. *)
Theorem create_user_overfills (isEmail : string -> bool)
        (bcrypt_hash : string -> string) :
  (forall (d : db) (q : create_user_req) (email rn : string),
      create_user_valid isEmail q = true ->
      cu_email q = str email ->
      cu_room_no q = str rn ->
      truthy_string rn = true ->
      select_where (fun u => String.eqb (u_email u) email) (users d) = [] ->
      let res := create_user isEmail bcrypt_hash d q in
      (cu_batch q = undefined \/ cu_phone q = undefined ->
       rejects res Failure d)
      /\ (cu_batch q <> undefined ->
          cu_phone q <> undefined ->
          succeeds res
          /\ (exists row, users (snd res) = (users d ++ [row])%list
                          /\ u_id row = next_user_id d
                          /\ u_email row = email
                          /\ u_room_no row = Some rn)
          /\ Forall2 (fun r r' =>
                        (r_room_no r = rn -> r_occupied r' = r_occupied r + 1
                                             /\ same_but_occupied r r')
                        /\ (r_room_no r <> rn -> r' = r))
                     (rooms d) (rooms (snd res))
          /\ (forall rs, fst (create_user isEmail bcrypt_hash (with_rooms rs d) q)
                         = fst res)
          /\ (forall r, In r (rooms d) -> r_room_no r = rn ->
                        r_occupied r = r_capacity r ->
                        exists r', In r' (rooms (snd res))
                                   /\ r_id r' = r_id r
                                   /\ r_occupied r' = r_capacity r' + 1
                                   /\ ~ within_capacity r')))
  /\ (Forall within_capacity (rooms fresh_db)
      /\ let d1 := run isEmail bcrypt_hash fresh_db [Assign 1 (Some 1)] in
         Forall within_capacity (rooms d1)
         /\ exists r, In r (rooms d1) /\ r_room_no r = "101"
                      /\ r_occupied r = r_capacity r).
Proof.
  split.
  - intros d q email rn Hvalid Hemail Hroom Hrn Hfree.
    assert (Hfields : exists n pw rl x,
               cu_name q = str n /\ cu_password q = str pw
               /\ cu_role q = str rl /\ parse_role rl = Some x).
    { unfold create_user_valid in Hvalid. rewrite Hemail in Hvalid.
      destruct (cu_name q) as [| |n]; try discriminate.
      destruct (cu_password q) as [| |pw];
        try (rewrite andb_false_r in Hvalid; discriminate).
      destruct (cu_role q) as [| |rl];
        try (rewrite andb_false_r in Hvalid; discriminate).
      destruct (parse_role rl) as [x|] eqn:Erl;
        try (rewrite andb_false_r in Hvalid; discriminate).
      now exists n, pw, rl, x. }
    destruct Hfields as (n & pw & rl & x & Hn & Hpw & Hrl & Hx).
    cbv zeta. split.
    + intros Habsent. unfold rejects, create_user.
      rewrite Hvalid, Hn, Hemail, Hpw, Hrl, Hx, Hfree, Hroom. cbn [negb bindable andb].
      destruct Habsent as [-> | ->]; cbn [bindable andb negb];
        [|rewrite andb_false_r]; split; reflexivity.
    + intros Hbatch Hphone.
      assert (Hbound : bindable (cu_room_no q) && bindable (cu_batch q)
                       && bindable (cu_phone q) = true).
      { rewrite Hroom. destruct (cu_batch q); [contradiction| |];
          (destruct (cu_phone q); [contradiction| |]); reflexivity. }
      assert (Hres : forall rs,
                 create_user isEmail bcrypt_hash (with_rooms rs d) q
                 = (mkResp 201 "User created successfully",
                    bump_room_no 1 rn
                      (mkDb (insert_row
                               (mkUser (next_user_id d) n email (bcrypt_hash pw) x
                                       (Some rn) (to_col (cu_batch q))
                                       (to_col (cu_phone q)) None true)
                               (users d))
                            rs (attendance d) (fees d) (next_user_id d + 1)
                            (next_attendance_id d)))).
      { intros rs. unfold create_user.
        rewrite Hvalid, Hn, Hemail, Hpw, Hrl, Hx, Hbound. cbn [negb].
        cbn [users with_rooms]. rewrite Hfree, Hroom, Hrn. reflexivity. }
      assert (Hd : create_user isEmail bcrypt_hash d q
                   = create_user isEmail bcrypt_hash (with_rooms (rooms d) d) q)
        by (destruct d; reflexivity).
      unfold succeeds. rewrite Hd, Hres. cbn [fst snd].
      split; [reflexivity|].
      split; [eexists; repeat split; reflexivity|].
      split.
      { cbn [rooms bump_room_no with_rooms].
        eapply Forall2_impl; [|apply update_where_Forall2].
        intros r r' ->. split.
        - intros E. apply String.eqb_eq in E. rewrite E.
          split; [reflexivity|]. repeat split.
        - intros E. apply String.eqb_neq in E. now rewrite E. }
      split; [intros rs; now rewrite Hres|].
      intros r Hr Hno Hfull.
      exists (set_occupied (r_occupied r + 1) r).
      split.
      { cbn [rooms bump_room_no with_rooms].
        pose proof (update_where_In (fun r0 => String.eqb (r_room_no r0) rn)
                      (fun r0 => set_occupied (r_occupied r0 + 1) r0) _ r Hr) as Hin.
        cbn beta in Hin. rewrite Hno, String.eqb_refl in Hin. exact Hin. }
      split; [reflexivity|].
      split; [simpl; lia|].
      unfold within_capacity. simpl. lia.
  - split.
    + repeat constructor; simpl; lia.
    + cbv zeta. split.
      * repeat constructor; simpl; lia.
      * eexists. split; [left; reflexivity|]. split; reflexivity.
Qed.

Lemma create_user_overfills_witness :
  let d1 := run has_at_sign tagged_hash fresh_db [Assign 1 (Some 1)] in
  let absent := create_user has_at_sign tagged_hash d1
                            (new_student_form "Dev" "dev@hostel.test" "101") in
  let res := create_user has_at_sign tagged_hash d1
                         (new_student "Dev" "dev@hostel.test" "101") in
  map (fun r => (r_capacity r, r_occupied r)) (rooms d1) = [(1, 1)]
  /\ rejects absent Failure d1
  /\ succeeds res
  /\ exists r', In r' (rooms (snd res)) /\ r_occupied r' = r_capacity r' + 1.
Proof.
  cbv zeta. split; [reflexivity|].
  split.
  - apply (proj1 (proj1 (create_user_overfills has_at_sign tagged_hash)
                    (run has_at_sign tagged_hash fresh_db [Assign 1 (Some 1)])
                    (new_student_form "Dev" "dev@hostel.test" "101")
                    "dev@hostel.test" "101" eq_refl eq_refl eq_refl eq_refl eq_refl)).
    left. reflexivity.
  - destruct (proj2 (proj1 (create_user_overfills has_at_sign tagged_hash)
                    (run has_at_sign tagged_hash fresh_db [Assign 1 (Some 1)])
                    (new_student "Dev" "dev@hostel.test" "101")
                    "dev@hostel.test" "101" eq_refl eq_refl eq_refl eq_refl eq_refl))
      as (Hok & _ & _ & _ & Hfull); [discriminate|discriminate|].
    split; [exact Hok|].
    destruct (Hfull (room_row 1 "101" 1 1)) as (r' & Hin & _ & Hocc & _).
    + left. reflexivity.
    + reflexivity.
    + reflexivity.
    + exists r'. split; assumption.
Defined.

(** ** Attendance: one record per user and day *)

Lemma NoDup_snoc {A} (l : list A) (x : A) :
  NoDup l -> ~ In x l -> NoDup (l ++ [x]).
Proof.
  induction 1 as [|y l Hy Hl IH]; simpl; intros Hx.
  - constructor; [intros []|constructor].
  - constructor.
    + rewrite in_app_iff. simpl. intros [H|[H|[]]]; [auto|subst; auto].
    + apply IH. auto.
Qed.

Lemma existing_attendance_nil (d : db) (userId date : Z) :
  existing_attendance d userId date = [] ->
  ~ In (userId, date) (map att_key (attendance d)).
Proof.
  intros E Hin. apply in_map_iff in Hin as (a & Hkey & Ha).
  pose proof (proj1 (select_where_nil _ _) E a Ha) as Hf.
  unfold att_key in Hkey. injection Hkey as Hu Hd.
  cbn beta in Hf. now rewrite Hu, Hd, !Z.eqb_refl in Hf.
Qed.

Lemma existing_attendance_found (d : db) (userId date : Z) :
  (exists a, In a (attendance d) /\ a_user_id a = userId /\ a_date a = date) ->
  exists a rest, existing_attendance d userId date = a :: rest.
Proof.
  intros (a & Ha & Hu & Hd).
  destruct (existing_attendance d userId date) as [|a0 rest] eqn:E.
  - pose proof (proj1 (select_where_nil _ _) E a Ha) as Hf.
    cbn beta in Hf. now rewrite Hu, Hd, !Z.eqb_refl in Hf.
  - now exists a0, rest.
Qed.

(** What a request may do to the attendance table: nothing, or append one
    row whose (user, day) key was not there. *)
Lemma step_attendance (isEmail : string -> bool) (bcrypt_hash : string -> string)
      (d : db) (rq : request) :
  attendance (snd (step isEmail bcrypt_hash d rq)) = attendance d
  \/ exists row,
       attendance (snd (step isEmail bcrypt_hash d rq)) = (attendance d ++ [row])%list
       /\ ~ In (att_key row) (map att_key (attendance d)).
Proof.
  destruct rq as [roomId sid|roomId sid|q|who q|who q now|who q|id pd rc today|cur];
    cbn [step].
  - left. unfold assign. destruct sid; [|reflexivity].
    destruct (active_rooms_by_id d roomId); [reflexivity|].
    destruct (_ >=? _); [reflexivity|].
    destruct (active_students_by_id d z); [reflexivity|].
    destruct (truthy_col _); reflexivity.
  - left. unfold unassign. destruct sid; [|reflexivity].
    destruct (rooms_by_id d roomId); [reflexivity|].
    destruct (users_in_room _ _ _); reflexivity.
  - left. unfold create_user. destruct (negb _); [reflexivity|].
    destruct (cu_name q), (cu_email q), (cu_password q), (cu_role q);
      try reflexivity.
    destruct (parse_role _); [|reflexivity].
    destruct (select_where _ _); [|reflexivity].
    destruct (negb _); [reflexivity|].
    destruct (cu_room_no q) as [| |rn]; try reflexivity.
    destruct (truthy_string rn); reflexivity.
  - left. unfold update_user. destruct (_ && _); [reflexivity|].
    destruct (users_by_id _ _) as [|cur tl]; [reflexivity|].
    destruct (email_taken _ _ _); [reflexivity|].
    destruct (update_fields who q); [reflexivity|].
    unfold adjust_occupancy. destruct (is_admin who); [|reflexivity].
    destruct (uu_room_no q) as [| |rn]; try reflexivity;
      destruct (u_room_no cur) as [[|c o]|]; try reflexivity;
      destruct (truthy_string rn); reflexivity.
  - unfold mark. destruct (negb _); [now left|].
    destruct (mk_parsed q) as [| |[userId|] name email]; try (now left).
    destruct (_ || _); [now left|].
    destruct (_ && _); [now left|].
    destruct (existing_attendance d userId (utc_date now)) eqn:E; [|now left].
    right. eexists. split; [reflexivity|].
    now apply existing_attendance_nil.
  - unfold manual. destruct (negb _); [now left|].
    destruct (existing_attendance d (mn_userId q) (mn_date q)) eqn:E; [|now left].
    destruct (negb _); [now left|].
    right. eexists. split; [reflexivity|].
    now apply existing_attendance_nil.
  - left. unfold mark_paid. destruct (fees_by_id d id); [reflexivity|].
    destruct (fee_status_eqb _ _); [reflexivity|].
    destruct (negb _); reflexivity.
  - left. reflexivity.
Qed.

Lemma step_attendance_unique (isEmail : string -> bool)
      (bcrypt_hash : string -> string) (d : db) (rq : request) :
  attendance_unique d -> attendance_unique (snd (step isEmail bcrypt_hash d rq)).
Proof.
  unfold attendance_unique. intros Hd.
  destruct (step_attendance isEmail bcrypt_hash d rq) as [->|(row & -> & Hnew)];
    [assumption|].
  rewrite map_app. now apply NoDup_snoc.
Qed.

(** C3. A QR mark that passes its format and ownership checks, and a manual
    mark by an admin, fail with Conflict and leave the store as it was when
    a record of that user and day exists; and every request, hence every
    sequence of requests served one after the other, keeps the attendance
    table at one record per (user, day). *)
Theorem attendance_one_per_day (isEmail : string -> bool)
        (bcrypt_hash : string -> string) :
  (forall d who qr userId name email now,
      truthy qr = true -> userId <> 0 ->
      truthy name = true -> truthy email = true ->
      (role_of who = student -> userId = id_of who) ->
      (exists a, In a (attendance d) /\ a_user_id a = userId
                 /\ a_date a = utc_date now) ->
      rejects (mark d who (mkMark qr (parsed_object (Some userId) name email)) now)
              Conflict d)
  /\ (forall d who q,
         role_of who = admin ->
         (exists a, In a (attendance d) /\ a_user_id a = mn_userId q
                    /\ a_date a = mn_date q) ->
         rejects (manual d who q) Conflict d)
  /\ (forall d rq,
         attendance_unique d ->
         attendance_unique (snd (step isEmail bcrypt_hash d rq)))
  /\ (forall rqs d,
         attendance_unique d ->
         attendance_unique (run isEmail bcrypt_hash d rqs)).
Proof.
  split; [|split; [|split]].
  - intros d who qr userId name email now Hqr Hid Hname Hemail Hown Hex.
    destruct (existing_attendance_found _ _ _ Hex) as (a & rest & E).
    unfold rejects, mark. cbn [mk_qrData mk_parsed]. rewrite Hqr, Hname, Hemail.
    apply Z.eqb_neq in Hid. rewrite Hid. cbn [negb orb].
    assert (Hgate : role_eqb (role_of who) student && negb (userId =? id_of who) = false).
    { destruct (role_of who); [reflexivity|].
      rewrite (Hown eq_refl), Z.eqb_refl. reflexivity. }
    rewrite Hgate, E. split; reflexivity.
  - intros d who q Hadm Hex.
    destruct (existing_attendance_found _ _ _ Hex) as (a & rest & E).
    unfold rejects, manual, is_admin. rewrite Hadm, E. split; reflexivity.
  - intros d rq. apply step_attendance_unique.
  - induction rqs as [|rq rqs IH]; intros d Hd; [exact Hd|].
    cbn [run fold_left]. apply IH. now apply step_attendance_unique.
Qed.

Lemma attendance_one_per_day_witness :
  let d1 := snd (mark fresh_db asha asha_qr (at_time 7 59 59)) in
  let again := manual_again in
  rejects (mark d1 asha asha_qr (at_time 8 0 1)) Conflict d1
  /\ rejects (manual d1 warden again) Conflict d1
  /\ attendance_unique
       (run has_at_sign tagged_hash fresh_db
            [ Mark asha asha_qr (at_time 7 59 59);
              Mark asha asha_qr (at_time 8 0 1);
              Manual warden again ]).
Proof.
  cbv zeta.
  pose proof (attendance_one_per_day has_at_sign tagged_hash)
    as (Hmark & Hmanual & _ & Hrun).
  split; [|split].
  - apply Hmark; try reflexivity.
    + discriminate.
    + eexists. split; [left; reflexivity|]. split; reflexivity.
  - apply Hmanual; [reflexivity|].
    eexists. split; [left; reflexivity|]. split; reflexivity.
  - apply Hrun. constructor.
Defined.

(** ** Attendance: present or late *)

(** Two digits against the text 08, whatever follows: the hour decides
    unless it is eight. *)
Lemma js_lt_hour (h : nat) (r1 r2 : string) :
  (h < 24)%nat ->
  js_lt (String "0" (String "8" r1))
        (String (digit (h / 10)) (String (digit (h mod 10)) r2))
  = if (8 <? h)%nat then true else if (h <? 8)%nat then false else js_lt r1 r2.
Proof.
  intros Hh.
  do 24 (destruct h as [|h]; [reflexivity|]).
  exfalso. lia.
Qed.

(** Two digits against the text 00: anything but zero is greater. *)
Lemma js_lt_sixty (n : nat) (r1 r2 : string) :
  (n < 60)%nat ->
  js_lt (String "0" (String "0" r1))
        (String (digit (n / 10)) (String (digit (n mod 10)) r2))
  = if (0 <? n)%nat then true else js_lt r1 r2.
Proof.
  intros Hn.
  do 60 (destruct n as [|n]; [reflexivity|]).
  exfalso. lia.
Qed.

(** The string comparison of the mark route against the text 08:00:00 is
    the comparison of the time of day with eight o'clock. *)
Lemma is_late_seconds (now : clock) :
  valid_clock now ->
  js_gt (time_string now) "08:00:00" = (8 * 3600 <? seconds_of_day now).
Proof.
  destruct now as [t h m s]. unfold valid_clock, seconds_of_day.
  cbn [local_hh local_mm local_ss]. intros (Hh & Hm & Hs).
  unfold js_gt, time_string, pad2. cbn [local_hh local_mm local_ss append].
  rewrite (js_lt_hour h _ _ Hh).
  destruct (Nat.ltb_spec 8 h) as [H8|H8].
  { symmetry. apply Z.ltb_lt. lia. }
  destruct (Nat.ltb_spec h 8) as [H8'|H8'].
  { symmetry. apply Z.ltb_ge. lia. }
  assert (h = 8%nat) by lia. subst h.
  change (js_lt (String ":" (String "0" (String "0" ":00")))
                (String ":" ?x))
    with (js_lt (String "0" (String "0" ":00")) x).
  rewrite (js_lt_sixty m _ _ Hm).
  destruct (Nat.ltb_spec 0 m) as [Hm0|Hm0].
  { symmetry. apply Z.ltb_lt. lia. }
  assert (m = 0%nat) by lia. subst m.
  change (js_lt (String ":" (String "0" (String "0" EmptyString)))
                (String ":" ?x))
    with (js_lt (String "0" (String "0" EmptyString)) x).
  rewrite (js_lt_sixty s _ _ Hs).
  destruct (Nat.ltb_spec 0 s) as [Hs0|Hs0].
  { symmetry. apply Z.ltb_lt. lia. }
  assert (s = 0%nat) by lia. subst s. reflexivity.
Qed.

(** C4. A successful QR mark appends one record, for the day and the time
    of the clock; its status is late exactly when the local time of day is
    strictly after 08:00:00, and present exactly when it is 08:00:00 or
    earlier. *)
Theorem mark_classification (d : db) (who : identity) (q : mark_req) (now : clock) :
  valid_clock now ->
  succeeds (mark d who q now) ->
  exists row,
    attendance (snd (mark d who q now)) = (attendance d ++ [row])%list
    /\ a_date row = utc_date now
    /\ a_check_in_time row = Some (time_string now)
    /\ (a_status row = late <-> 8 * 3600 < seconds_of_day now)
    /\ (a_status row = present <-> seconds_of_day now <= 8 * 3600).
Proof.
  intros Hclock. unfold succeeds, mark.
  destruct (negb _); [discriminate|].
  destruct (mk_parsed q) as [| |[userId|] name email]; try discriminate.
  destruct (_ || _); [discriminate|].
  destruct (_ && _); [discriminate|].
  destruct (existing_attendance d userId (utc_date now)); [|discriminate].
  intros _. eexists. split; [reflexivity|].
  cbn [a_date a_check_in_time a_status].
  split; [reflexivity|]. split; [reflexivity|].
  rewrite (is_late_seconds now Hclock).
  destruct (Z.ltb_spec (8 * 3600) (seconds_of_day now)) as [Hlt|Hle].
  - split; split; intros H; try reflexivity; try discriminate; try lia.
  - split; split; intros H; try reflexivity; try discriminate; try lia.
Qed.

Lemma mark_classification_witness :
  map a_status (attendance (snd (mark fresh_db asha asha_qr (at_time 7 59 59))))
  = [present]
  /\ map a_status (attendance (snd (mark fresh_db asha asha_qr (at_time 8 0 0))))
     = [present]
  /\ map a_status (attendance (snd (mark fresh_db asha asha_qr (at_time 8 0 1))))
     = [late].
Proof.
  assert (Hearly : valid_clock (at_time 7 59 59)) by (cbv; lia).
  assert (Hsharp : valid_clock (at_time 8 0 0)) by (cbv; lia).
  assert (Hafter : valid_clock (at_time 8 0 1)) by (cbv; lia).
  destruct (mark_classification fresh_db asha asha_qr _ Hearly eq_refl)
    as (r1 & E1 & _ & _ & _ & P1).
  destruct (mark_classification fresh_db asha asha_qr _ Hsharp eq_refl)
    as (r2 & E2 & _ & _ & _ & P2).
  destruct (mark_classification fresh_db asha asha_qr _ Hafter eq_refl)
    as (r3 & E3 & _ & _ & L3 & _).
  rewrite E1, E2, E3. cbn [fresh_db attendance app map].
  rewrite (proj2 P1), (proj2 P2), (proj2 L3); [auto| | |];
    unfold seconds_of_day; simpl; lia.
Defined.

(** ** Fee ledger *)

Lemma is_past_due_iff (curdate : Z) (f : fee) :
  is_past_due curdate f = true <-> f_status f = pending /\ f_due_date f < curdate.
Proof.
  unfold is_past_due. rewrite andb_true_iff, Z.ltb_lt.
  destruct (f_status f); simpl; split; intros [H1 H2]; split;
    try assumption; try reflexivity; discriminate.
Qed.

Lemma update_where_idem {A} (p : A -> bool) (f : A -> A) (t : list A) :
  (forall row, p (f row) = false) ->
  update_where p f (update_where p f t) = update_where p f t.
Proof.
  intros Hp. unfold update_where. rewrite map_map. apply map_ext.
  intros row. destruct (p row) eqn:E; [now rewrite Hp|now rewrite E].
Qed.

Lemma fees_by_id_pay (d : db) (id paid_on : Z) (receipt : option string) :
  fees_by_id (with_fees (update_where (fun f => f_id f =? id)
                                      (pay_fee paid_on receipt) (fees d)) d) id
  = map (pay_fee paid_on receipt) (fees_by_id d id).
Proof.
  unfold fees_by_id. cbn [fees with_fees].
  rewrite select_update_where by reflexivity.
  apply map_ext_in. intros f Hf. apply filter_In in Hf as [_ Hf]. now rewrite Hf.
Qed.

(** C5. The overdue sweep turns exactly the pending fees whose due date is
    strictly before today into overdue fees, changing their status and no
    other column, and leaves every other fee, paid and overdue ones among
    them, and every other table as it was; a second sweep on the same day
    changes nothing more. *)
Theorem update_overdue_spec (d : db) (today : Z) :
  let d1 := snd (update_overdue d today) in
  succeeds (update_overdue d today)
  /\ Forall2 (fun f f' =>
                (f_status f = pending /\ f_due_date f < today ->
                 f_status f' = overdue /\ same_but_status f f')
                /\ (~ (f_status f = pending /\ f_due_date f < today) -> f' = f))
             (fees d) (fees d1)
  /\ Forall2 (fun f f' => f_status f = paid \/ f_status f = overdue -> f' = f)
             (fees d) (fees d1)
  /\ users d1 = users d /\ rooms d1 = rooms d /\ attendance d1 = attendance d
  /\ snd (update_overdue d1 today) = d1.
Proof.
  cbv zeta. unfold update_overdue. cbn [fst snd fees users rooms attendance with_fees].
  split; [reflexivity|].
  split.
  { eapply Forall2_impl; [|apply update_where_Forall2].
    intros f f' ->. split.
    - intros H. apply is_past_due_iff in H. rewrite H.
      split; [reflexivity|]. repeat split.
    - intros H. destruct (is_past_due today f) eqn:E; [|reflexivity].
      apply is_past_due_iff in E. contradiction. }
  split.
  { eapply Forall2_impl; [|apply update_where_Forall2].
    intros f f' -> H. destruct (is_past_due today f) eqn:E; [|reflexivity].
    apply is_past_due_iff in E as [E _]. destruct H; congruence. }
  split; [reflexivity|]. split; [reflexivity|]. split; [reflexivity|].
  unfold with_fees. cbn [fees users rooms attendance next_user_id next_attendance_id].
  f_equal. apply update_where_idem. reflexivity.
Qed.

Lemma update_overdue_spec_witness :
  map f_status (fees ledger_db) = [pending; paid; overdue; pending]
  /\ map f_status (fees (snd (update_overdue ledger_db 20000)))
     = [overdue; paid; overdue; pending]
  /\ snd (update_overdue (snd (update_overdue ledger_db 20000)) 20000)
     = snd (update_overdue ledger_db 20000).
Proof.
  destruct (update_overdue_spec ledger_db 20000)
    as (_ & _ & _ & _ & _ & _ & Hagain).
  split; [reflexivity|]. split; [reflexivity|exact Hagain].
Defined.

(** C6, with the receipt number the UPDATE binds.  [mark_paid] fails with
    NotFound when no fee has that id.  For the fee the lookup finds, it
    fails with Conflict exactly when the fee is already paid, and then
    changes nothing.  A pending or overdue fee is marked paid when the body
    carries [receiptNo] (a string or null): its status is paid, its paid
    date the given one or, when none is given, the current day, its receipt
    number the given one, and nothing else in the store changes.  When the
    body leaves [receiptNo] out the UPDATE is refused by the driver: the
    answer is 500 and the fee is not paid. *)
Theorem mark_paid_spec (d : db) (id : Z) (paidDate : option Z) (receiptNo : field)
        (today : Z) :
  let res := mark_paid d id paidDate receiptNo today in
  ((forall f, In f (fees d) -> f_id f <> id) -> rejects res NotFound d)
  /\ (forall fee0,
         hd_error (fees_by_id d id) = Some fee0 ->
         (outcome_of (fst res) = Conflict <-> f_status fee0 = paid)
         /\ (f_status fee0 = paid -> rejects res Conflict d)
         /\ (f_status fee0 <> paid -> receiptNo = undefined ->
             rejects res Failure d)
         /\ (f_status fee0 <> paid -> receiptNo <> undefined ->
             succeeds res
             /\ Forall2 (fun f f' =>
                           (f_id f = id ->
                            f_status f' = paid
                            /\ f_paid_date f'
                               = Some (match paidDate with
                                       | Some p => p
                                       | None => today
                                       end)
                            /\ f_receipt_no f' = to_col receiptNo
                            /\ same_bill f f')
                           /\ (f_id f <> id -> f' = f))
                        (fees d) (fees (snd res))
             /\ (exists fee1, hd_error (fees_by_id (snd res) id) = Some fee1
                              /\ f_status fee1 = paid
                              /\ (paidDate = None -> f_paid_date fee1 = Some today))
             /\ users (snd res) = users d /\ rooms (snd res) = rooms d
             /\ attendance (snd res) = attendance d)).
Proof.
  cbv zeta. unfold rejects, succeeds, mark_paid. split.
  - intros Hnone.
    assert (E : fees_by_id d id = []).
    { apply select_where_nil. intros f Hf. apply Z.eqb_neq. now apply Hnone. }
    rewrite E. split; reflexivity.
  - intros fee0 Hfee.
    destruct (hd_error_cons _ _ Hfee) as [tl E]. rewrite E.
    assert (Hpaid : fee_status_eqb (f_status fee0) paid = true
                    <-> f_status fee0 = paid)
      by (destruct (f_status fee0); simpl; split; congruence).
    destruct (fee_status_eqb (f_status fee0) paid) eqn:Eq.
    { pose proof (proj1 Hpaid eq_refl) as Hst. cbn [fst snd].
      split; [split; [intros _; exact Hst|reflexivity]|].
      split; [split; reflexivity|].
      split; intros H; contradiction. }
    assert (Hst : f_status fee0 <> paid)
      by (intros H; apply Hpaid in H; discriminate).
    destruct receiptNo as [| |receipt]; cbn [bindable negb fst snd].
    + split; [split; [discriminate|intros H; contradiction]|].
      split; [intros H; contradiction|].
      split; [intros _ _; split; reflexivity|].
      intros _ H. now contradiction H.
    + split; [split; [discriminate|intros H; contradiction]|].
      split; [intros H; contradiction|].
      split; [discriminate|]. intros _ _.
      split; [reflexivity|].
      split.
      { cbn [fees with_fees]. eapply Forall2_impl; [|apply update_where_Forall2].
        intros f f' ->. split.
        - intros Ei. apply Z.eqb_eq in Ei. rewrite Ei. repeat split.
        - intros Ei. apply Z.eqb_neq in Ei. now rewrite Ei. }
      split; [|repeat split].
      rewrite fees_by_id_pay, E. cbn [map hd_error]. eexists.
      split; [reflexivity|]. split; [reflexivity|]. now intros ->.
    + split; [split; [discriminate|intros H; contradiction]|].
      split; [intros H; contradiction|].
      split; [discriminate|]. intros _ _.
      split; [reflexivity|].
      split.
      { cbn [fees with_fees]. eapply Forall2_impl; [|apply update_where_Forall2].
        intros f f' ->. split.
        - intros Ei. apply Z.eqb_eq in Ei. rewrite Ei. repeat split.
        - intros Ei. apply Z.eqb_neq in Ei. now rewrite Ei. }
      split; [|repeat split].
      rewrite fees_by_id_pay, E. cbn [map hd_error]. eexists.
      split; [reflexivity|]. split; [reflexivity|]. now intros ->.
Qed.

Lemma mark_paid_spec_witness :
  let d1 := snd (update_overdue ledger_db 20000) in
  let d2 := snd (mark_paid d1 1 None (str "R-18") 20000) in
  map f_status (fees d1) = [overdue; paid; overdue; pending]
  /\ rejects (mark_paid d1 99 None (str "R-18") 20000) NotFound d1
  /\ rejects (mark_paid d1 1 None undefined 20000) Failure d1
  /\ succeeds (mark_paid d1 1 None (str "R-18") 20000)
  /\ (exists fee1, hd_error (fees_by_id d2 1) = Some fee1
                   /\ f_status fee1 = paid
                   /\ f_paid_date fee1 = Some 20000)
  /\ rejects (mark_paid d2 1 None (str "R-18") 20000) Conflict d2.
Proof.
  cbv zeta. split; [reflexivity|].
  split.
  { apply (proj1 (mark_paid_spec (snd (update_overdue ledger_db 20000)) 99
                                 None (str "R-18") 20000)).
    intros f [<-|[<-|[<-|[<-|[]]]]]; simpl; lia. }
  split.
  { destruct (proj2 (mark_paid_spec (snd (update_overdue ledger_db 20000)) 1
                                    None undefined 20000)
                    (mkFee 1 1 4500 "monthly" 19999 None overdue None None)
                    eq_refl)
      as (_ & _ & Habsent & _).
    apply Habsent; [discriminate|reflexivity]. }
  destruct (proj2 (mark_paid_spec (snd (update_overdue ledger_db 20000)) 1
                                  None (str "R-18") 20000)
                  (mkFee 1 1 4500 "monthly" 19999 None overdue None None)
                  eq_refl)
    as (_ & _ & _ & Hpay).
  destruct Hpay as (Hok & _ & (fee1 & Hrow & Hst & Hdate) & _);
    [discriminate|discriminate|].
  split; [exact Hok|].
  split.
  - exists fee1. split; [exact Hrow|]. split; [exact Hst|]. now apply Hdate.
  - apply (proj2 (mark_paid_spec
                    (snd (mark_paid (snd (update_overdue ledger_db 20000)) 1
                                    None (str "R-18") 20000))
                    1 None (str "R-18") 20000)
                 (mkFee 1 1 4500 "monthly" 19999 None paid (Some 20000)
                        (Some "R-18"))
                 eq_refl).
    reflexivity.
Defined.

(** ** Attendance statistics *)

(** The numeral of a text of digits, and the texts of counts. *)

Lemma of_uint_acc_value (d : Decimal.uint) (acc : positive) :
  Z.pos (Pos.of_uint_acc d acc)
  = Z.pos acc * 10 ^ Z.of_nat (Decimal.nb_digits d) + Z.of_N (Pos.of_uint d).
Proof.
  revert acc. induction d as [|d IH|d IH|d IH|d IH|d IH|d IH|d IH|d IH|d IH|d IH];
    intros acc;
    cbn [Pos.of_uint_acc Pos.of_uint Decimal.nb_digits Z.of_N];
    [cbn; lia|..];
    rewrite ?Nat2Z.inj_succ, ?Z.pow_succ_r by lia;
    rewrite IH; try (rewrite (IH 1%positive)); try (rewrite (IH 2%positive));
    try (rewrite (IH 3%positive)); try (rewrite (IH 4%positive));
    try (rewrite (IH 5%positive)); try (rewrite (IH 6%positive));
    try (rewrite (IH 7%positive)); try (rewrite (IH 8%positive));
    try (rewrite (IH 9%positive)); lia.
Qed.

Lemma digits_value_numeral (d : Decimal.uint) (acc : Z) :
  digits_value acc (NilEmpty.string_of_uint d)
  = Some (acc * 10 ^ Z.of_nat (Decimal.nb_digits d) + Z.of_N (Pos.of_uint d)).
Proof.
  revert acc. induction d as [|d IH|d IH|d IH|d IH|d IH|d IH|d IH|d IH|d IH|d IH];
    intros acc;
    cbn [NilEmpty.string_of_uint digits_value Decimal.nb_digits Pos.of_uint Z.of_N];
    [f_equal; cbn; lia|..];
    change (digit_value "0"%char) with (Some 0); change (digit_value "1"%char) with (Some 1);
    change (digit_value "2"%char) with (Some 2); change (digit_value "3"%char) with (Some 3);
    change (digit_value "4"%char) with (Some 4); change (digit_value "5"%char) with (Some 5);
    change (digit_value "6"%char) with (Some 6); change (digit_value "7"%char) with (Some 7);
    change (digit_value "8"%char) with (Some 8); change (digit_value "9"%char) with (Some 9);
    cbv beta iota; rewrite IH; f_equal;
    rewrite ?of_uint_acc_value, ?Nat2Z.inj_succ, ?Z.pow_succ_r by lia; lia.
Qed.

Lemma digits_value_app (s1 s2 : string) (acc : Z) :
  digits_value acc (s1 ++ s2)
  = match digits_value acc s1 with
    | Some v => digits_value v s2
    | None => None
    end.
Proof.
  revert acc. induction s1 as [|c s1 IH]; intros acc; cbn [append digits_value];
    [reflexivity|].
  destruct (digit_value c); [apply IH|reflexivity].
Qed.

Lemma nb_digits_length (d : Decimal.uint) :
  Decimal.nb_digits d = String.length (NilEmpty.string_of_uint d).
Proof. induction d; cbn; congruence. Qed.

(** The text of a count is the numeral of some digits that stand for it. *)
Lemma decimal_text_count (z : Z) :
  0 <= z ->
  exists d, decimal_text z = NilEmpty.string_of_uint d
            /\ Z.of_N (Pos.of_uint d) = z.
Proof.
  intros Hz. destruct z as [|q|q]; [| |lia].
  - exists (Decimal.D0 Decimal.Nil). split; reflexivity.
  - exists (Pos.to_uint q). split.
    + unfold decimal_text. cbn [Z.to_int NilZero.string_of_int].
      pose proof (DecimalPos.Unsigned.to_uint_nonnil q) as Hnil.
      destruct (Pos.to_uint q); [contradiction|reflexivity..].
    + now rewrite DecimalPos.Unsigned.of_to.
Qed.

(** Two counts written side by side read as the first shifted left by the
    number of digits of the second, plus the second. *)
Lemma digits_value_counts (a b : Z) :
  0 <= a -> 0 <= b ->
  digits_value 0 (decimal_text a ++ decimal_text b)
  = Some (a * 10 ^ Z.of_nat (String.length (decimal_text b)) + b).
Proof.
  intros Ha Hb.
  destruct (decimal_text_count a Ha) as (da & -> & Eda).
  destruct (decimal_text_count b Hb) as (db & -> & Edb).
  rewrite digits_value_app, !digits_value_numeral, <- nb_digits_length.
  f_equal. lia.
Qed.

Lemma sum_case_nonneg (st : att_status) (rows : list attendance_row) (n : Z) :
  sum_case st rows = Some n -> 0 <= n.
Proof. destruct rows; [discriminate|]. intros [= <-]. lia. Qed.

(** C8, as the route computes it.  With no record in the range the
    percentage is 0 and no division is evaluated, however the driver is
    set.  With records, and the driver as it is by default, the two sums
    arrive as texts and [presentDays + lateDays] writes one after the
    other: the quotient is taken of the numeral present * 10^k + late, k
    being the number of digits of late, not of present + late.  So 8 present
    and 2 late days out of 10 give 820.00 where the design says 100.00.
    With the driver set to deliver numbers the same days give 100.00. *)
Theorem attendance_stats_percentage :
  (forall (decimalNumbers : bool) (d : db) (who : identity) (userId : Z)
          (startDate endDate : option Z),
      let st := attendance_stats decimalNumbers d who userId startDate endDate in
      totalDays st = 0 -> attendancePercentage st = Some 0)
  /\ (forall (d : db) (who : identity) (userId : Z)
             (startDate endDate : option Z) (present_ late_ : Z),
         let st := attendance_stats false d who userId startDate endDate in
         0 < totalDays st ->
         presentDays st = Some present_ -> lateDays st = Some late_ ->
         attendancePercentage st
         = to_fixed2
             (PrimFloat.mul
                (PrimFloat.div
                   (js_number
                      (present_ * 10 ^ Z.of_nat (String.length (decimal_text late_))
                       + late_))
                   (js_number (totalDays st)))
                (js_number 100)))
  /\ (let st := attendance_stats false (term_db 10 8 2) asha 1 None None in
      totalDays st = 10 /\ presentDays st = Some 8 /\ absentDays st = Some 0
      /\ lateDays st = Some 2 /\ attendancePercentage st = Some 82000)
  /\ attendancePercentage (attendance_stats true (term_db 10 8 2) asha 1 None None)
     = Some 10000.
Proof.
  split; [|split; [|split]].
  - intros dn d who userId startDate endDate. cbv zeta. unfold attendance_stats.
    cbn [totalDays attendancePercentage]. intros ->. reflexivity.
  - intros d who userId startDate endDate p l. cbv zeta. unfold attendance_stats.
    cbn [totalDays presentDays lateDays attendancePercentage].
    intros Htotal Hp Hl. rewrite Hp, Hl. unfold percentage_of.
    assert (Hgt : (Z.of_nat
                     (List.length
                        (stats_rows d (if is_admin who then userId else id_of who)
                                    startDate endDate)) >? 0) = true)
      by (apply Z.gtb_lt; exact Htotal).
    rewrite Hgt. cbn [plus_columns column_text to_number].
    rewrite digits_value_counts
      by (eapply sum_case_nonneg; eassumption).
    reflexivity.
  - cbv zeta. repeat split; reflexivity.
  - reflexivity.
Qed.

Lemma attendance_stats_percentage_witness :
  attendancePercentage (attendance_stats false fresh_db asha 1 None None) = Some 0
  /\ attendancePercentage (attendance_stats false (term_db 10 8 2) asha 1 None None)
     = to_fixed2 (PrimFloat.mul
                    (PrimFloat.div (js_number 82) (js_number 10))
                    (js_number 100))
  /\ to_fixed2 (PrimFloat.mul (PrimFloat.div (js_number 82) (js_number 10))
                              (js_number 100))
     = Some 82000.
Proof.
  split; [|split].
  - apply (proj1 attendance_stats_percentage false fresh_db asha 1 None None).
    reflexivity.
  - apply (proj1 (proj2 attendance_stats_percentage)
                 (term_db 10 8 2) asha 1 None None 8 2);
      [reflexivity|reflexivity|reflexivity].
  - reflexivity.
Defined.

(** With the driver set to deliver numbers, the rounding: 23 present days
    out of 160.  The exact quotient is 14.375, which rounds to 14.38 with a
    tie going up and with a tie going to even alike; the double computed by
    the route lies just below 14.375 and is printed as 14.37. *)
Lemma stats_rounding_of_doubles :
  let st := attendance_stats true (term_db 160 23 0) warden 1 None None in
  totalDays st = 160
  /\ presentDays st = Some 23
  /\ lateDays st = Some 0
  /\ attendancePercentage st = Some 1437
  /\ exact_percentage 160 23 0 = 1438
  /\ exact_percentage_half_even 160 23 0 = 1438
  /\ attendancePercentage st <> Some (exact_percentage 160 23 0).
Proof.
  cbv zeta. repeat split; try reflexivity.
  vm_compute. discriminate.
Qed.

(** * Further properties of the routes *)

(** ** Fee ledger: how the sweep and the payment compose *)

Lemma sweep_row_max (c1 c2 : Z) (f : fee) :
  (if is_past_due c2 (if is_past_due c1 f then set_fee_status overdue f else f)
   then set_fee_status overdue
          (if is_past_due c1 f then set_fee_status overdue f else f)
   else if is_past_due c1 f then set_fee_status overdue f else f)
  = if is_past_due (Z.max c1 c2) f then set_fee_status overdue f else f.
Proof.
  unfold is_past_due. destruct (f_status f) eqn:Est; cbn [fee_status_eqb andb].
  - destruct (Z.ltb_spec (f_due_date f) c1) as [H1|H1].
    + cbn [set_fee_status f_status fee_status_eqb andb].
      destruct (Z.ltb_spec (f_due_date f) (Z.max c1 c2)); [reflexivity|lia].
    + rewrite Est. cbn [fee_status_eqb andb].
      destruct (Z.ltb_spec (f_due_date f) c2), (Z.ltb_spec (f_due_date f) (Z.max c1 c2));
        try reflexivity; lia.
  - rewrite Est. reflexivity.
  - rewrite Est. reflexivity.
Qed.

(** X1. Two sweeps, on whatever days and in whatever order, leave the store
    that one sweep on the later of the two days leaves. *)
Theorem update_overdue_later_day (d : db) (c1 c2 : Z) :
  snd (update_overdue (snd (update_overdue d c1)) c2)
  = snd (update_overdue d (Z.max c1 c2)).
Proof.
  unfold update_overdue, with_fees.
  cbn [snd fees users rooms attendance next_user_id next_attendance_id].
  f_equal. unfold update_where. rewrite map_map. apply map_ext.
  intros f. apply sweep_row_max.
Qed.

Lemma sweep_keeps_paid_test (c : Z) (f : fee) :
  fee_status_eqb
    (f_status (if is_past_due c f then set_fee_status overdue f else f)) paid
  = fee_status_eqb (f_status f) paid.
Proof.
  unfold is_past_due. destruct (f_status f) eqn:E; cbn [fee_status_eqb andb];
    [destruct (_ <? _); cbn [set_fee_status f_status]|..];
    rewrite ?E; reflexivity.
Qed.

Lemma fees_by_id_sweep (d : db) (c id : Z) :
  fees_by_id (snd (update_overdue d c)) id
  = map (fun f => if is_past_due c f then set_fee_status overdue f else f)
        (fees_by_id d id).
Proof.
  unfold fees_by_id, update_overdue. cbn [snd fees with_fees].
  apply select_update_where. reflexivity.
Qed.

Lemma pay_sweep_row (c id paid_on : Z) (receipt : option string) (f : fee) :
  (if f_id (if is_past_due c f then set_fee_status overdue f else f) =? id
   then pay_fee paid_on receipt
                (if is_past_due c f then set_fee_status overdue f else f)
   else if is_past_due c f then set_fee_status overdue f else f)
  = if is_past_due c (if f_id f =? id then pay_fee paid_on receipt f else f)
    then set_fee_status overdue
           (if f_id f =? id then pay_fee paid_on receipt f else f)
    else if f_id f =? id then pay_fee paid_on receipt f else f.
Proof.
  destruct f as [fid uid amount ftype due descr st pd rc].
  unfold is_past_due, set_fee_status, pay_fee.
  cbn [f_id f_user_id f_amount f_fee_type f_due_date f_description f_status
       f_paid_date f_receipt_no].
  destruct st, (fid =? id) eqn:Eid, (due <? c) eqn:Edue;
    cbn [fee_status_eqb andb f_id f_status f_due_date];
    rewrite ?Eid, ?Edue; cbn [fee_status_eqb andb f_id f_status f_due_date];
    rewrite ?Eid; reflexivity.
Qed.

(** X2. Paying a fee and sweeping commute: the payment gets the same answer
    before and after a sweep, and the two orders end in the same store. *)
Theorem mark_paid_update_overdue_commute (d : db) (id : Z) (paidDate : option Z)
        (receiptNo : field) (today curdate : Z) :
  fst (mark_paid (snd (update_overdue d curdate)) id paidDate receiptNo today)
  = fst (mark_paid d id paidDate receiptNo today)
  /\ snd (mark_paid (snd (update_overdue d curdate)) id paidDate receiptNo today)
     = snd (update_overdue (snd (mark_paid d id paidDate receiptNo today)) curdate).
Proof.
  unfold mark_paid. rewrite fees_by_id_sweep.
  destruct (fees_by_id d id) as [|fee0 tl]; cbn [map].
  - split; reflexivity.
  - rewrite sweep_keeps_paid_test.
    destruct (fee_status_eqb (f_status fee0) paid); [split; reflexivity|].
    destruct (negb (bindable receiptNo)); [split; reflexivity|].
    split; [reflexivity|].
    unfold update_overdue, with_fees.
    cbn [snd fees users rooms attendance next_user_id next_attendance_id].
    f_equal. unfold update_where. rewrite !map_map. apply map_ext.
    intros f. apply pay_sweep_row.
Qed.

(** ** Fee ledger: the lifecycle under any sequence of fee requests *)

Lemma update_where_keys {A B} (key : A -> B) (p : A -> bool) (f : A -> A)
      (t : list A) :
  (forall row, key (f row) = key row) ->
  map key (update_where p f t) = map key t.
Proof.
  intros Hk. unfold update_where. rewrite map_map. apply map_ext.
  intros row. destruct (p row); [apply Hk|reflexivity].
Qed.

Lemma update_where_Forall_key {A B} (key : A -> B) (P : B -> Prop)
      (p : A -> bool) (f : A -> A) (t : list A) :
  (forall row, key (f row) = key row) ->
  Forall (fun row => P (key row)) t ->
  Forall (fun row => P (key row)) (update_where p f t).
Proof.
  intros Hk Ht. apply (proj1 (Forall_map key P _)).
  rewrite update_where_keys by exact Hk.
  now apply (proj2 (Forall_map key P _)).
Qed.

(** Under a primary key the row a SELECT by key finds is the row itself. *)
Lemma select_by_key {A} (key : A -> Z) (t : list A) (x : A) :
  NoDup (map key t) -> In x t ->
  select_where (fun row => key row =? key x) t = [x].
Proof.
  unfold select_where. induction t as [|a t IH]; simpl; intros Hnd Hin; [easy|].
  inversion Hnd as [|k ks Hk Hnd']; subst.
  destruct Hin as [->|Hin].
  - rewrite Z.eqb_refl. f_equal.
    apply (proj2 (select_where_nil _ _)). intros y Hy. apply Z.eqb_neq.
    intros E. apply Hk. rewrite <- E. now apply in_map.
  - destruct (key a =? key x) eqn:E; [|now apply IH].
    apply Z.eqb_eq in E. exfalso. apply Hk. rewrite E. now apply in_map.
Qed.

Lemma NoDup_snoc_fresh (ks : list Z) (k : Z) :
  NoDup ks -> Forall (fun x => x < k) ks -> NoDup (ks ++ [k]).
Proof.
  intros Hnd Hlt. apply NoDup_snoc; [assumption|].
  intros Hin. rewrite Forall_forall in Hlt. specialize (Hlt k Hin). lia.
Qed.

Lemma fee_step_keyed (s : server) (rq : fee_request) :
  fees_keyed s -> fees_keyed (snd (fee_step s rq)).
Proof.
  unfold fees_keyed. intros [Hnd Hlt]. destruct rq as [q|id pd rc today|c];
    cbn [fee_step].
  - unfold create_fee. destruct (negb _); [now split|].
    destruct (cf_userId q), (cf_amount q), (cf_feeType q), (cf_dueDate q);
      try (now split).
    destruct (active_students_by_id _ _); [now split|].
    destruct (negb _); [now split|].
    cbn [snd store next_fee_id fees with_fees]. unfold insert_row.
    rewrite map_app. cbn [map new_fee f_id]. split.
    + apply NoDup_snoc_fresh; [assumption|]. now apply Forall_map.
    + apply Forall_app. split.
      * eapply Forall_impl; [|exact Hlt]. cbn beta. intros; lia.
      * constructor; [|constructor]. cbn [f_id new_fee]. lia.
  - unfold on_store, mark_paid. cbn [snd].
    destruct (fees_by_id _ _); [now split|].
    destruct (fee_status_eqb _ _); [now split|].
    destruct (negb _); [now split|].
    cbn [snd with_store store next_fee_id fees with_fees].
    split.
    + now rewrite update_where_keys by reflexivity.
    + now apply (update_where_Forall_key f_id (fun k => k < next_fee_id s)).
  - unfold on_store, update_overdue.
    cbn [snd with_store store next_fee_id fees with_fees].
    split.
    + now rewrite update_where_keys by reflexivity.
    + now apply (update_where_Forall_key f_id (fun k => k < next_fee_id s)).
Qed.

Lemma fee_step_lifecycle (s : server) (rq : fee_request) (f : fee) :
  fees_keyed s -> In f (fees (store s)) ->
  exists f', In f' (fees (store (snd (fee_step s rq))))
             /\ f_id f' = f_id f /\ f_user_id f' = f_user_id f
             /\ f_amount f' = f_amount f /\ f_due_date f' = f_due_date f
             /\ fee_rank (f_status f) <= fee_rank (f_status f')
             /\ (f_status f = paid -> f' = f).
Proof.
  intros [Hnd _] Hin.
  assert (Hsame : forall t, In f t ->
            exists f', In f' t /\ f_id f' = f_id f /\ f_user_id f' = f_user_id f
                       /\ f_amount f' = f_amount f /\ f_due_date f' = f_due_date f
                       /\ fee_rank (f_status f) <= fee_rank (f_status f')
                       /\ (f_status f = paid -> f' = f)).
  { intros t Ht. exists f. repeat split; auto. lia. }
  destruct rq as [q|id pd rc today|c]; cbn [fee_step].
  - unfold create_fee. destruct (negb _); [now apply Hsame|].
    destruct (cf_userId q), (cf_amount q), (cf_feeType q), (cf_dueDate q);
      try (now apply Hsame).
    destruct (active_students_by_id _ _); [now apply Hsame|].
    destruct (negb _); [now apply Hsame|].
    apply Hsame. cbn [snd store fees with_fees]. unfold insert_row.
    apply in_or_app. now left.
  - unfold on_store, mark_paid. cbn [snd].
    destruct (fees_by_id (store s) id) as [|fee0 tl] eqn:E; [now apply Hsame|].
    destruct (fee_status_eqb (f_status fee0) paid) eqn:Ep; [now apply Hsame|].
    destruct (negb (bindable rc)); [now apply Hsame|].
    cbn [snd with_store store fees with_fees].
    exists (if f_id f =? id
            then pay_fee match pd with Some p => p | None => today end (to_col rc) f
            else f).
    split; [now apply update_where_In with (p := fun f0 => f_id f0 =? id)|].
    destruct (f_id f =? id) eqn:Eid.
    + apply Z.eqb_eq in Eid. subst id.
      unfold fees_by_id in E. rewrite (select_by_key f_id _ f Hnd Hin) in E.
      injection E as <- _.
      repeat split; try reflexivity.
      * cbn [pay_fee f_status fee_rank]. destruct (f_status f); simpl; lia.
      * intros Hp. rewrite Hp in Ep. discriminate.
    + repeat split; auto. lia.
  - unfold on_store, update_overdue. cbn [snd with_store store fees with_fees].
    exists (if is_past_due c f then set_fee_status overdue f else f).
    split; [now apply update_where_In|].
    destruct (is_past_due c f) eqn:Ep.
    + apply is_past_due_iff in Ep as [Ep _].
      repeat split; try reflexivity.
      * rewrite Ep. simpl. lia.
      * intros Hp. congruence.
    + repeat split; auto. lia.
Qed.

(** X3. The fee lifecycle only moves forward.  Under the primary key of the
    fees table, after any sequence of create, pay and sweep requests every
    fee of the ledger is still there under its id, for the same user, amount
    and due date, in a status that is the same or later in the order
    pending, overdue, paid; a paid fee is entirely unchanged. *)
Theorem fee_lifecycle_monotone (rqs : list fee_request) (s : server) (f : fee) :
  fees_keyed s -> In f (fees (store s)) ->
  exists f', In f' (fees (store (fee_run s rqs)))
             /\ f_id f' = f_id f /\ f_user_id f' = f_user_id f
             /\ f_amount f' = f_amount f /\ f_due_date f' = f_due_date f
             /\ fee_rank (f_status f) <= fee_rank (f_status f')
             /\ (f_status f = paid -> f' = f).
Proof.
  revert s f. induction rqs as [|rq rqs IH]; intros s f Hk Hin.
  - exists f. repeat split; auto. lia.
  - cbn [fee_run fold_left].
    destruct (fee_step_lifecycle s rq f Hk Hin)
      as (f1 & Hin1 & Hid1 & Hu1 & Ha1 & Hd1 & Hr1 & Hp1).
    destruct (IH _ f1 (fee_step_keyed s rq Hk) Hin1)
      as (f2 & Hin2 & Hid2 & Hu2 & Ha2 & Hd2 & Hr2 & Hp2).
    exists f2. split; [exact Hin2|].
    repeat split; try congruence; try lia.
    intros Hp. pose proof (Hp1 Hp) as E1. subst f1. now apply Hp2.
Qed.

Lemma ledger_server_keyed : fees_keyed ledger_server.
Proof.
  split.
  - cbn. repeat (constructor; [cbn; intuition discriminate|]). constructor.
  - cbn. repeat (constructor; [cbn; lia|]). constructor.
Defined.

Lemma fee_lifecycle_monotone_witness :
  exists f',
    In f' (fees (store (fee_run ledger_server
                                [ FeeSweep 20000;
                                  FeePay 1 None (str "R-18") 20001;
                                  FeeCreate (monthly_fee 1 20060);
                                  FeeSweep 20050 ])))
    /\ f_id f' = 1 /\ f_status f' = paid.
Proof.
  destruct (fee_lifecycle_monotone
              [ FeeSweep 20000; FeePay 1 None (str "R-18") 20001;
                FeeCreate (monthly_fee 1 20060); FeeSweep 20050 ]
              ledger_server
              (mkFee 1 1 4500 "monthly" 19999 None pending None None)
              ledger_server_keyed (or_introl eq_refl))
    as (f' & Hin & Hid & _).
  exists f'. split; [exact Hin|]. split; [exact Hid|].
  cbn in Hin. destruct Hin as [<-|[<-|[<-|[<-|[<-|[]]]]]];
    cbn in Hid; try discriminate; reflexivity.
Defined.

(** ** Fee ledger: creating a fee *)

(** X4. A valid create-fee request for a user who is not an active student
    is answered with NotFound and changes nothing.  For an active student a
    body that leaves [description] out is answered 500 and changes nothing
    either, the INSERT being refused by the driver.  With a description (a
    string or null), under the primary key of the fees table, the fee is
    appended; a lookup by the returned id finds exactly this fee, pending,
    unpaid and without receipt; the key is kept; and the fee can then be
    paid by that id with any receipt number the body carries. *)
Theorem create_fee_spec (s : server) (q : create_fee_req)
        (userId amount dueDate : Z) (feeType : string) :
  create_fee_valid q = true ->
  cf_userId q = Some userId -> cf_amount q = Some amount ->
  cf_feeType q = str feeType -> cf_dueDate q = Some dueDate ->
  let res := create_fee s q in
  let created := new_fee (next_fee_id s) userId amount feeType dueDate
                         (to_col (cf_description q)) in
  (active_students_by_id (store s) userId = [] ->
   res = (mkResp 404 "Student not found", s))
  /\ (active_students_by_id (store s) userId <> [] ->
      cf_description q = undefined ->
      res = (mkResp 500 "Failed to create fee", s))
  /\ (active_students_by_id (store s) userId <> [] ->
      cf_description q <> undefined ->
      fees_keyed s ->
      fst res = mkResp 201 "Fee created successfully"
      /\ fees (store (snd res)) = (fees (store s) ++ [created])%list
      /\ fees_by_id (store (snd res)) (next_fee_id s) = [created]
      /\ f_status created = pending /\ f_paid_date created = None
      /\ f_receipt_no created = None
      /\ fees_keyed (snd res)
      /\ forall paidDate receiptNo today,
           receiptNo <> undefined ->
           succeeds (mark_paid (store (snd res)) (next_fee_id s)
                               paidDate receiptNo today)).
Proof.
  intros Hvalid Hu Ha Ht Hd. cbv zeta.
  assert (Hres : create_fee s q
                 = match active_students_by_id (store s) userId with
                   | [] => (mkResp 404 "Student not found", s)
                   | _ :: _ =>
                     if negb (bindable (cf_description q))
                     then (mkResp 500 "Failed to create fee", s)
                     else
                     (mkResp 201 "Fee created successfully",
                      mkServer (with_fees
                                  (insert_row
                                     (new_fee (next_fee_id s) userId amount
                                              feeType dueDate
                                              (to_col (cf_description q)))
                                     (fees (store s)))
                                  (store s))
                               (next_room_id s) (next_fee_id s + 1))
                   end).
  { unfold create_fee. rewrite Hvalid, Hu, Ha, Ht, Hd. reflexivity. }
  split; [|split].
  - rewrite Hres. intros ->. reflexivity.
  - rewrite Hres. intros Hex ->.
    destruct (active_students_by_id (store s) userId) as [|u tl]; [congruence|].
    reflexivity.
  - intros Hex Hdescr Hk.
    assert (Hbound : negb (bindable (cf_description q)) = false)
      by (destruct (cf_description q); [contradiction| |]; reflexivity).
    assert (Hk' : fees_keyed (snd (fee_step s (FeeCreate q))))
      by (now apply fee_step_keyed).
    cbn [fee_step] in Hk'. rewrite Hres in Hk' |- *. rewrite Hbound in Hk' |- *.
    destruct (active_students_by_id (store s) userId) as [|u tl]; [congruence|].
    cbn [fst snd store fees with_fees]. unfold insert_row.
    split; [reflexivity|]. split; [reflexivity|].
    assert (Hsel : fees_by_id
                     (with_fees
                        (fees (store s)
                         ++ [new_fee (next_fee_id s) userId amount feeType dueDate
                                     (to_col (cf_description q))]) (store s))
                     (next_fee_id s)
                   = [new_fee (next_fee_id s) userId amount feeType dueDate
                              (to_col (cf_description q))]).
    { destruct Hk' as [Hnd _]. cbn [snd store fees with_fees] in Hnd.
      unfold insert_row in Hnd. unfold fees_by_id. cbn [fees with_fees].
      apply (select_by_key f_id _ (new_fee (next_fee_id s) userId amount feeType
                                           dueDate (to_col (cf_description q)))
                           Hnd).
      apply in_or_app. right. now left. }
    split; [exact Hsel|].
    split; [reflexivity|]. split; [reflexivity|]. split; [reflexivity|].
    split; [exact Hk'|].
    intros paidDate receiptNo today Hreceipt. unfold succeeds, mark_paid.
    rewrite Hsel. cbn [new_fee f_status fee_status_eqb].
    destruct receiptNo; [contradiction| |]; reflexivity.
Qed.

Lemma create_fee_spec_witness :
  create_fee ledger_server (monthly_fee 8 20060)
  = (mkResp 404 "Student not found", ledger_server)
  /\ create_fee ledger_server (monthly_fee_form 1 20060)
     = (mkResp 500 "Failed to create fee", ledger_server)
  /\ fees_by_id (store (snd (create_fee ledger_server (monthly_fee 1 20060)))) 5
     = [new_fee 5 1 4500 "monthly" 20060 None].
Proof.
  split; [|split].
  - apply (proj1 (create_fee_spec ledger_server (monthly_fee 8 20060)
                                  8 4500 20060 "monthly"
                                  eq_refl eq_refl eq_refl eq_refl eq_refl)).
    reflexivity.
  - apply (proj1 (proj2 (create_fee_spec ledger_server (monthly_fee_form 1 20060)
                                         1 4500 20060 "monthly"
                                         eq_refl eq_refl eq_refl eq_refl eq_refl))).
    + discriminate.
    + reflexivity.
  - destruct (proj2 (proj2 (create_fee_spec ledger_server (monthly_fee 1 20060)
                                            1 4500 20060 "monthly"
                                            eq_refl eq_refl eq_refl eq_refl eq_refl)))
      as (_ & _ & Hsel & _).
    + discriminate.
    + discriminate.
    + exact ledger_server_keyed.
    + exact Hsel.
Defined.

(** ** Fee ledger: the overdue listing *)

Lemma past_due_after_sweep (c c' : Z) (f : fee) :
  c' <= c ->
  is_past_due c' (if is_past_due c f then set_fee_status overdue f else f) = false.
Proof.
  intros Hle. destruct (is_past_due c f) eqn:E; [reflexivity|].
  destruct (is_past_due c' f) eqn:E'; [|reflexivity].
  apply is_past_due_iff in E' as [Hp Hd].
  assert (is_past_due c f = true) by (apply is_past_due_iff; split; [assumption|lia]).
  congruence.
Qed.

Lemma overdue_rows_after_sweep (d : db) (c c' : Z) :
  c' <= c -> overdue_rows (snd (update_overdue d c)) c' = [].
Proof.
  intros Hle. unfold overdue_rows, update_overdue. cbn [snd fees users with_fees].
  replace (select_where (is_past_due c')
                        (update_where (is_past_due c) (set_fee_status overdue)
                                      (fees d)))
    with (@nil fee); [reflexivity|].
  symmetry. apply select_where_nil. intros f Hf.
  unfold update_where in Hf. apply in_map_iff in Hf as (f0 & <- & _).
  now apply past_due_after_sweep.
Qed.

(** X5. Once the sweep has run, the overdue listing of that day, or of any
    earlier day, is empty, with a total of 0: the listing selects the
    pending fees past their due date, and the sweep has just turned every
    one of them into an overdue fee. *)
Theorem get_overdue_after_sweep (d : db) (curdate listed page limit : Z) :
  listed <= curdate -> 0 <= limit -> 1 <= page ->
  get_overdue (snd (update_overdue d curdate)) listed page limit
  = data ([], mkPagination page (page_count 0 limit) 0).
Proof.
  intros Hle Hlimit Hpage. unfold get_overdue.
  assert (Hl : (limit <? 0) = false) by (apply Z.ltb_ge; lia).
  assert (Ho : ((page - 1) * limit <? 0) = false) by (apply Z.ltb_ge; nia).
  rewrite Hl, Ho, overdue_rows_after_sweep by assumption.
  cbn [orb order_by fold_right List.length Z.of_nat].
  unfold limit_offset. now rewrite skipn_nil, firstn_nil.
Qed.

Lemma get_overdue_after_sweep_witness :
  (exists rows pg, get_overdue ledger_db 20000 1 10 = data (rows, pg)
                   /\ List.length rows = 1%nat)
  /\ get_overdue (snd (update_overdue ledger_db 20000)) 20000 1 10
     = data ([], mkPagination 1 (Some 0) 0).
Proof.
  split.
  - eexists. eexists. split; reflexivity.
  - apply (get_overdue_after_sweep ledger_db 20000 20000 1 10); lia.
Defined.








(** ** rooms.js: what its five writing routes keep *)

Lemma NoDup_map_filter {A B} (key : A -> B) (p : A -> bool) (t : list A) :
  NoDup (map key t) -> NoDup (map key (filter p t)).
Proof.
  induction t as [|a t IH]; cbn [map filter]; intros Hnd; [constructor|].
  inversion Hnd as [|k ks Hk Hnd']; subst.
  destruct (p a); cbn [map]; [constructor|]; auto.
  intros Hin. apply Hk. apply in_map_iff in Hin as (x & Hx & Hin).
  apply filter_In in Hin as [Hin _]. rewrite <- Hx. now apply in_map.
Qed.

Lemma Forall_filter {A} (P : A -> Prop) (p : A -> bool) (t : list A) :
  Forall P t -> Forall P (filter p t).
Proof.
  rewrite !Forall_forall. intros H x Hx. apply filter_In in Hx as [Hx _]. auto.
Qed.

(** A rewrite of the rows of one key that keeps a property of the row the
    lookup by that key finds keeps it on the whole table. *)
Lemma update_where_Forall {A} (P : A -> Prop) (p : A -> bool) (f : A -> A)
      (t : list A) :
  Forall P t -> (forall row, In row t -> p row = true -> P (f row)) ->
  Forall P (update_where p f t).
Proof.
  intros Ht Hf. unfold update_where. apply Forall_map.
  rewrite Forall_forall in *. intros row Hrow.
  destruct (p row) eqn:E; auto.
Qed.

Lemma rooms_by_id_unique (d : db) (id : Z) (rm r : room) (tl : list room) :
  NoDup (map r_id (rooms d)) ->
  rooms_by_id d id = rm :: tl -> In r (rooms d) -> r_id r = id -> r = rm.
Proof.
  intros Hnd E Hin Hid. subst id. unfold rooms_by_id in E.
  rewrite (select_by_key r_id _ r Hnd Hin) in E. congruence.
Qed.

Lemma apply_room_fields_frame (q : update_room_req) (r : room) :
  let r' := apply_room_fields (room_update_fields q) r in
  r_id r' = r_id r /\ r_room_no r' = r_room_no r /\ r_occupied r' = r_occupied r
  /\ r_capacity r' = match ur_capacity q with
                     | int_value c => c
                     | _ => r_capacity r
                     end
  /\ r_is_active r' = match ur_is_active q with
                      | Some b => b
                      | None => r_is_active r
                      end.
Proof.
  unfold room_update_fields, apply_room_fields.
  destruct (ur_capacity q), (ur_type q) as [| |[|c0 t]], (ur_floor q),
    (ur_is_active q); cbn; repeat split.
Qed.

Lemma update_room_sound (d : db) (id : Z) (q : update_room_req) :
  NoDup (map r_id (rooms d)) ->
  Forall (fun r => r_occupied r <= r_capacity r) (rooms d) ->
  map r_id (rooms (snd (update_room d id q))) = map r_id (rooms d)
  /\ map r_room_no (rooms (snd (update_room d id q))) = map r_room_no (rooms d)
  /\ Forall (fun r => r_occupied r <= r_capacity r)
            (rooms (snd (update_room d id q))).
Proof.
  intros Hnd Hcap. unfold update_room.
  destruct (negb (update_room_valid q)) eqn:Hv; [now repeat split|].
  destruct (rooms_by_id d id) as [|cur tl] eqn:E; [now repeat split|].
  destruct (match ur_capacity q with
            | int_value c => negb (c =? 0) && (c <? r_occupied cur)
            | _ => false
            end) eqn:Hg; [now repeat split|].
  destruct (room_update_fields q) as [|f0 fs] eqn:Ef; [now repeat split|].
  cbn [snd rooms with_rooms]. rewrite <- Ef. clear Ef f0 fs.
  split; [apply update_where_keys; intros r;
          apply (apply_room_fields_frame q r)|].
  split; [apply update_where_keys; intros r;
          apply (apply_room_fields_frame q r)|].
  apply update_where_Forall; [assumption|].
  intros r Hr Hid. apply Z.eqb_eq in Hid.
  pose proof (rooms_by_id_unique d id cur r tl Hnd E Hr Hid) as ->.
  destruct (apply_room_fields_frame q cur) as (_ & _ & -> & -> & _).
  rewrite Forall_forall in Hcap. specialize (Hcap cur Hr).
  destruct (ur_capacity q) as [| |c] eqn:Ecap; try assumption.
  apply negb_false_iff in Hv. unfold update_room_valid in Hv.
  rewrite Ecap in Hv.
  apply andb_prop in Hv as [Hv _]. apply andb_prop in Hv as [Hv _].
  apply Z.leb_le in Hv.
  assert (Hc0 : (c =? 0) = false) by (apply Z.eqb_neq; lia).
  rewrite Hc0 in Hg. cbn [negb andb] in Hg. apply Z.ltb_ge in Hg. exact Hg.
Qed.

Lemma room_step_sound (s : server) (rq : room_request) :
  rooms_sound s -> rooms_sound (snd (room_step s rq)).
Proof.
  unfold rooms_sound. intros (Hid & Hlt & Hno & Hcap).
  destruct rq as [q|id q|id|roomId sid|roomId sid]; cbn [room_step].
  - unfold create_room.
    destruct (negb (create_room_valid q)) eqn:Hv; [now repeat split|].
    destruct (rc_room_no q) as [| |room_no] eqn:Eno; try (now repeat split).
    destruct (rc_capacity q) as [capacity|] eqn:Ec; try (now repeat split).
    destruct (rc_type q) as [| |type] eqn:Et; try (now repeat split).
    destruct (select_where _ _) eqn:Esel; [|now repeat split].
    destruct (rc_floor q) as [floor|]; [|now repeat split].
    cbn [snd store next_room_id rooms with_rooms]. unfold insert_row.
    rewrite !map_app. cbn [map new_room r_id r_room_no].
    split; [apply NoDup_snoc_fresh; [assumption|now apply Forall_map]|].
    split.
    { apply Forall_app. split.
      - eapply Forall_impl; [|exact Hlt]. cbn beta. intros; lia.
      - constructor; [|constructor]. cbn [r_id new_room]. lia. }
    split.
    { apply NoDup_snoc; [assumption|]. intros Hin.
      apply in_map_iff in Hin as (r & Hr & Hin).
      pose proof (proj1 (select_where_nil _ _) Esel r Hin) as Hf.
      cbn beta in Hf. rewrite Hr, String.eqb_refl in Hf. discriminate. }
    apply Forall_app. split; [assumption|].
    constructor; [|constructor]. cbn [r_occupied r_capacity new_room].
    apply negb_false_iff in Hv. unfold create_room_valid in Hv.
    rewrite Ec in Hv. apply andb_prop in Hv as [Hv _].
    apply andb_prop in Hv as [_ Hv]. apply andb_prop in Hv as [Hv _].
    apply Z.leb_le in Hv. lia.
  - unfold on_store. cbn [snd with_store store next_room_id].
    destruct (update_room_sound (store s) id q Hid Hcap) as (E1 & E2 & Hc).
    rewrite E1, E2. repeat split; try assumption.
    apply (proj1 (Forall_map r_id (fun k => k < next_room_id s) _)).
    rewrite E1. now apply Forall_map.
  - unfold on_store, delete_room. cbn [snd with_store store next_room_id].
    destruct (rooms_by_id _ _); [now repeat split|].
    destruct (_ >? 0); [now repeat split|].
    cbn [snd rooms with_rooms]. unfold delete_where.
    repeat split; auto using NoDup_map_filter, Forall_filter.
  - unfold on_store, assign. cbn [snd with_store store next_room_id].
    destruct sid as [sid|]; [|now repeat split].
    destruct (active_rooms_by_id (store s) roomId) as [|rm tl] eqn:E;
      [now repeat split|].
    destruct (r_occupied rm >=? r_capacity rm) eqn:Hfull; [now repeat split|].
    destruct (active_students_by_id _ _); [now repeat split|].
    destruct (truthy_col _); [now repeat split|].
    cbn [snd rooms with_rooms with_users].
    rewrite !update_where_keys by reflexivity.
    repeat split; try assumption.
    + now apply (update_where_Forall_key r_id (fun k => k < next_room_id s)).
    + apply update_where_Forall; [assumption|].
      intros r Hr Hrid. apply Z.eqb_eq in Hrid.
      assert (Hhd : hd_error (active_rooms_by_id (store s) roomId) = Some rm)
        by now rewrite E.
      destruct (select_where_hd _ _ _ Hhd) as [Hin Hp].
      apply andb_prop in Hp as [Hp _]. apply Z.eqb_eq in Hp.
      assert (r = rm).
      { destruct (rooms_by_id (store s) roomId) as [|r0 tl0] eqn:E0.
        - pose proof (proj1 (select_where_nil _ _) E0 r Hr) as Hf.
          cbn beta in Hf. rewrite Hrid, Z.eqb_refl in Hf. discriminate.
        - rewrite (rooms_by_id_unique _ _ _ r _ Hid E0 Hr Hrid).
          now rewrite (rooms_by_id_unique _ _ _ rm _ Hid E0 Hin Hp). }
      subst r. cbn [set_occupied r_occupied r_capacity].
      rewrite Z.geb_leb in Hfull. apply Z.leb_gt in Hfull. lia.
  - unfold on_store, unassign. cbn [snd with_store store next_room_id].
    destruct sid as [sid|]; [|now repeat split].
    destruct (rooms_by_id (store s) roomId) as [|rm tl]; [now repeat split|].
    destruct (users_in_room _ _ _); [now repeat split|].
    cbn [snd rooms with_rooms with_users].
    rewrite !update_where_keys by reflexivity.
    repeat split; try assumption.
    + now apply (update_where_Forall_key r_id (fun k => k < next_room_id s)).
    + apply update_where_Forall; [assumption|].
      intros r Hr _. rewrite Forall_forall in Hcap. specialize (Hcap r Hr).
      cbn [set_occupied r_occupied r_capacity]. lia.
Qed.

(** X7. Whatever sequence of create, update, delete, assign and unassign
    requests rooms.js serves, the rooms table keeps its primary key and its
    unique room numbers, and no room counts more occupants than its
    capacity. *)
Theorem room_run_sound (rqs : list room_request) (s : server) :
  rooms_sound s -> rooms_sound (room_run s rqs).
Proof.
  revert s. induction rqs as [|rq rqs IH]; intros s Hs; [exact Hs|].
  cbn [room_run fold_left]. apply IH. now apply room_step_sound.
Qed.

Lemma hostel_server_sound : rooms_sound hostel_server.
Proof.
  repeat split.
  - cbn. repeat (constructor; [cbn; intuition discriminate|]). constructor.
  - cbn. repeat (constructor; [cbn; lia|]). constructor.
  - cbn. repeat (constructor; [cbn; intuition discriminate|]). constructor.
  - cbn. repeat (constructor; [cbn; lia|]). constructor.
Defined.

Lemma room_run_sound_witness :
  let s := room_run hostel_server
                    [ RoomCreate (double_room "103");
                      RoomAssign 2 (Some 1);
                      RoomUpdate 2 (resize_to 1);
                      RoomDelete 1;
                      RoomUnassign 1 (Some 3);
                      RoomDelete 1 ] in
  rooms_sound s
  /\ map (fun r => (r_room_no r, r_capacity r, r_occupied r)) (rooms (store s))
     = [("102", 2, 2); ("103", 2, 0)].
Proof.
  cbv zeta. split; [|reflexivity].
  apply room_run_sound. exact hostel_server_sound.
Defined.

(** ** rooms.js: deleting a room *)

Lemma select_delete_other {A} (key : A -> Z) (id id' : Z) (t : list A) :
  id' <> id ->
  select_where (fun row => key row =? id')
               (delete_where (fun row => key row =? id) t)
  = select_where (fun row => key row =? id') t.
Proof.
  intros Hneq. unfold select_where, delete_where.
  induction t as [|a t IH]; [reflexivity|]. cbn [filter].
  destruct (key a =? id) eqn:E; cbn [negb filter].
  - apply Z.eqb_eq in E. subst id.
    assert (E' : (key a =? id') = false) by (apply Z.eqb_neq; congruence).
    now rewrite E'.
  - destruct (key a =? id'); now rewrite IH.
Qed.

Lemma select_delete_same {A} (key : A -> Z) (id : Z) (t : list A) :
  select_where (fun row => key row =? id)
               (delete_where (fun row => key row =? id) t) = [].
Proof.
  apply select_where_nil. intros x Hx. unfold delete_where in Hx.
  apply filter_In in Hx as [_ Hx]. now apply negb_true_iff in Hx.
Qed.

(** X8. Deleting a room.  An unknown id is answered with NotFound.  A room
    whose occupied count is positive is refused and nothing changes.
    Otherwise the room is gone: a lookup of that id answers NotFound, every
    other room is read exactly as before, and no user row is touched, so a
    student whose row names the deleted room keeps naming it. *)
Theorem delete_room_spec (d : db) (id : Z) :
  (rooms_by_id d id = [] -> delete_room d id = (mkResp 404 "Room not found", d))
  /\ forall rm,
       hd_error (rooms_by_id d id) = Some rm ->
       (0 < r_occupied rm ->
        delete_room d id = (mkResp 400 "Cannot delete room with occupants", d))
       /\ (r_occupied rm <= 0 ->
           let res := delete_room d id in
           fst res = mkResp 200 "Room deleted successfully"
           /\ get_room (snd res) id = failed (mkResp 404 "Room not found")
           /\ (forall id', id' <> id -> get_room (snd res) id' = get_room d id')
           /\ users (snd res) = users d).
Proof.
  unfold delete_room. split; [intros ->; reflexivity|].
  intros rm Hrm. destruct (hd_error_cons _ _ Hrm) as [tl E]. rewrite E. split.
  - intros Hocc. assert (H : (r_occupied rm >? 0) = true)
      by (rewrite Z.gtb_ltb; now apply Z.ltb_lt).
    now rewrite H.
  - intros Hocc. assert (H : (r_occupied rm >? 0) = false)
      by (rewrite Z.gtb_ltb; apply Z.ltb_ge; lia).
    rewrite H. cbn [fst snd]. split; [reflexivity|].
    split.
    { unfold get_room, rooms_by_id. cbn [rooms with_rooms].
      now rewrite select_delete_same. }
    split; [|reflexivity].
    intros id' Hneq. unfold get_room, rooms_by_id, occupants.
    cbn [rooms users with_rooms]. now rewrite select_delete_other.
Qed.

Lemma delete_room_spec_witness :
  delete_room hostel_db 1
  = (mkResp 400 "Cannot delete room with occupants", hostel_db)
  /\ get_room (snd (delete_room fresh_db 1)) 1
     = failed (mkResp 404 "Room not found").
Proof.
  split.
  - apply (proj2 (delete_room_spec hostel_db 1) (room_row 1 "101" 1 1) eq_refl).
    simpl. lia.
  - destruct (proj2 (delete_room_spec fresh_db 1) (room_row 1 "101" 1 0) eq_refl)
      as [_ Hdel].
    destruct Hdel as (_ & Hget & _); [simpl; lia|exact Hget].
Defined.

(** ** rooms.js: assign and unassign undo each other *)

Lemma hd_select_stronger {A} (p q : A -> bool) (t : list A) (x : A) :
  hd_error (select_where p t) = Some x -> q x = true ->
  hd_error (select_where (fun row => p row && q row) t) = Some x.
Proof.
  unfold select_where. induction t as [|a t IH]; cbn [filter]; [discriminate|].
  destruct (p a) eqn:Ep; cbn [andb hd_error].
  - intros [= ->] Hq. now rewrite Hq.
  - intros H Hq. now apply IH.
Qed.

Lemma update_where_undo {A} (p : A -> bool) (f g : A -> A) (t : list A) :
  (forall row, p (f row) = p row) ->
  (forall row, In row t -> p row = true -> g (f row) = row) ->
  update_where p g (update_where p f t) = t.
Proof.
  intros Hp Hg. unfold update_where. rewrite map_map.
  rewrite <- (map_id t) at 2. apply map_ext_in. intros row Hrow.
  destruct (p row) eqn:E; [|now rewrite E].
  rewrite Hp, E. now apply Hg.
Qed.

(** X9. Assign and then unassign is a round trip.  When the room found
    under the id is active and has a free bed, and the rows of the student,
    an active student, name no room, the assignment succeeds, the removal
    that follows succeeds, and the store is exactly the one before. *)
Theorem assign_unassign_round_trip (d : db) (roomId sid : Z) (rm : room)
        (st : user) :
  hd_error (rooms_by_id d roomId) = Some rm ->
  r_is_active rm = true ->
  r_occupied rm < r_capacity rm ->
  hd_error (active_students_by_id d sid) = Some st ->
  (forall u, In u (users d) -> u_id u = sid -> u_room_no u = None) ->
  let d1 := snd (assign d roomId (Some sid)) in
  succeeds (assign d roomId (Some sid))
  /\ succeeds (unassign d1 roomId (Some sid))
  /\ snd (unassign d1 roomId (Some sid)) = d.
Proof.
  intros Hrm Hact Hfree Hst Hnone. cbv zeta.
  pose proof (hd_select_stronger _ r_is_active _ _ Hrm Hact) as Hrm'.
  change (hd_error (active_rooms_by_id d roomId) = Some rm) in Hrm'.
  destruct (select_where_hd _ _ _ Hrm) as [Hrm_in Hrm_id].
  destruct (select_where_hd _ _ _ Hst) as [Hst_in Hst_p].
  apply andb_prop in Hst_p as [Hst_p _]. apply andb_prop in Hst_p as [Hst_id _].
  assert (Hst_none : truthy_col (u_room_no st) = false)
    by (rewrite (Hnone st Hst_in); [reflexivity|now apply Z.eqb_eq]).
  assert (Hassign : assign d roomId (Some sid)
                    = (mkResp 200 "Room assigned successfully",
                       with_rooms
                         (update_where (fun r => r_id r =? roomId)
                                       (fun r => set_occupied (r_occupied r + 1) r)
                                       (rooms d))
                         (with_users
                            (update_where (fun u => u_id u =? sid)
                                          (set_room_no (Some (r_room_no rm)))
                                          (users d)) d))).
  { unfold assign.
    destruct (hd_error_cons _ _ Hrm') as [tl E]. rewrite E.
    assert (Hlt : (r_occupied rm >=? r_capacity rm) = false)
      by (rewrite Z.geb_leb; apply Z.leb_gt; lia).
    rewrite Hlt. destruct (hd_error_cons _ _ Hst) as [tl' E']. rewrite E'.
    now rewrite Hst_none. }
  rewrite Hassign. cbn [snd]. split; [reflexivity|].
  unfold succeeds, unassign.
  assert (Hroom : rooms_by_id
                    (with_rooms
                       (update_where (fun r => r_id r =? roomId)
                                     (fun r => set_occupied (r_occupied r + 1) r)
                                     (rooms d))
                       (with_users
                          (update_where (fun u => u_id u =? sid)
                                        (set_room_no (Some (r_room_no rm)))
                                        (users d)) d)) roomId
                  = map (fun r => if r_id r =? roomId
                                  then set_occupied (r_occupied r + 1) r else r)
                        (rooms_by_id d roomId)).
  { unfold rooms_by_id. cbn [rooms with_rooms with_users].
    now apply select_update_where. }
  rewrite Hroom. destruct (hd_error_cons _ _ Hrm) as [rtl Er]. rewrite Er.
  cbn [map]. rewrite Hrm_id. cbn [set_occupied r_room_no].
  destruct (users_in_room _ sid (r_room_no rm)) as [|u0 utl] eqn:Eu.
  { exfalso.
    pose proof (proj1 (select_where_nil _ _) Eu
                      (set_room_no (Some (r_room_no rm)) st)) as Hf.
    cbn [users with_rooms with_users] in Hf.
    assert (Hin : In (set_room_no (Some (r_room_no rm)) st)
                     (update_where (fun u => u_id u =? sid)
                                   (set_room_no (Some (r_room_no rm))) (users d))).
    { pose proof (update_where_In (fun u => u_id u =? sid)
                    (set_room_no (Some (r_room_no rm))) _ st Hst_in) as H.
      cbn beta in H. now rewrite Hst_id in H. }
    specialize (Hf Hin). cbn [set_room_no u_id u_room_no col_eqb] in Hf.
    now rewrite Hst_id, String.eqb_refl in Hf. }
  cbn [fst snd]. split; [reflexivity|].
  cbn [users rooms with_rooms with_users].
  assert (Hu : update_where (fun u => u_id u =? sid) (set_room_no None)
                 (update_where (fun u => u_id u =? sid)
                               (set_room_no (Some (r_room_no rm))) (users d))
               = users d).
  { apply update_where_undo; [reflexivity|].
    intros u Hu Hid. apply Z.eqb_eq in Hid.
    pose proof (Hnone u Hu Hid) as Hn. destruct u. cbn in Hn. subst.
    reflexivity. }
  assert (Hr : update_where (fun r => r_id r =? roomId)
                 (fun r => set_occupied (r_occupied r - 1) r)
                 (update_where (fun r => r_id r =? roomId)
                               (fun r => set_occupied (r_occupied r + 1) r)
                               (rooms d))
               = rooms d).
  { apply update_where_undo; [reflexivity|].
    intros r _ _. destruct r. unfold set_occupied.
    cbn [r_id r_room_no r_capacity r_type r_floor r_occupied r_is_active].
    f_equal. lia. }
  unfold with_rooms, with_users.
  cbn [users rooms attendance fees next_user_id next_attendance_id].
  rewrite Hu, Hr. destruct d; reflexivity.
Qed.

Lemma assign_unassign_round_trip_witness :
  snd (unassign (snd (assign hostel_db 2 (Some 1))) 2 (Some 1)) = hostel_db.
Proof.
  assert (Hfree : r_occupied (room_row 2 "102" 2 1) < r_capacity (room_row 2 "102" 2 1))
    by (simpl; lia).
  refine (proj2 (proj2 (assign_unassign_round_trip
                          hostel_db 2 1 (room_row 2 "102" 2 1)
                          (student_row 1 "Asha" "asha@hostel.test" None)
                          eq_refl eq_refl Hfree eq_refl _))).
  intros u [<-|[<-|[<-|[]]]] Hid; cbn in Hid; try discriminate; reflexivity.
Defined.

(** ** rooms.js: creating a room *)

(** X10. Creating a room.  A valid request whose room number is already in
    the table is refused and changes nothing.  With a new room number, a
    body without floor is answered 500 and changes nothing, the INSERT
    being refused by the driver.  With a floor, on a sound rooms table, the
    room is appended with a capacity between 1 and 10 and an occupied count
    of 0; reading it back by the returned id gives exactly this room,
    listed with the active students whose rows already named that room
    number; and the table stays sound. *)
Theorem create_room_spec (s : server) (q : create_room_req)
        (room_no type : string) (capacity : Z) :
  create_room_valid q = true ->
  rc_room_no q = str room_no -> rc_capacity q = Some capacity ->
  rc_type q = str type ->
  let res := create_room s q in
  ((exists r, In r (rooms (store s)) /\ r_room_no r = room_no) ->
   res = (mkResp 400 "Room already exists", s))
  /\ ((forall r, In r (rooms (store s)) -> r_room_no r <> room_no) ->
      rc_floor q = None ->
      res = (mkResp 500 "Failed to create room", s))
  /\ (forall floor,
         let created := new_room (next_room_id s) room_no capacity type floor in
         (forall r, In r (rooms (store s)) -> r_room_no r <> room_no) ->
         rc_floor q = Some floor ->
         rooms_sound s ->
         fst res = mkResp 201 "Room created successfully"
         /\ rooms (store (snd res)) = (rooms (store s) ++ [created])%list
         /\ 1 <= r_capacity created <= 10 /\ r_occupied created = 0
         /\ get_room (store (snd res)) (next_room_id s)
            = data (created, occupants (store s) room_no)
         /\ rooms_sound (snd res)).
Proof.
  intros Hvalid Hno Hcap Htype. cbv zeta.
  assert (Hres : create_room s q
                 = match select_where (fun r => String.eqb (r_room_no r) room_no)
                                      (rooms (store s)) with
                   | _ :: _ => (mkResp 400 "Room already exists", s)
                   | [] =>
                     match rc_floor q with
                     | None => (mkResp 500 "Failed to create room", s)
                     | Some floor =>
                       (mkResp 201 "Room created successfully",
                        mkServer (with_rooms
                                    (insert_row
                                       (new_room (next_room_id s) room_no capacity
                                                 type floor)
                                       (rooms (store s)))
                                    (store s))
                                 (next_room_id s + 1) (next_fee_id s))
                     end
                   end).
  { unfold create_room. rewrite Hvalid, Hno, Hcap, Htype. reflexivity. }
  assert (Hfree : (forall r, In r (rooms (store s)) -> r_room_no r <> room_no) ->
                  select_where (fun r => String.eqb (r_room_no r) room_no)
                               (rooms (store s)) = []).
  { intros Hnew. apply select_where_nil. intros r Hr. apply String.eqb_neq.
    now apply Hnew. }
  split; [|split].
  - intros (r & Hr & Hrn). rewrite Hres.
    destruct (select_where _ _) eqn:E; [|reflexivity].
    pose proof (proj1 (select_where_nil _ _) E r Hr) as Hf.
    cbn beta in Hf. rewrite Hrn, String.eqb_refl in Hf. discriminate.
  - intros Hnew Hfloor. now rewrite Hres, (Hfree Hnew), Hfloor.
  - intros floor Hnew Hfloor Hsound.
    assert (Hsound' : rooms_sound (snd (room_step s (RoomCreate q))))
      by (now apply room_step_sound).
    cbn [room_step] in Hsound'. rewrite Hres in Hsound' |- *.
    rewrite (Hfree Hnew), Hfloor in Hsound' |- *.
    cbn [fst snd store rooms with_rooms] in *.
    unfold insert_row in *.
    split; [reflexivity|]. split; [reflexivity|].
    split.
    { unfold create_room_valid in Hvalid. rewrite Hcap in Hvalid.
      apply andb_prop in Hvalid as [Hv _]. apply andb_prop in Hv as [_ Hv].
      apply andb_prop in Hv as [H1 H2]. apply Z.leb_le in H1, H2.
      cbn [new_room r_capacity]. lia. }
    split; [reflexivity|].
    split; [|exact Hsound'].
    destruct Hsound' as (Hnd & _). cbn [store rooms with_rooms] in Hnd.
    assert (Hin : In (new_room (next_room_id s) room_no capacity type floor)
                     (rooms (store s)
                      ++ [new_room (next_room_id s) room_no capacity type floor]))
      by (apply in_or_app; right; now left).
    pose proof (select_by_key r_id _ _ Hnd Hin) as Hsel.
    cbn [new_room r_id] in Hsel.
    unfold get_room, rooms_by_id. cbn [rooms with_rooms].
    rewrite Hsel. reflexivity.
Qed.

Lemma create_room_spec_witness :
  create_room hostel_server (double_room "101")
  = (mkResp 400 "Room already exists", hostel_server)
  /\ create_room hostel_server (mkCreateRoom (str "103") (Some 2) (str "double")
                                             None)
     = (mkResp 500 "Failed to create room", hostel_server)
  /\ get_room (store (snd (create_room hostel_server (double_room "103")))) 3
     = data (new_room 3 "103" 2 "double" 1, []).
Proof.
  split; [|split].
  - apply (proj1 (create_room_spec hostel_server (double_room "101")
                                   "101" "double" 2
                                   eq_refl eq_refl eq_refl eq_refl)).
    exists (room_row 1 "101" 1 1). split; [now left|reflexivity].
  - apply (proj1 (proj2 (create_room_spec
                           hostel_server
                           (mkCreateRoom (str "103") (Some 2) (str "double") None)
                           "103" "double" 2
                           eq_refl eq_refl eq_refl eq_refl))).
    + intros r [<-|[<-|[]]]; discriminate.
    + reflexivity.
  - destruct (proj2 (proj2 (create_room_spec hostel_server (double_room "103")
                                             "103" "double" 2
                                             eq_refl eq_refl eq_refl eq_refl))
                    1)
      as (_ & _ & _ & _ & Hget & _).
    + intros r [<-|[<-|[]]]; discriminate.
    + reflexivity.
    + exact hostel_server_sound.
    + exact Hget.
Defined.

(** ** rooms.js: a deactivated room *)

(** X11. Deactivating a room.  Once an update with [is_active] false has
    succeeded on a table with a primary key, the room takes no new student,
    every assign to it being answered with NotFound and changing nothing,
    while unassign answers exactly as it did before the update: a student
    can still be removed from the room. *)
Theorem deactivated_room_closed (d : db) (id : Z) (q : update_room_req) :
  NoDup (map r_id (rooms d)) ->
  ur_is_active q = Some false ->
  succeeds (update_room d id q) ->
  let d1 := snd (update_room d id q) in
  (forall sid, assign d1 id (Some sid) = (mkResp 404 "Room not found", d1))
  /\ (forall sid, fst (unassign d1 id (Some sid)) = fst (unassign d id (Some sid))).
Proof.
  intros Hnd Hoff. unfold succeeds, update_room.
  destruct (negb (update_room_valid q)); [discriminate|].
  destruct (rooms_by_id d id) as [|cur tl] eqn:E; [discriminate|].
  destruct (match ur_capacity q with
            | int_value c => negb (c =? 0) && (c <? r_occupied cur)
            | _ => false
            end); [discriminate|].
  destruct (room_update_fields q) as [|f0 fs] eqn:Ef; [discriminate|].
  intros _. cbn [snd]. rewrite <- Ef. clear Ef f0 fs.
  set (rs := update_where (fun r => r_id r =? id)
                          (apply_room_fields (room_update_fields q)) (rooms d)).
  split.
  - intros sid. unfold assign.
    assert (Hnone : active_rooms_by_id (with_rooms rs d) id = []).
    { apply select_where_nil. cbn [rooms with_rooms]. intros r Hr.
      unfold rs, update_where in Hr. apply in_map_iff in Hr as (r0 & <- & Hr0).
      destruct (r_id r0 =? id) eqn:Eid.
      - destruct (apply_room_fields_frame q r0) as (-> & _ & _ & _ & ->).
        rewrite Hoff, Eid. reflexivity.
      - now rewrite Eid. }
    now rewrite Hnone.
  - intros sid. unfold unassign.
    assert (Hsel : rooms_by_id (with_rooms rs d) id
                   = map (fun r => if r_id r =? id
                                   then apply_room_fields (room_update_fields q) r
                                   else r) (rooms_by_id d id)).
    { unfold rooms_by_id, rs. cbn [rooms with_rooms].
      apply select_update_where. intros r.
      now destruct (apply_room_fields_frame q r) as (-> & _). }
    rewrite Hsel, E. cbn [map].
    assert (Hno : r_room_no (if r_id cur =? id
                             then apply_room_fields (room_update_fields q) cur
                             else cur) = r_room_no cur).
    { destruct (r_id cur =? id); [|reflexivity].
      now destruct (apply_room_fields_frame q cur) as (_ & -> & _). }
    rewrite Hno.
    change (users_in_room (with_rooms rs d) sid (r_room_no cur))
      with (users_in_room d sid (r_room_no cur)).
    destruct (users_in_room d sid (r_room_no cur)); reflexivity.
Qed.

Lemma deactivated_room_closed_witness :
  assign (snd (update_room hostel_db 2 deactivate)) 2 (Some 1)
  = (mkResp 404 "Room not found", snd (update_room hostel_db 2 deactivate))
  /\ succeeds (unassign (snd (update_room hostel_db 2 deactivate)) 2 (Some 2)).
Proof.
  assert (Hnd : NoDup (map r_id (rooms hostel_db))) by apply hostel_server_sound.
  destruct (deactivated_room_closed hostel_db 2 deactivate Hnd eq_refl eq_refl)
    as [Hassign Hun].
  split; [apply Hassign|].
  unfold succeeds. rewrite Hun. reflexivity.
Defined.

(** ** rooms.js: the counters and the occupants listings *)

Lemma NoDup_key_inj {A B} (key : A -> B) (t : list A) (a b : A) :
  NoDup (map key t) -> In a t -> In b t -> key a = key b -> a = b.
Proof.
  induction t as [|x t IH]; cbn [map]; intros Hnd Ha Hb E; [easy|].
  inversion Hnd as [|k ks Hk Hnd']; subst.
  destruct Ha as [->|Ha], Hb as [->|Hb]; auto.
  - exfalso. apply Hk. rewrite E. now apply in_map.
  - exfalso. apply Hk. rewrite <- E. now apply in_map.
Qed.

Lemma update_where_absent {A} (key : A -> Z) (id : Z) (f : A -> A) (t : list A) :
  ~ In id (map key t) -> update_where (fun row => key row =? id) f t = t.
Proof.
  intros Hno. unfold update_where. rewrite <- (map_id t) at 2.
  apply map_ext_in. intros row Hrow.
  destruct (key row =? id) eqn:E; [|reflexivity].
  apply Z.eqb_eq in E. exfalso. apply Hno. rewrite <- E. now apply in_map.
Qed.

(** Counting the rows that pass a test after the one row of a key has been
    rewritten. *)
Lemma count_update_one {A} (key : A -> Z) (p : A -> bool) (f : A -> A)
      (t : list A) (x : A) :
  NoDup (map key t) -> In x t ->
  Z.of_nat (List.length (filter p (update_where (fun row => key row =? key x) f t)))
  + (if p x then 1 else 0)
  = Z.of_nat (List.length (filter p t)) + (if p (f x) then 1 else 0).
Proof.
  induction t as [|a t IH]; cbn [map]; intros Hnd Hin; [easy|].
  inversion Hnd as [|k ks Hk Hnd']; subst.
  unfold update_where in *. cbn [map filter].
  destruct Hin as [->|Hin].
  - rewrite Z.eqb_refl.
    fold (update_where (fun row => key row =? key x) f t).
    rewrite (update_where_absent key (key x) f t Hk).
    destruct (p x), (p (f x)); cbn [List.length]; lia.
  - assert (E : (key a =? key x) = false).
    { apply Z.eqb_neq. intros E. apply Hk. rewrite E. now apply in_map. }
    rewrite E. specialize (IH Hnd' Hin).
    destruct (p a); cbn [List.length]; lia.
Qed.

Lemma occupants_length (d : db) (room_no : string) :
  List.length (occupants d room_no)
  = List.length (filter (is_occupant room_no) (users d)).
Proof. unfold occupants, select_where. now rewrite length_map. Qed.

Lemma falsy_not_occupant (room_no : string) (u : user) :
  truthy_string room_no = true -> truthy_col (u_room_no u) = false ->
  is_occupant room_no u = false.
Proof.
  unfold is_occupant. intros Hrn Hu.
  destruct (u_room_no u) as [[|c s]|]; cbn in *; try discriminate; try reflexivity.
  destruct room_no; [discriminate|reflexivity].
Qed.

(** X12. Assign keeps the counters true.  On tables with their keys, when
    every room counts exactly the occupants its listing shows, it still
    does after a successful assign. *)
Theorem assign_keeps_occupancy (d : db) (roomId sid : Z) :
  tables_keyed d -> occupancy_consistent d ->
  succeeds (assign d roomId (Some sid)) ->
  occupancy_consistent (snd (assign d roomId (Some sid))).
Proof.
  intros (Hrid & Hrno & Htruthy & Huid) Hcons. unfold succeeds, assign.
  destruct (active_rooms_by_id d roomId) as [|rm rtl] eqn:Er; [discriminate|].
  destruct (r_occupied rm >=? r_capacity rm); [discriminate|].
  destruct (active_students_by_id d sid) as [|st stl] eqn:Es; [discriminate|].
  destruct (truthy_col (u_room_no st)) eqn:Hfalsy; [discriminate|].
  intros _. cbn [snd].
  assert (Hrm : hd_error (active_rooms_by_id d roomId) = Some rm) by now rewrite Er.
  assert (Hst : hd_error (active_students_by_id d sid) = Some st) by now rewrite Es.
  destruct (select_where_hd _ _ _ Hrm) as [Hrm_in Hrm_p].
  destruct (select_where_hd _ _ _ Hst) as [Hst_in Hst_p].
  apply andb_prop in Hrm_p as [Hrm_id _]. apply Z.eqb_eq in Hrm_id.
  apply andb_prop in Hst_p as [Hst_p Hst_act].
  apply andb_prop in Hst_p as [Hst_id Hst_stu]. apply Z.eqb_eq in Hst_id.
  unfold occupancy_consistent in *. cbn [rooms with_rooms with_users].
  unfold update_where at 1. apply Forall_map.
  rewrite Forall_forall in *. intros r Hr.
  replace (r_room_no (if r_id r =? roomId
                      then set_occupied (r_occupied r + 1) r else r))
    with (r_room_no r) by (destruct (r_id r =? roomId); reflexivity).
  rewrite occupants_length. cbn [users with_rooms with_users]. subst sid.
  pose proof (count_update_one u_id (is_occupant (r_room_no r))
                (set_room_no (Some (r_room_no rm))) (users d) st Huid Hst_in)
    as Hcount.
  rewrite (falsy_not_occupant _ st (Htruthy r Hr) Hfalsy) in Hcount.
  specialize (Hcons r Hr). rewrite occupants_length in Hcons.
  unfold is_occupant at 3 in Hcount.
  cbn [set_room_no u_room_no col_eqb] in Hcount.
  change (is_student (set_room_no (Some (r_room_no rm)) st)) with (is_student st)
    in Hcount.
  cbn [u_is_active set_room_no] in Hcount.
  rewrite Hst_stu, Hst_act, !andb_true_r in Hcount.
  destruct (r_id r =? roomId) eqn:Eid.
  - apply Z.eqb_eq in Eid.
    assert (r = rm) by (apply (NoDup_key_inj r_id (rooms d)); congruence).
    subst r. rewrite String.eqb_refl, Z.add_0_r in Hcount.
    cbn [set_occupied r_occupied]. rewrite Hcons. symmetry. exact Hcount.
  - assert (Hno : String.eqb (r_room_no rm) (r_room_no r) = false).
    { apply String.eqb_neq. intros E.
      assert (rm = r) by (apply (NoDup_key_inj r_room_no (rooms d)); assumption).
      subst r. apply Z.eqb_neq in Eid. congruence. }
    rewrite Hno, !Z.add_0_r in Hcount. rewrite Hcons. symmetry. exact Hcount.
Qed.

(** X13. Unassign keeps the counters true when the student removed is an
    active student: on tables with their keys, if every room counts exactly
    the occupants its listing shows, it still does after the removal. *)
Theorem unassign_keeps_occupancy (d : db) (roomId sid : Z) :
  tables_keyed d -> occupancy_consistent d ->
  (forall u, In u (users d) -> u_id u = sid ->
             is_student u = true /\ u_is_active u = true) ->
  succeeds (unassign d roomId (Some sid)) ->
  occupancy_consistent (snd (unassign d roomId (Some sid))).
Proof.
  intros (Hrid & Hrno & Htruthy & Huid) Hcons Hactive. unfold succeeds, unassign.
  destruct (rooms_by_id d roomId) as [|rm rtl] eqn:Er; [discriminate|].
  destruct (users_in_room d sid (r_room_no rm)) as [|st stl] eqn:Es;
    [discriminate|].
  intros _. cbn [snd].
  assert (Hrm : hd_error (rooms_by_id d roomId) = Some rm) by now rewrite Er.
  assert (Hst : hd_error (users_in_room d sid (r_room_no rm)) = Some st)
    by now rewrite Es.
  destruct (select_where_hd _ _ _ Hrm) as [Hrm_in Hrm_id].
  apply Z.eqb_eq in Hrm_id.
  destruct (select_where_hd _ _ _ Hst) as [Hst_in Hst_p].
  apply andb_prop in Hst_p as [Hst_id Hst_room]. apply Z.eqb_eq in Hst_id.
  apply col_eqb_eq in Hst_room.
  destruct (Hactive st Hst_in Hst_id) as [Hst_stu Hst_act].
  unfold occupancy_consistent in *. cbn [rooms with_rooms with_users].
  unfold update_where at 1. apply Forall_map.
  rewrite Forall_forall in *. intros r Hr.
  replace (r_room_no (if r_id r =? roomId
                      then set_occupied (r_occupied r - 1) r else r))
    with (r_room_no r) by (destruct (r_id r =? roomId); reflexivity).
  rewrite occupants_length. cbn [users with_rooms with_users]. subst sid.
  pose proof (count_update_one u_id (is_occupant (r_room_no r))
                (set_room_no None) (users d) st Huid Hst_in) as Hcount.
  specialize (Hcons r Hr). rewrite occupants_length in Hcons.
  unfold is_occupant at 2 4 in Hcount.
  cbn [set_room_no u_room_no col_eqb andb] in Hcount.
  rewrite Hst_room, Hst_stu, Hst_act in Hcount.
  cbn [col_eqb] in Hcount. rewrite !andb_true_r in Hcount.
  destruct (r_id r =? roomId) eqn:Eid.
  - apply Z.eqb_eq in Eid.
    assert (r = rm) by (apply (NoDup_key_inj r_id (rooms d)); congruence).
    subst r. rewrite String.eqb_refl, Z.add_0_r in Hcount.
    cbn [set_occupied r_occupied]. rewrite Hcons, <- Hcount.
    apply Z.add_simpl_r.
  - assert (Hno : String.eqb (r_room_no rm) (r_room_no r) = false).
    { apply String.eqb_neq. intros E.
      assert (rm = r) by (apply (NoDup_key_inj r_room_no (rooms d)); assumption).
      subst r. apply Z.eqb_neq in Eid. congruence. }
    rewrite Hno, !Z.add_0_r in Hcount. rewrite Hcons. symmetry. exact Hcount.
Qed.

Lemma hostel_db_keyed : tables_keyed hostel_db.
Proof.
  repeat split.
  - cbn. repeat (constructor; [cbn; intuition discriminate|]). constructor.
  - cbn. repeat (constructor; [cbn; intuition discriminate|]). constructor.
  - cbn. repeat (constructor; [reflexivity|]). constructor.
  - cbn. repeat (constructor; [cbn; intuition discriminate|]). constructor.
Defined.

Lemma hostel_db_consistent : occupancy_consistent hostel_db.
Proof. cbv [occupancy_consistent hostel_db rooms]. repeat (constructor; [reflexivity|]). constructor. Defined.

Lemma assign_keeps_occupancy_witness :
  occupancy_consistent (snd (assign hostel_db 2 (Some 1)))
  /\ map r_occupied (rooms (snd (assign hostel_db 2 (Some 1)))) = [1; 2].
Proof.
  split; [|reflexivity].
  apply (assign_keeps_occupancy hostel_db 2 1 hostel_db_keyed hostel_db_consistent).
  reflexivity.
Defined.

Lemma unassign_keeps_occupancy_witness :
  occupancy_consistent (snd (unassign hostel_db 2 (Some 2)))
  /\ map r_occupied (rooms (snd (unassign hostel_db 2 (Some 2)))) = [1; 0].
Proof.
  split; [|reflexivity].
  apply (unassign_keeps_occupancy hostel_db 2 2 hostel_db_keyed
                                  hostel_db_consistent).
  - intros u [<-|[<-|[<-|[]]]] _; split; reflexivity.
  - reflexivity.
Defined.

(** ** users.js: deleting a user *)

Lemma delete_where_appended {A} (key : A -> Z) (id : Z) (t : list A) (x : A) :
  Forall (fun row => key row < id) t -> key x = id ->
  delete_where (fun row => key row =? id) (t ++ [x]) = t.
Proof.
  intros Hlt Hx. unfold delete_where. rewrite filter_app. cbn [filter].
  rewrite Hx, Z.eqb_refl. cbn [negb]. rewrite app_nil_r.
  rewrite Forall_forall in Hlt.
  induction t as [|a t IH]; [reflexivity|]. cbn [filter].
  assert (E : (key a =? id) = false)
    by (apply Z.eqb_neq; specialize (Hlt a (or_introl eq_refl)); lia).
  rewrite E. cbn [negb]. f_equal. apply IH. intros y Hy. apply Hlt. now right.
Qed.

Lemma select_appended {A} (key : A -> Z) (id : Z) (t : list A) (x : A) :
  Forall (fun row => key row < id) t -> key x = id ->
  select_where (fun row => key row =? id) (t ++ [x]) = [x].
Proof.
  intros Hlt Hx. unfold select_where. rewrite filter_app. cbn [filter].
  rewrite Hx, Z.eqb_refl.
  replace (filter (fun row => key row =? id) t) with (@nil A); [reflexivity|].
  symmetry. apply select_where_nil. intros y Hy. apply Z.eqb_neq.
  rewrite Forall_forall in Hlt. specialize (Hlt y Hy). lia.
Qed.

Lemma bump_room_no_undo (rn : string) (d : db) :
  rooms (bump_room_no (-1) rn (bump_room_no 1 rn d)) = rooms d.
Proof.
  unfold bump_room_no. cbn [rooms with_rooms].
  apply update_where_undo; [reflexivity|].
  intros r _ _. destruct r. unfold set_occupied.
  cbn [r_id r_room_no r_capacity r_type r_floor r_occupied r_is_active].
  f_equal. lia.
Qed.

(** X14. Deleting the user just created undoes the creation.  When every
    user id is below the AUTO_INCREMENT counter, a successful create-user
    followed by the deletion of the returned id leaves the users table and
    the rooms table, occupied counters included, exactly as they were
    before the creation; only the counter has advanced. *)
Theorem create_delete_user_round_trip (isEmail : string -> bool)
        (bcrypt_hash : string -> string) (d : db) (q : create_user_req) :
  Forall (fun u => u_id u < next_user_id d) (users d) ->
  succeeds (create_user isEmail bcrypt_hash d q) ->
  let d1 := snd (create_user isEmail bcrypt_hash d q) in
  let res := delete_user d1 (next_user_id d) in
  fst res = mkResp 200 "User deleted successfully"
  /\ users (snd res) = users d
  /\ rooms (snd res) = rooms d
  /\ attendance (snd res) = attendance d
  /\ fees (snd res) = fees d
  /\ next_user_id (snd res) = next_user_id d + 1.
Proof.
  intros Hlt. unfold succeeds, create_user.
  destruct (negb (create_user_valid isEmail q)); [discriminate|].
  destruct (cu_name q) as [| |name]; try discriminate.
  destruct (cu_email q) as [| |email]; try discriminate.
  destruct (cu_password q) as [| |password]; try discriminate.
  destruct (cu_role q) as [| |role_s]; try discriminate.
  destruct (parse_role role_s) as [rl|]; [|discriminate].
  destruct (select_where _ (users d)); [|discriminate].
  destruct (negb _); [discriminate|].
  intros _. cbv zeta. cbn [snd].
  set (row := mkUser (next_user_id d) name email (bcrypt_hash password) rl
                     (to_col (cu_room_no q)) (to_col (cu_batch q))
                     (to_col (cu_phone q)) None true).
  set (d1 := mkDb (insert_row row (users d)) (rooms d) (attendance d) (fees d)
                  (next_user_id d + 1) (next_attendance_id d)).
  assert (Hsel : forall dd, users dd = insert_row row (users d) ->
                            users_by_id dd (next_user_id d) = [row]).
  { intros dd E. unfold users_by_id. rewrite E. unfold insert_row.
    now apply select_appended. }
  assert (Hdel : delete_where (fun u => u_id u =? next_user_id d)
                              (insert_row row (users d)) = users d)
    by (unfold insert_row; now apply delete_where_appended).
  unfold delete_user.
  destruct (cu_room_no q) as [| |rn]; cbn [to_col] in row.
  - rewrite (Hsel d1 eq_refl). cbn [u_room_no row fst snd].
    cbn [users rooms attendance fees next_user_id with_users d1].
    rewrite Hdel. repeat split.
  - rewrite (Hsel d1 eq_refl). cbn [u_room_no row fst snd].
    cbn [users rooms attendance fees next_user_id with_users d1].
    rewrite Hdel. repeat split.
  - destruct (truthy_string rn) eqn:Hrn.
    + rewrite (Hsel (bump_room_no 1 rn d1) eq_refl).
      cbn [u_room_no row]. rewrite Hrn. cbn [fst snd].
      split; [reflexivity|].
      split; [cbn [users bump_room_no with_rooms with_users d1]; exact Hdel|].
      split; [|repeat split].
      change (rooms (bump_room_no (-1) rn
                       (with_users (delete_where (fun u => u_id u =? next_user_id d)
                                                 (users (bump_room_no 1 rn d1)))
                                   (bump_room_no 1 rn d1))))
        with (rooms (bump_room_no (-1) rn (bump_room_no 1 rn d1))).
      now rewrite bump_room_no_undo.
    + rewrite (Hsel d1 eq_refl). cbn [u_room_no row]. rewrite Hrn.
      cbn [fst snd users rooms attendance fees next_user_id with_users d1].
      rewrite Hdel. repeat split.
Qed.

Lemma create_delete_user_round_trip_witness :
  let d0 := run has_at_sign tagged_hash fresh_db [Assign 1 (Some 1)] in
  let d1 := snd (create_user has_at_sign tagged_hash d0
                             (new_student "Dev" "dev@hostel.test" "101")) in
  map r_occupied (rooms d0) = [1]
  /\ map r_occupied (rooms d1) = [2]
  /\ rooms (snd (delete_user d1 2)) = rooms d0
  /\ users (snd (delete_user d1 2)) = users d0.
Proof.
  cbv zeta. split; [reflexivity|]. split; [reflexivity|].
  assert (Hlt : Forall (fun u => u_id u < 2)
                       (users (run has_at_sign tagged_hash fresh_db
                                   [Assign 1 (Some 1)])))
    by (repeat constructor).
  destruct (create_delete_user_round_trip
              has_at_sign tagged_hash
              (run has_at_sign tagged_hash fresh_db [Assign 1 (Some 1)])
              (new_student "Dev" "dev@hostel.test" "101") Hlt eq_refl)
    as (_ & Hu & Hr & _).
  split; [exact Hr|exact Hu].
Defined.

(** ** users.js: what a student's update cannot touch *)

Lemma student_fields_frame (who : identity) (q : update_user_req) :
  role_of who = student ->
  Forall (fun f => forall v, u_id (f v) = u_id v /\ u_role (f v) = u_role v
                             /\ u_password (f v) = u_password v
                             /\ u_is_active (f v) = u_is_active v)
         (update_fields who q).
Proof.
  intros Hrole. unfold update_fields.
  repeat (apply Forall_app; split).
  - unfold name_clause. destruct (uu_name q) as [| |[|c s]]; repeat constructor.
  - unfold email_clause. destruct (uu_email q) as [| |[|c s]]; repeat constructor.
  - unfold room_no_clause. destruct (uu_room_no q); repeat constructor.
  - unfold batch_clause. destruct (uu_batch q) as [| |[|c s]]; repeat constructor.
  - unfold phone_clause. destruct (uu_phone q) as [| |[|c s]]; repeat constructor.
  - unfold is_active_clause, is_admin. rewrite Hrole.
    destruct (uu_is_active q); constructor.
  - unfold photo_clause. destruct (uu_file q); repeat constructor.
Qed.

Lemma apply_fields_keeps (fs : list (user -> user)) :
  Forall (fun f => forall v, u_id (f v) = u_id v /\ u_role (f v) = u_role v
                             /\ u_password (f v) = u_password v
                             /\ u_is_active (f v) = u_is_active v) fs ->
  forall u, u_id (apply_fields fs u) = u_id u
            /\ u_role (apply_fields fs u) = u_role u
            /\ u_password (apply_fields fs u) = u_password u
            /\ u_is_active (apply_fields fs u) = u_is_active u.
Proof.
  unfold apply_fields. induction 1 as [|f fs Hf _ IH]; cbn [fold_left];
    intros u; [auto|].
  destruct (IH (f u)) as (-> & -> & -> & ->). apply Hf.
Qed.

(** On a decimal numeral the two readings of the id agree, and the route
    is [update_user]. *)
Lemma update_user_raw_numeral (d : db) (who : identity) (q : update_user_req) :
  update_user_raw d who (Some (uu_id q)) q = update_user d who q.
Proof. reflexivity. Qed.

(** X15. Whatever a student sends to the update route, and however the
    statements read the id in the path, the rooms, the attendance records
    and the fees are left as they were and every user row keeps its id,
    role, password and active flag.  A row can change only if its id is the
    one the statements read, and only if the guard read the student's own
    id.  When the two readings agree, as they do on a decimal numeral, only
    rows under the student's own id can change at all. *)
Theorem student_update_frame (d : db) (who : identity) (sql_id : option Z)
        (q : update_user_req) :
  role_of who = student ->
  let res := update_user_raw d who sql_id q in
  rooms (snd res) = rooms d
  /\ attendance (snd res) = attendance d
  /\ fees (snd res) = fees d
  /\ Forall2 (fun u u' => u_id u' = u_id u /\ u_role u' = u_role u
                          /\ u_password u' = u_password u
                          /\ u_is_active u' = u_is_active u
                          /\ (sql_id <> Some (u_id u) -> u' = u)
                          /\ (uu_id q <> id_of who -> u' = u))
             (users d) (users (snd res))
  /\ (sql_id = Some (uu_id q) ->
      res = update_user d who q
      /\ Forall2 (fun u u' => u_id u <> id_of who -> u' = u)
                 (users d) (users (snd res))).
Proof.
  intros Hrole. cbv zeta.
  assert (Hsame : forall t : list user,
             Forall2 (fun u u' => u_id u' = u_id u /\ u_role u' = u_role u
                                  /\ u_password u' = u_password u
                                  /\ u_is_active u' = u_is_active u
                                  /\ (sql_id <> Some (u_id u) -> u' = u)
                                  /\ (uu_id q <> id_of who -> u' = u)) t t).
  { induction t; constructor; auto 10. }
  assert (Hmain :
            rooms (snd (update_user_raw d who sql_id q)) = rooms d
            /\ attendance (snd (update_user_raw d who sql_id q)) = attendance d
            /\ fees (snd (update_user_raw d who sql_id q)) = fees d
            /\ Forall2 (fun u u' => u_id u' = u_id u /\ u_role u' = u_role u
                                    /\ u_password u' = u_password u
                                    /\ u_is_active u' = u_is_active u
                                    /\ (sql_id <> Some (u_id u) -> u' = u)
                                    /\ (uu_id q <> id_of who -> u' = u))
                       (users d) (users (snd (update_user_raw d who sql_id q)))).
  { unfold update_user_raw. rewrite Hrole. cbn [role_eqb andb].
    destruct (uu_id q =? id_of who) eqn:Eown; cbn [negb];
      [|repeat split; apply Hsame].
    apply Z.eqb_eq in Eown.
    destruct sql_id as [id|]; [|repeat split; apply Hsame].
    destruct (users_by_id d id) as [|cur tl]; [repeat split; apply Hsame|].
    destruct (email_taken_raw d id q cur); [repeat split; apply Hsame|].
    destruct (update_fields who q) as [|f0 fs] eqn:Ef; [repeat split; apply Hsame|].
    rewrite <- Ef. clear Ef f0 fs.
    unfold adjust_occupancy, is_admin. rewrite Hrole. cbn [role_eqb snd].
    cbn [rooms attendance fees users with_users].
    split; [reflexivity|]. split; [reflexivity|]. split; [reflexivity|].
    eapply Forall2_impl; [|apply update_where_Forall2].
    intros u u' ->.
    destruct (u_id u =? id) eqn:E.
    - destruct (apply_fields_keeps _ (student_fields_frame who q Hrole) u)
        as (H1 & H2 & H3 & H4).
      repeat split; auto.
      + intros Hneq. apply Z.eqb_eq in E. subst id. now contradiction Hneq.
      + intros Hneq. contradiction.
    - repeat split; auto. }
  destruct Hmain as (Hrooms & Hatt & Hfees & Husers).
  split; [exact Hrooms|]. split; [exact Hatt|]. split; [exact Hfees|].
  split; [exact Husers|].
  intros ->. split; [apply update_user_raw_numeral|].
  eapply Forall2_impl; [|exact Husers].
  intros u u' (_ & _ & _ & _ & Hsql & Hguard) Hother.
  destruct (Z.eq_dec (uu_id q) (id_of who)) as [E|E]; [|now apply Hguard].
  apply Hsql. rewrite E. intros [= Heq]. now apply Hother.
Qed.

Lemma student_update_frame_witness :
  let q := mkUpdateUser 1 (str "Asha K") undefined (str "102") undefined
                        (str "555-0101") (Some false) None in
  let res := update_user_raw hostel_db asha (Some 1) q in
  let crossed := update_user_raw wing_db asha (Some 10) q in
  succeeds res
  /\ rooms (snd res) = rooms hostel_db
  /\ map u_is_active (users (snd res)) = [true; true; true]
  /\ map u_name (users (snd res)) = ["Asha K"; "Bilal"; "Chitra"]
  /\ rooms (snd crossed) = rooms wing_db
  /\ map u_name (users (snd crossed)) = ["Asha"; "Asha K"].
Proof.
  cbv zeta. split; [reflexivity|].
  destruct (student_update_frame hostel_db asha (Some 1)
              (mkUpdateUser 1 (str "Asha K") undefined (str "102") undefined
                            (str "555-0101") (Some false) None) eq_refl)
    as (Hrooms & _).
  destruct (student_update_frame wing_db asha (Some 10)
              (mkUpdateUser 1 (str "Asha K") undefined (str "102") undefined
                            (str "555-0101") (Some false) None) eq_refl)
    as (Hcrossed & _).
  split; [exact Hrooms|]. split; [reflexivity|]. split; [reflexivity|].
  split; [exact Hcrossed|reflexivity].
Defined.

(** ** Attendance: marking twice, and the statistics *)

Lemma existing_after_insert (d : db) (userId date : Z) (st : att_status)
      (t_in t_out : option string) :
  existing_attendance (insert_attendance d userId date st t_in t_out) userId date
  = (existing_attendance d userId date
     ++ [mkAtt (next_attendance_id d) userId date st t_in t_out])%list.
Proof.
  unfold existing_attendance, insert_attendance, insert_row, select_where.
  cbn [attendance]. rewrite filter_app. cbn [filter a_user_id a_date].
  now rewrite !Z.eqb_refl.
Qed.

(** X16. A second scan on the same day is refused.  After a successful QR
    mark, the same requester presenting the same QR code again on the same
    UTC day, at whatever time, is answered with Conflict and nothing is
    recorded. *)
Theorem mark_twice_same_day (d : db) (who : identity) (q : mark_req)
        (now later : clock) :
  succeeds (mark d who q now) ->
  utc_date later = utc_date now ->
  rejects (mark (snd (mark d who q now)) who q later) Conflict
          (snd (mark d who q now)).
Proof.
  unfold succeeds, rejects. intros Hok Hday.
  assert (Hfirst : exists userId st t_in,
             snd (mark d who q now)
             = insert_attendance d userId (utc_date now) st t_in None
             /\ forall d', mark d' who q later
                           = match existing_attendance d' userId (utc_date later) with
                             | _ :: _ =>
                               (mkResp 400 "Attendance already marked for today", d')
                             | [] =>
                               (mkResp 200 "Attendance marked successfully",
                                insert_attendance
                                  d' userId (utc_date later)
                                  (if js_gt (time_string later) "08:00:00"
                                   then late else present)
                                  (Some (time_string later)) None)
                             end).
  { revert Hok. unfold mark.
    destruct (negb (truthy (mk_qrData q))); [discriminate|].
    destruct (mk_parsed q) as [| |[userId|] name email]; try discriminate.
    destruct ((userId =? 0) || negb (truthy name) || negb (truthy email));
      [discriminate|].
    destruct (role_eqb (role_of who) student && negb (userId =? id_of who));
      [discriminate|].
    destruct (existing_attendance d userId (utc_date now)); [|discriminate].
    intros _. do 3 eexists. split; reflexivity. }
  destruct Hfirst as (userId & st & t_in & -> & Hsecond).
  rewrite Hsecond, Hday, existing_after_insert.
  destruct (existing_attendance d userId (utc_date now)); split; reflexivity.
Qed.

Lemma mark_twice_same_day_witness :
  rejects (mark (snd (mark fresh_db asha asha_qr (at_time 7 30 0)))
                asha asha_qr (at_time 21 15 0))
          Conflict (snd (mark fresh_db asha asha_qr (at_time 7 30 0))).
Proof.
  apply (mark_twice_same_day fresh_db asha asha_qr (at_time 7 30 0)
                             (at_time 21 15 0)); reflexivity.
Defined.

Lemma status_counts (rows : list attendance_row) :
  (List.length (filter (fun a => att_status_eqb (a_status a) present) rows)
   + List.length (filter (fun a => att_status_eqb (a_status a) absent) rows)
   + List.length (filter (fun a => att_status_eqb (a_status a) late) rows))%nat
  = List.length rows.
Proof.
  induction rows as [|a rows IH]; [reflexivity|]. cbn [filter].
  destruct (a_status a); cbn [att_status_eqb List.length]; lia.
Qed.

Lemma sum_case_some (st : att_status) (rows : list attendance_row) :
  rows <> [] ->
  sum_case st rows
  = Some (Z.of_nat (List.length
                      (filter (fun a => att_status_eqb (a_status a) st) rows))).
Proof. destruct rows; [congruence|reflexivity]. Qed.

(** X17. The counts of the statistics route add up.  With no record in the
    range the total is 0 and the three sums are NULL; otherwise present,
    absent and late days are non-negative and their sum is the total. *)
Theorem attendance_stats_counts (decimalNumbers : bool) (d : db) (who : identity)
        (userId : Z) (startDate endDate : option Z) :
  let st := attendance_stats decimalNumbers d who userId startDate endDate in
  (totalDays st = 0 /\ presentDays st = None /\ absentDays st = None
   /\ lateDays st = None)
  \/ (0 < totalDays st
      /\ exists p a l,
           presentDays st = Some p /\ absentDays st = Some a
           /\ lateDays st = Some l
           /\ 0 <= p /\ 0 <= a /\ 0 <= l /\ p + a + l = totalDays st).
Proof.
  cbv zeta. unfold attendance_stats.
  cbn [totalDays presentDays absentDays lateDays].
  destruct (stats_rows d (if is_admin who then userId else id_of who)
                       startDate endDate) as [|a rows] eqn:E.
  - left. repeat split.
  - right. rewrite <- E. split; [rewrite E; cbn [List.length]; lia|].
    rewrite !sum_case_some by (rewrite E; discriminate).
    do 3 eexists. split; [reflexivity|]. split; [reflexivity|].
    split; [reflexivity|].
    pose proof (status_counts (stats_rows d (if is_admin who then userId
                                             else id_of who)
                                          startDate endDate)).
    lia.
Qed.

Lemma filter_filter {A} (p q : A -> bool) (t : list A) :
  filter (fun x => p x && q x) t = filter q (filter p t).
Proof.
  induction t as [|a t IH]; [reflexivity|]. cbn [filter].
  destruct (p a); cbn [andb filter]; [destruct (q a)|]; now rewrite IH.
Qed.

Lemma stats_rows_own (d : db) (target : Z) (startDate endDate : option Z) :
  stats_rows d target startDate endDate
  = filter (fun a => match startDate with
                     | Some s => a_date a >=? s
                     | None => true
                     end
                     && match endDate with
                        | Some e => a_date a <=? e
                        | None => true
                        end)
           (select_where (fun a => a_user_id a =? target) (attendance d)).
Proof.
  unfold stats_rows, select_where. rewrite <- filter_filter.
  apply filter_ext. intros a. now rewrite andb_assoc.
Qed.

(** X18. A student's statistics are the student's own.  Whatever user id
    the request names, a student requester gets the statistics of their own
    records: two stores that hold the same records for this student give the
    same answer, whatever they hold for anybody else. *)
Theorem student_stats_own_records (decimalNumbers : bool) (d d' : db)
        (who : identity) (userId userId' : Z) (startDate endDate : option Z) :
  role_of who = student ->
  select_where (fun a => a_user_id a =? id_of who) (attendance d)
  = select_where (fun a => a_user_id a =? id_of who) (attendance d') ->
  attendance_stats decimalNumbers d who userId startDate endDate
  = attendance_stats decimalNumbers d' who userId' startDate endDate.
Proof.
  intros Hrole Hown. unfold attendance_stats, is_admin. rewrite Hrole.
  cbn [role_eqb].
  rewrite !stats_rows_own, Hown. reflexivity.
Qed.

Lemma student_stats_own_records_witness :
  attendance_stats false (term_db 10 8 2) asha 77 None None
  = attendance_stats false (snd (manual (term_db 10 8 2) warden
                                        (mkManual 5 20003 absent null null)))
                     asha 1 None None.
Proof.
  apply (student_stats_own_records
           false (term_db 10 8 2)
           (snd (manual (term_db 10 8 2) warden
                        (mkManual 5 20003 absent null null)))
           asha 77 1 None None eq_refl).
  reflexivity.
Defined.

(** ** chatbot.js: the keyword chain *)

Lemma lower_upper_ascii (c : ascii) : lower_ascii (upper_ascii c) = lower_ascii c.
Proof.
  destruct c as [[] [] [] [] [] [] [] []]; reflexivity.
Qed.

Lemma toLowerCase_toUpperCase (s : string) :
  toLowerCase (toUpperCase s) = toLowerCase s.
Proof.
  induction s as [|c s IH]; [reflexivity|].
  cbn [toUpperCase toLowerCase]. now rewrite lower_upper_ascii, IH.
Qed.

(** X19. The chatbot does not look at letter case: a question written in
    ASCII gets the same answer when it is typed in capitals. *)
Theorem ask_ignores_case (q : string) :
  is_ascii q = true ->
  match ask (str q), ask (str (toUpperCase q)) with
  | data (_, answer), data (_, answer') => answer' = answer
  | failed r, failed r' => r' = r
  | _, _ => False
  end.
Proof.
  intros _. unfold ask. destruct q as [|c q]; [reflexivity|].
  cbn [truthy truthy_string negb toUpperCase].
  change (String (upper_ascii c) (toUpperCase q)) with (toUpperCase (String c q)).
  now rewrite toLowerCase_toUpperCase.
Qed.

Lemma ask_ignores_case_witness :
  is_ascii "is the wifi free?" = true
  /\ match ask (str "is the wifi free?"),
           ask (str (toUpperCase "is the wifi free?")) with
     | data (_, answer), data (_, answer') => answer' = answer
     | failed r, failed r' => r' = r
     | _, _ => False
     end.
Proof.
  split; [reflexivity|].
  apply (ask_ignores_case "is the wifi free?"). reflexivity.
Defined.

(** X20. Every entry of the FAQ answers itself: asking the question of an
    entry of [chatbotData], word for word, returns the answer of that
    entry, no keyword of an earlier branch of the chain occurring in it. *)
Theorem faq_questions_answered :
  Forall (fun item => ask (str (faq_question item))
                      = data (faq_question item, faq_answer item))
         chatbotData.
Proof.
  unfold chatbotData. repeat (constructor; [vm_compute; reflexivity|]).
  constructor.
Qed.

(** ** users.js: deleting a user and the counters *)

Lemma delete_where_absent {A} (key : A -> Z) (id : Z) (t : list A) :
  ~ In id (map key t) -> delete_where (fun row => key row =? id) t = t.
Proof.
  unfold delete_where. induction t as [|a t IH]; cbn [map filter]; intros Hno;
    [reflexivity|].
  assert (E : (key a =? id) = false)
    by (apply Z.eqb_neq; intros E; apply Hno; now left).
  rewrite E. cbn [negb]. f_equal. apply IH. intros H. apply Hno. now right.
Qed.

Lemma count_delete_one {A} (key : A -> Z) (p : A -> bool) (t : list A) (x : A) :
  NoDup (map key t) -> In x t ->
  Z.of_nat (List.length (filter p (delete_where (fun row => key row =? key x) t)))
  + (if p x then 1 else 0)
  = Z.of_nat (List.length (filter p t)).
Proof.
  induction t as [|a t IH]; cbn [map]; intros Hnd Hin; [easy|].
  inversion Hnd as [|k ks Hk Hnd']; subst.
  destruct Hin as [->|Hin].
  - unfold delete_where. cbn [filter]. rewrite Z.eqb_refl. cbn [negb].
    fold (delete_where (fun row => key row =? key x) t).
    rewrite (delete_where_absent key (key x) t Hk).
    destruct (p x); cbn [List.length]; lia.
  - assert (E : (key a =? key x) = false).
    { apply Z.eqb_neq. intros E. apply Hk. rewrite E. now apply in_map. }
    specialize (IH Hnd' Hin). unfold delete_where in *. cbn [filter].
    rewrite E. cbn [negb filter].
    destruct (p a); cbn [List.length]; lia.
Qed.

(** X21. Deleting a user keeps the counters true when the user deleted is
    an active student or names no room: on tables with their keys, if every
    room counts exactly the occupants its listing shows, it still does
    after the deletion. *)
Theorem delete_user_keeps_occupancy (d : db) (id : Z) :
  tables_keyed d -> occupancy_consistent d ->
  (forall u, In u (users d) -> u_id u = id -> truthy_col (u_room_no u) = true ->
             is_student u = true /\ u_is_active u = true) ->
  occupancy_consistent (snd (delete_user d id)).
Proof.
  intros (Hrid & Hrno & Htruthy & Huid) Hcons Hactive. unfold delete_user.
  destruct (users_by_id d id) as [|user0 tl] eqn:E; [exact Hcons|].
  assert (Hu : hd_error (users_by_id d id) = Some user0) by now rewrite E.
  destruct (select_where_hd _ _ _ Hu) as [Hin Hid]. apply Z.eqb_eq in Hid.
  subst id. cbn [snd].
  assert (Hcount : forall x,
             Z.of_nat (List.length
                         (filter (is_occupant x)
                                 (delete_where (fun u => u_id u =? u_id user0)
                                               (users d))))
             + (if is_occupant x user0 then 1 else 0)
             = Z.of_nat (List.length (filter (is_occupant x) (users d)))).
  { intros x. exact (count_delete_one u_id (is_occupant x) (users d) user0 Huid Hin). }
  unfold occupancy_consistent in *. rewrite Forall_forall in *.
  destruct (truthy_col (u_room_no user0)) eqn:Hroom.
  - destruct (u_room_no user0) as [rn|] eqn:Ern; [|discriminate].
    cbn [truthy_col] in Hroom. rewrite Hroom.
    destruct (Hactive user0 Hin eq_refl) as [Hstu Hact];
      [rewrite Ern; exact Hroom|].
    cbn [rooms bump_room_no with_rooms with_users].
    intros r' Hr'. unfold update_where in Hr'.
    apply in_map_iff in Hr' as (r & <- & Hr).
    replace (r_room_no (if String.eqb (r_room_no r) rn
                        then set_occupied (r_occupied r + -1) r else r))
      with (r_room_no r) by (destruct (String.eqb (r_room_no r) rn); reflexivity).
    rewrite occupants_length. cbn [users with_rooms with_users].
    specialize (Hcount (r_room_no r)). specialize (Hcons r Hr).
    rewrite occupants_length in Hcons.
    unfold is_occupant at 2 in Hcount. rewrite Ern, Hstu, Hact in Hcount.
    cbn [col_eqb] in Hcount. rewrite !andb_true_r in Hcount.
    rewrite String.eqb_sym in Hcount.
    destruct (String.eqb (r_room_no r) rn).
    + cbn [set_occupied r_occupied]. rewrite Hcons, <- Hcount.
      exact (Z.add_simpl_r _ 1).
    + rewrite Z.add_0_r in Hcount. rewrite Hcons. symmetry. exact Hcount.
  - assert (Hd2 : rooms match u_room_no user0 with
                        | Some rn =>
                          if truthy_string rn
                          then bump_room_no (-1) rn
                                 (with_users
                                    (delete_where (fun u => u_id u =? u_id user0)
                                                  (users d)) d)
                          else with_users
                                 (delete_where (fun u => u_id u =? u_id user0)
                                               (users d)) d
                        | None =>
                          with_users (delete_where (fun u => u_id u =? u_id user0)
                                                   (users d)) d
                        end = rooms d
                  /\ users match u_room_no user0 with
                           | Some rn =>
                             if truthy_string rn
                             then bump_room_no (-1) rn
                                    (with_users
                                       (delete_where (fun u => u_id u =? u_id user0)
                                                     (users d)) d)
                             else with_users
                                    (delete_where (fun u => u_id u =? u_id user0)
                                                  (users d)) d
                           | None =>
                             with_users (delete_where (fun u => u_id u =? u_id user0)
                                                      (users d)) d
                           end
                     = delete_where (fun u => u_id u =? u_id user0) (users d)).
    { destruct (u_room_no user0) as [rn|]; cbn [truthy_col] in Hroom;
        [rewrite Hroom|]; split; reflexivity. }
    destruct Hd2 as [Hrooms Husers]. rewrite Hrooms.
    intros r Hr. rewrite occupants_length, Husers.
    specialize (Hcount (r_room_no r)). specialize (Hcons r Hr).
    rewrite occupants_length in Hcons.
    rewrite (falsy_not_occupant _ user0 (Htruthy r Hr) Hroom), Z.add_0_r in Hcount.
    rewrite Hcons. symmetry. exact Hcount.
Qed.

Lemma delete_user_keeps_occupancy_witness :
  occupancy_consistent (snd (delete_user hostel_db 3))
  /\ map r_occupied (rooms (snd (delete_user hostel_db 3))) = [0; 1].
Proof.
  split; [|reflexivity].
  apply (delete_user_keeps_occupancy hostel_db 3 hostel_db_keyed
                                     hostel_db_consistent).
  intros u [<-|[<-|[<-|[]]]] _ _; split; reflexivity.
Defined.

(** ** rooms.js: the availability figures *)

Lemma sum_rows_some {A} (e : A -> Z) (rows : list A) :
  rows <> [] -> sum_rows e rows = Some (fold_right (fun row acc => e row + acc) 0 rows).
Proof. destruct rows; [congruence|reflexivity]. Qed.

Lemma vacant_plus_occupied (rows : list room) :
  fold_right (fun r acc => (if r_occupied r =? 0 then 1 else 0) + acc) 0 rows
  + fold_right (fun r acc => (if r_occupied r >? 0 then 1 else 0) + acc) 0 rows
  + Z.of_nat (List.length (filter (fun r => r_occupied r <? 0) rows))
  = Z.of_nat (List.length rows).
Proof.
  induction rows as [|r rows IH]; [reflexivity|]. cbn [fold_right filter].
  rewrite Z.gtb_ltb.
  destruct (Z.eqb_spec (r_occupied r) 0), (Z.ltb_spec 0 (r_occupied r)),
    (Z.ltb_spec (r_occupied r) 0); cbn [List.length]; lia.
Qed.

(** X22. The availability figures.  Over the active rooms, the vacant rooms
    and the occupied rooms together are all the rooms except those whose
    occupied counter is negative; the two figures add up to the total
    exactly when no active room has a negative counter. *)
Theorem availability_adds_up (d : db) :
  select_where r_is_active (rooms d) <> [] ->
  let av := availability_overall d in
  exists vacant occupied_,
    vacant_rooms av = Some vacant /\ occupied_rooms av = Some occupied_
    /\ vacant + occupied_
       + Z.of_nat (List.length
                     (filter (fun r => r_occupied r <? 0)
                             (select_where r_is_active (rooms d))))
       = total_rooms av
    /\ (vacant + occupied_ = total_rooms av
        <-> Forall (fun r => r_is_active r = true -> 0 <= r_occupied r) (rooms d)).
Proof.
  intros Hne. cbv zeta. unfold availability_overall.
  cbn [vacant_rooms occupied_rooms total_rooms].
  rewrite !sum_rows_some by exact Hne.
  do 2 eexists. split; [reflexivity|]. split; [reflexivity|].
  pose proof (vacant_plus_occupied (select_where r_is_active (rooms d))) as Hsum.
  split; [exact Hsum|].
  set (neg := filter (fun r => r_occupied r <? 0)
                     (select_where r_is_active (rooms d))) in *.
  split.
  - intros Heq.
    assert (Hnil : neg = []) by (destruct neg; [reflexivity|cbn in Hsum; lia]).
    apply Forall_forall. intros r Hr Hact.
    destruct (Z.ltb_spec (r_occupied r) 0) as [Hneg|]; [|assumption].
    exfalso.
    assert (Hin : In r neg).
    { unfold neg, select_where. apply filter_In. split.
      - apply filter_In. now split.
      - now apply Z.ltb_lt. }
    rewrite Hnil in Hin. exact Hin.
  - intros Hall.
    assert (Hnil : neg = []).
    { unfold neg. apply select_where_nil. intros r Hr.
      apply filter_In in Hr as [Hr Hact]. rewrite Forall_forall in Hall.
      apply Z.ltb_ge. now apply Hall. }
    rewrite Hnil in Hsum. cbn [List.length Z.of_nat] in Hsum. lia.
Qed.

Lemma availability_adds_up_witness :
  let d := snd (unassign (snd (update_user fresh_db asha (move_to 1 "101")))
                         1 (Some 1)) in
  vacant_rooms (availability_overall d) = Some 0
  /\ occupied_rooms (availability_overall d) = Some 0
  /\ total_rooms (availability_overall d) = 1.
Proof.
  cbv zeta.
  destruct (availability_adds_up
              (snd (unassign (snd (update_user fresh_db asha (move_to 1 "101")))
                             1 (Some 1))))
    as (v & o & Hv & Ho & _); [discriminate|].
  repeat split; reflexivity.
Defined.

(** ** Attendance: the manual entry *)

(** X23. The manual entry.  A requester who is not an admin is refused with
    Forbidden.  For an admin and a user and day without a record: a body
    that carries both times (each a string or null) is recorded as one new
    row, under the next id, with that user, day and times and with the
    status the body gives, whatever the time of day; a body that leaves a
    time out is answered 500 and records nothing, the INSERT being refused
    by the driver. *)
Theorem manual_spec (d : db) (who : identity) (q : manual_req) :
  let res := manual d who q in
  (role_of who = student -> rejects res Forbidden d)
  /\ (role_of who = admin ->
      existing_attendance d (mn_userId q) (mn_date q) = [] ->
      (mn_checkInTime q = undefined \/ mn_checkOutTime q = undefined ->
       rejects res Failure d)
      /\ (mn_checkInTime q <> undefined ->
          mn_checkOutTime q <> undefined ->
          succeeds res
          /\ (exists row, attendance (snd res) = (attendance d ++ [row])%list
                          /\ a_id row = next_attendance_id d
                          /\ a_user_id row = mn_userId q
                          /\ a_date row = mn_date q
                          /\ a_status row = mn_status q
                          /\ a_check_in_time row = to_col (mn_checkInTime q)
                          /\ a_check_out_time row = to_col (mn_checkOutTime q))
          /\ users (snd res) = users d /\ rooms (snd res) = rooms d
          /\ fees (snd res) = fees d)).
Proof.
  cbv zeta. unfold rejects, succeeds, manual, is_admin. split.
  - intros ->. split; reflexivity.
  - intros -> ->. cbn [role_eqb negb]. split.
    + intros [-> | ->]; cbn [bindable andb negb];
        [|rewrite andb_false_r]; split; reflexivity.
    + intros Hin Hout.
      assert (Hbound : bindable (mn_checkInTime q) && bindable (mn_checkOutTime q)
                       = true).
      { destruct (mn_checkInTime q); [contradiction| |];
          (destruct (mn_checkOutTime q); [contradiction| |]); reflexivity. }
      rewrite Hbound. cbn [negb fst snd].
      split; [reflexivity|].
      split; [eexists; split; [reflexivity|]; repeat split|].
      repeat split.
Qed.

Lemma manual_spec_witness :
  let entry := mkManual 1 20000 late (str "09:40:00") null in
  let blank := mkManual 1 20000 late (str "09:40:00") undefined in
  rejects (manual fresh_db asha entry) Forbidden fresh_db
  /\ rejects (manual fresh_db warden blank) Failure fresh_db
  /\ succeeds (manual fresh_db warden entry)
  /\ map (fun a => (a_user_id a, a_date a, a_status a))
         (attendance (snd (manual fresh_db warden entry)))
     = [(1, 20000, late)].
Proof.
  cbv zeta.
  destruct (manual_spec fresh_db warden (mkManual 1 20000 late (str "09:40:00")
                                                  undefined))
    as (_ & Hblank).
  destruct (manual_spec fresh_db warden (mkManual 1 20000 late (str "09:40:00")
                                                  null))
    as (_ & Hentry).
  split.
  { apply (proj1 (manual_spec fresh_db asha (mkManual 1 20000 late
                                                      (str "09:40:00") null))).
    reflexivity. }
  split.
  { apply (proj1 (Hblank eq_refl eq_refl)). right. reflexivity. }
  destruct (proj2 (Hentry eq_refl eq_refl)) as (Hok & _);
    [discriminate|discriminate|].
  split; [exact Hok|reflexivity].
Defined.
